(** * College event feedback analysis: a shallow embedding and its properties

    The program (college_event_feedback_analysis.py) is a linear pipeline over
    one pandas DataFrame:

      create_dummy_data -> clean_data -> perform_sentiment_analysis
                        -> visualize_data -> generate_insights

    Embedding conventions.
    - A Python float and a float64 cell are IEEE binary64 values: Rocq's
      primitive [float].  A missing numeric cell is NaN, as in pandas.
    - A DataFrame is columnar, as pandas stores it: a record of columns, each
      a list of cells, all of the same length.
    - Library calls (pandas, numpy, TextBlob, wordcloud) are modelled by their
      documented behaviour on the calls the program makes; the text scorer
      and the word-cloud renderer are parameters.  The pandas modelled is the
      one the program runs on (before 3.0: the hourly frequency is spelled
      'H', and an in-place fill or replace on [df[col]] updates [df]).
    - The outcomes of the random calls of the generator are an argument of
      its model.
    - Printing and saving figures are effects: they are recorded in a log by a
      small state-and-exception monad. *)

From Stdlib Require Import List ZArith String Ascii Bool Lia Floats.
From Stdlib Require Import DecimalString.
From Stdlib Require Uint63.
From Stdlib Require Import Permutation Sorted.
Import ListNotations.

Set Warnings "-inexact-float".

(** * Part I: the program *)

(** ** Python floats: binary64 values, conversion and formatting *)

Module PyFloat.
Open Scope float_scope.

(** [math.isnan] / [numpy.isnan]. *)
Definition isnan (x : float) : bool := PrimFloat.is_nan x.

(** A float that is not NaN. *)
Definition number (x : float) : Prop := isnan x = false.

(** A binary64 value that is neither NaN nor negative. *)
Definition nonneg (x : spec_float) : Prop :=
  match x with
  | S754_zero _ => True
  | S754_finite false _ _ => True
  | S754_infinity false => True
  | _ => False
  end.

(** A binary64 value that is not NaN and has the sign [s]. *)
Definition signed (s : bool) (x : spec_float) : Prop :=
  match x with
  | S754_nan => False
  | S754_zero s' | S754_infinity s' | S754_finite s' _ _ => s' = s
  end.

(** [float(z)] for an int64 [z]: the nearest binary64 value, halves to even.
    The magnitude is converted as an unsigned 63-bit integer; the one int64
    whose magnitude is not one, -2^63, is a power of two and is its own
    float. *)
Definition of_int (z : Z) : float :=
  if (z <? 0)%Z then
    if (z =? - 2 ^ 63)%Z then -9223372036854775808
    else - PrimFloat.of_uint63 (Uint63.of_Z (- z))
  else PrimFloat.of_uint63 (Uint63.of_Z z).

(** The integer nearest to [num / den] (for [0 <= num], [0 < den]), halves to
    the even neighbour. *)
Definition div_round_half_even (num den : Z) : Z :=
  let q := (num / den)%Z in
  let r := (num mod den)%Z in
  match (2 * r ?= den)%Z with
  | Lt => q
  | Gt => (q + 1)%Z
  | Eq => if Z.even q then q else (q + 1)%Z
  end.

(** The integer nearest to [m * 2^e * 10^d], halves to even: the digits of a
    finite binary64 value printed with [d] decimals. *)
Definition scaled (d : nat) (m : positive) (e : Z) : Z :=
  if (0 <=? e)%Z then (Zpos m * 2 ^ e * 10 ^ Z.of_nat d)%Z
  else div_round_half_even (Zpos m * 10 ^ Z.of_nat d) (2 ^ (- e)).

(** [round(x)] of a finite float: nearest integer, halves to even. *)
Definition py_round (x : float) : Z :=
  match Prim2SF x with
  | S754_finite s m e => if s then (- scaled 0 m e)%Z else scaled 0 m e
  | _ => 0%Z
  end.

(** [str(z)] of an integer. *)
Definition decimal (z : Z) : string := NilZero.string_of_int (Z.to_int z).

Fixpoint zero_pad (d : nat) (s : string) : string :=
  if Nat.leb d (String.length s) then s
  else match d with
       | O => s
       | S d' => String "0" (zero_pad d' s)
       end.

Definition fixed (d : nat) (n : Z) : string :=
  match d with
  | O => decimal n
  | _ => (decimal (n / 10 ^ Z.of_nat d) ++ "." ++
          zero_pad d (decimal (n mod 10 ^ Z.of_nat d)))%string
  end.

(** The format specification [:.df] of an f-string applied to a float: the
    exact binary value rounded to [d] decimals, halves to even. *)
Definition format_fixed (d : nat) (x : float) : string :=
  match Prim2SF x with
  | S754_nan => "nan"
  | S754_infinity s => if s then "-inf" else "inf"
  | S754_zero s => ((if s then "-" else "") ++ fixed d 0)%string
  | S754_finite s m e => ((if s then "-" else "") ++ fixed d (scaled d m e))%string
  end.

End PyFloat.

(** ** Sentiment categories (perform_sentiment_analysis, inner function) *)

Module Sentiment.
Import PyFloat.

(** [get_sentiment_category(polarity)]; the returned value is a Python str. *)
Definition get_sentiment_category (polarity : float) : string :=
  if (0.1 <? polarity)%float then "Positive"%string
  else if (polarity <? -0.1)%float then "Negative"%string
  else "Neutral"%string.

End Sentiment.

(** ** The pandas operations the program calls *)

Module Pandas.
Import PyFloat.
Open Scope float_scope.

(** A float64 column; a missing cell is NaN. *)
Definition column := list float.

(** [col.isnull().any()] *)
Definition isnull_any (col : column) : bool := existsb isnan col.

(** [col.isnull().sum()] *)
Definition isnull_sum (col : column) : nat := List.length (filter isnan col).

(** The non-missing cells, in row order. *)
Definition dropna (col : column) : column :=
  filter (fun x => negb (isnan x)) col.

(** Ascending sort of numbers, as [numpy.sort] on an array without NaN. *)
Fixpoint insert_sorted (x : float) (l : list float) : list float :=
  match l with
  | [] => [x]
  | y :: l' => if x <=? y then x :: y :: l' else y :: insert_sorted x l'
  end.

Fixpoint sort (l : list float) : list float :=
  match l with
  | [] => []
  | x :: l' => insert_sorted x (sort l')
  end.

(** [col.median()] with the default [skipna=True]: NaN cells are dropped, the
    rest is sorted, and the result is the middle value, or the mean of the two
    middle values when their number is even; NaN when nothing is left. *)
Definition median (col : column) : float :=
  let vs := sort (dropna col) in
  let n := List.length vs in
  match n with
  | O => nan
  | _ =>
      if Nat.odd n then nth (n / 2) vs nan
      else (nth (n / 2 - 1) vs nan + nth (n / 2) vs nan) / 2
  end.

(** [col.fillna(value, inplace=True)] *)
Definition fillna (value : float) (col : column) : column :=
  map (fun x => if isnan x then value else x) col.

(** [col.replace(old, new, inplace=True)] on a column of str cells: cells
    equal to [old] become [new]. *)
Definition replace (old new : string) (col : list string) : list string :=
  map (fun s => if String.eqb s old then new else s) col.

(** The dtype of the YearOfStudy column: int64 as generated, or categorical
    with its categories (in category order). *)
Inductive dtype : Type :=
| Int64
| Category (categories : list Z).

Fixpoint insert_unique (x : Z) (l : list Z) : list Z :=
  match l with
  | [] => [x]
  | y :: l' =>
      if (x <? y)%Z then x :: y :: l'
      else if (x =? y)%Z then y :: l'
      else y :: insert_unique x l'
  end.

(** The sorted distinct values of an integer column ([numpy.unique]). *)
Fixpoint unique (l : list Z) : list Z :=
  match l with
  | [] => []
  | x :: l' => insert_unique x (unique l')
  end.

(** [col.astype('category')]: the values are kept; an int64 column gets its
    sorted distinct values as categories, a categorical column is unchanged. *)
Definition astype_category (values : list Z) (d : dtype) : dtype :=
  match d with
  | Int64 => Category (unique values)
  | Category cats => Category cats
  end.


End Pandas.

(** ** The feedback table and the cleaner *)

Module Frame.
Import PyFloat Pandas.
Open Scope float_scope.

(** The base table built by [create_dummy_data] (one list per column).
    [Timestamp] holds datetime64[ns] values as nanoseconds since the epoch;
    [OverallRating] and [YearOfStudy] are int64; the three secondary rating
    columns are float64 once a missing value has been stored in them. *)
Record DataFrame : Type := mkDataFrame {
  Timestamp : list Z;
  OverallRating : list Z;
  SpeakerRating : column;
  WorkshopRating : column;
  FoodRating : column;
  WhatDidYouLike : list string;
  Improvements : list string;
  AttendedEvents : list string;
  YearOfStudy : list Z;
  YearOfStudy_dtype : dtype
}.

(** The names the cleaner's loop ranges over. *)
Inductive RatingColumn : Type := Speaker | Workshop | Food.

(** [df[col]] *)
Definition get_rating (col : RatingColumn) (df : DataFrame) : column :=
  match col with
  | Speaker => SpeakerRating df
  | Workshop => WorkshopRating df
  | Food => FoodRating df
  end.

(** [df[col]] after an in-place update of that column. *)
Definition set_rating (col : RatingColumn) (v : column) (df : DataFrame) : DataFrame :=
  match col with
  | Speaker =>
      mkDataFrame (Timestamp df) (OverallRating df) v (WorkshopRating df)
        (FoodRating df) (WhatDidYouLike df) (Improvements df)
        (AttendedEvents df) (YearOfStudy df) (YearOfStudy_dtype df)
  | Workshop =>
      mkDataFrame (Timestamp df) (OverallRating df) (SpeakerRating df) v
        (FoodRating df) (WhatDidYouLike df) (Improvements df)
        (AttendedEvents df) (YearOfStudy df) (YearOfStudy_dtype df)
  | Food =>
      mkDataFrame (Timestamp df) (OverallRating df) (SpeakerRating df)
        (WorkshopRating df) v (WhatDidYouLike df) (Improvements df)
        (AttendedEvents df) (YearOfStudy df) (YearOfStudy_dtype df)
  end.

Definition set_WhatDidYouLike (v : list string) (df : DataFrame) : DataFrame :=
  mkDataFrame (Timestamp df) (OverallRating df) (SpeakerRating df)
    (WorkshopRating df) (FoodRating df) v (Improvements df)
    (AttendedEvents df) (YearOfStudy df) (YearOfStudy_dtype df).

Definition set_Improvements (v : list string) (df : DataFrame) : DataFrame :=
  mkDataFrame (Timestamp df) (OverallRating df) (SpeakerRating df)
    (WorkshopRating df) (FoodRating df) (WhatDidYouLike df) v
    (AttendedEvents df) (YearOfStudy df) (YearOfStudy_dtype df).

Definition set_YearOfStudy_dtype (d : dtype) (df : DataFrame) : DataFrame :=
  mkDataFrame (Timestamp df) (OverallRating df) (SpeakerRating df)
    (WorkshopRating df) (FoodRating df) (WhatDidYouLike df) (Improvements df)
    (AttendedEvents df) (YearOfStudy df) d.

(** [df.shape[0]] *)
Definition nrows (df : DataFrame) : nat := List.length (Timestamp df).

(** All columns of a DataFrame have the same number of rows. *)
Definition well_formed (df : DataFrame) : bool :=
  let n := nrows df in
  Nat.eqb (List.length (OverallRating df)) n &&
  Nat.eqb (List.length (SpeakerRating df)) n &&
  Nat.eqb (List.length (WorkshopRating df)) n &&
  Nat.eqb (List.length (FoodRating df)) n &&
  Nat.eqb (List.length (WhatDidYouLike df)) n &&
  Nat.eqb (List.length (Improvements df)) n &&
  Nat.eqb (List.length (AttendedEvents df)) n &&
  Nat.eqb (List.length (YearOfStudy df)) n.

(** One pass of the loop body of [clean_data]:
<<
    if df[col].isnull().any():
        median_val = df[col].median()
        df[col].fillna(median_val, inplace=True)
>>
    The in-place fill on [df[col]] updates the column of [df] (pandas before
    copy-on-write, which the program is written for). *)
Definition fill_missing (df : DataFrame) (col : RatingColumn) : DataFrame :=
  if isnull_any (get_rating col df) then
    let median_val := median (get_rating col df) in
    set_rating col (fillna median_val (get_rating col df)) df
  else df.

(** [clean_data(df)]: the returned table.  The diagnostic prints of the
    function (shape, missing counts, dtypes) do not touch the table and are
    left out. *)
Definition clean_data (df : DataFrame) : DataFrame :=
  let df := fold_left fill_missing [Speaker; Workshop; Food] df in
  let df := set_Improvements (replace "" "No feedback" (Improvements df)) df in
  let df := set_WhatDidYouLike (replace "" "No feedback" (WhatDidYouLike df)) df in
  set_YearOfStudy_dtype (astype_category (YearOfStudy df) (YearOfStudy_dtype df)) df.

(** What [clean_data] does to one rating column. *)
Definition fill_median (col : column) : column :=
  if isnull_any col then fillna (median col) col else col.

(** *** The base schema *)

(** A rating as stored in a float64 column: one of 1.0 .. 5.0. *)
Definition is_rating (x : float) : bool :=
  existsb (Leibniz.eqb x) [1; 2; 3; 4; 5].

(** A rating or the midpoint of two ratings. *)
Definition is_half_rating (x : float) : bool :=
  existsb (Leibniz.eqb x) [1; 1.5; 2; 2.5; 3; 3.5; 4; 4.5; 5].

Definition rating_or_missing (x : float) : bool := isnan x || is_rating x.

Definition int_rating (z : Z) : bool := ((1 <=? z) && (z <=? 5))%Z.

Definition year_label (z : Z) : bool := ((1 <=? z) && (z <=? 4))%Z.

(** The base schema of the data model: equal column lengths, overall ratings
    1..5, secondary ratings 1..5 or missing, years 1..4. *)
Definition base_schema (df : DataFrame) : bool :=
  well_formed df &&
  forallb int_rating (OverallRating df) &&
  forallb rating_or_missing (SpeakerRating df) &&
  forallb rating_or_missing (WorkshopRating df) &&
  forallb rating_or_missing (FoodRating df) &&
  forallb year_label (YearOfStudy df).

(** A non-empty column without a single number. *)
Definition entirely_missing (col : column) : bool :=
  match col with
  | [] => false
  | _ => forallb isnan col
  end.

(** The cleaner's postcondition on missing and empty cells. *)
Definition no_missing_ratings (df : DataFrame) : bool :=
  negb (isnull_any (SpeakerRating df)) &&
  negb (isnull_any (WorkshopRating df)) &&
  negb (isnull_any (FoodRating df)).

Definition no_empty_text (df : DataFrame) : bool :=
  forallb (fun s => negb (String.eqb s "")) (WhatDidYouLike df) &&
  forallb (fun s => negb (String.eqb s "")) (Improvements df).

End Frame.

(** ** Effects: printed lines, saved figures, uncaught exceptions *)

Module Effects.

Inductive event : Type :=
| Print (text : string)        (* print(text) *)
| PrintObject (what : string)  (* print of a pandas object; its text is not modelled *)
| SaveFig (file : string).     (* plt.savefig(file) *)

Inductive exn : Type :=
| ValueError (msg : string)
| IndexError (msg : string).

Section Monad.
Context {S : Type}.

(** A computation over a state [S] that returns a value or raises. *)
Definition M (A : Type) : Type := S -> S * (A + exn).

Definition ret {A : Type} (a : A) : M A := fun s => (s, inl a).

Definition raise {A : Type} (e : exn) : M A := fun s => (s, inr e).

Definition bind {A B : Type} (c : M A) (k : A -> M B) : M B :=
  fun s =>
    match c s with
    | (s', inl a) => k a s'
    | (s', inr e) => (s', inr e)
    end.

Definition gets {A : Type} (f : S -> A) : M A := fun s => (s, inl (f s)).

Definition modify (f : S -> S) : M unit := fun s => (f s, inl tt).

(** A library call that returns or raises. *)
Definition lift {A : Type} (r : A + exn) : M A := fun s => (s, r).

End Monad.

Declare Scope monad_scope.
Delimit Scope monad_scope with monad.
Notation "x <- c ;; k" := (bind c (fun x => k))
  (at level 61, c at next level, right associativity) : monad_scope.
Notation "c ;; k" := (bind c (fun _ => k))
  (at level 61, right associativity) : monad_scope.

End Effects.

(** ** The collaborators: text scorer and word-cloud renderer *)

Module Capability.
Import Effects.

(** The keyword arguments of [WordCloud(...)]. *)
Record WordCloudOptions : Type := mkWordCloudOptions {
  width : Z;
  height : Z;
  background_color : string;
  colormap : option string
}.

Class Capabilities : Type := {
  (** [TextBlob(x).sentiment.polarity] *)
  score_polarity : string -> float;
  image : Type;
  (** [WordCloud(...).generate(text)]: an image, or an exception. *)
  render_wordcloud : WordCloudOptions -> string -> image + exn
}.

End Capability.

(** ** The generator *)

Module Generator.
Import PyFloat Pandas Frame.
Open Scope float_scope.

(** The outcomes of the random calls of [create_dummy_data]: the five
    [np.random.randint] arrays and the row labels of the four [df.sample]
    calls. *)
Record Draws : Type := mkDraws {
  draw_overall : list Z;
  draw_rating : RatingColumn -> list Z;
  draw_year : list Z;
  sample_rating : RatingColumn -> list nat;
  sample_improvements : list nat
}.

Definition periods : nat := 100.

(** 2023-10-01 00:00:00 as a datetime64[ns] value, and one hour. *)
Definition start : Z := 1696118400000000000.
Definition freq_H : Z := 3600000000000.

(** [pd.date_range(start=..., periods=n, freq='H')] *)
Definition date_range (start : Z) (periods : nat) (freq : Z) : list Z :=
  map (fun i => (start + Z.of_nat i * freq)%Z) (seq 0 periods).

(** [l * n] on a Python list. *)
Definition list_mul {A : Type} (l : list A) (n : nat) : list A :=
  List.concat (repeat l n).

Definition likes : list string :=
  [ "The keynote speaker was inspiring.";
    "I loved the hands-on workshop.";
    "The food was great and there were many options.";
    "Networking with professionals was the best part.";
    "The event was well-organized.";
    "Good food";
    "Nothing much";
    "The sessions were very informative.";
    "I enjoyed the variety of topics covered.";
    "The venue was excellent." ]%string.

Definition improvements : list string :=
  [ "The workshop was too crowded.";
    "More vegetarian food options would be nice.";
    "The breaks were too short.";
    "It was hard to find the rooms.";
    "The audio in the main hall was not clear.";
    "Better signage";
    "More interactive sessions";
    "The registration process was a bit slow.";
    "Wi-Fi was unstable.";
    "I wish there were more Q&A opportunities." ]%string.

Definition attended : list string :=
  [ "Keynote, Workshop, Networking";
    "Keynote, Workshop";
    "Networking";
    "Keynote, Networking";
    "Workshop";
    "Keynote";
    "Workshop, Networking";
    "Keynote, Workshop, Networking";
    "Networking";
    "Keynote, Workshop" ]%string.

(** The number of rows [df.sample(frac=frac)] returns on [n] rows:
    [round(frac * n)]. *)
Definition sample_size (frac : float) (n : nat) : nat :=
  Z.to_nat (py_round (frac * of_int (Z.of_nat n))).

(** [i in labels] *)
Definition mem (i : nat) (labels : list nat) : bool := existsb (Nat.eqb i) labels.

(** [df.loc[labels, col] = value] on one column: the rows whose label is in
    [labels] get [value]. *)
Definition loc_assign {A : Type} (labels : list nat) (value : A) (col : list A) : list A :=
  map (fun p => if mem (fst p) labels then value else snd p)
      (combine (seq 0 (List.length col)) col).

(** [create_dummy_data()], given the outcomes of its random calls. *)
Definition create_dummy_data (r : Draws) : DataFrame :=
  let df :=
    mkDataFrame
      (date_range start periods freq_H)
      (draw_overall r)
      (map of_int (draw_rating r Speaker))
      (map of_int (draw_rating r Workshop))
      (map of_int (draw_rating r Food))
      (list_mul likes 10)
      (list_mul improvements 10)
      (list_mul attended 10)
      (draw_year r)
      Int64 in
  let df :=
    fold_left
      (fun df col =>
         set_rating col (loc_assign (sample_rating r col) nan (get_rating col df)) df)
      [Speaker; Workshop; Food] df in
  set_Improvements (loc_assign (sample_improvements r) ""%string (Improvements df)) df.

Definition in_range (lo hi : Z) (z : Z) : bool := ((lo <=? z) && (z <? hi))%Z.

(** What [np.random.randint(lo, hi, n)] guarantees of its result. *)
Definition randint_ok (lo hi : Z) (n : nat) (l : list Z) : bool :=
  Nat.eqb (List.length l) n && forallb (in_range lo hi) l.

Fixpoint distinct (l : list nat) : bool :=
  match l with
  | [] => true
  | x :: l' => negb (mem x l') && distinct l'
  end.

(** What [df.sample(frac=frac).index] guarantees on a table of [n] rows:
    [round(frac * n)] distinct row labels. *)
Definition sample_ok (frac : float) (n : nat) (labels : list nat) : bool :=
  Nat.eqb (List.length labels) (sample_size frac n) &&
  forallb (fun i => Nat.ltb i n) labels &&
  distinct labels.

Definition valid_draws (r : Draws) : bool :=
  randint_ok 1 6 100 (draw_overall r) &&
  randint_ok 1 6 100 (draw_rating r Speaker) &&
  randint_ok 1 6 100 (draw_rating r Workshop) &&
  randint_ok 1 6 100 (draw_rating r Food) &&
  randint_ok 1 5 100 (draw_year r) &&
  sample_ok 0.1 100 (sample_rating r Speaker) &&
  sample_ok 0.1 100 (sample_rating r Workshop) &&
  sample_ok 0.1 100 (sample_rating r Food) &&
  sample_ok 0.05 100 (sample_improvements r).

End Generator.

(** ** The sentiment scorer *)

Module Scorer.
Import PyFloat Pandas Frame Capability Sentiment.

(** The table after [perform_sentiment_analysis]: the cleaned columns and the
    four columns the scorer adds. *)
Record ScoredFrame : Type := mkScoredFrame {
  base : DataFrame;
  like_sentiment : column;
  improvements_sentiment : column;
  like_sentiment_category : list string;
  improvements_sentiment_category : list string
}.

(** [perform_sentiment_analysis(df)] *)
Definition perform_sentiment_analysis `{Capabilities} (df : DataFrame) : ScoredFrame :=
  let like_sentiment := map score_polarity (WhatDidYouLike df) in
  let improvements_sentiment := map score_polarity (Improvements df) in
  mkScoredFrame df like_sentiment improvements_sentiment
    (map get_sentiment_category like_sentiment)
    (map get_sentiment_category improvements_sentiment).

(** The three category labels. *)
Definition categories : list string := ["Positive"; "Neutral"; "Negative"]%string.

Definition is_category (s : string) : bool := existsb (String.eqb s) categories.

End Scorer.

(** ** The visualizer and the insight reporter *)

Module Report.
Import PyFloat Pandas Frame Capability Effects Scorer.
Open Scope float_scope.
Open Scope monad_scope.

(** The table object [sentiment_df] that [main] passes to [visualize_data]
    and then to [generate_insights], and the output produced so far.  The
    table is part of the state so that a write to it by one stage would be
    seen by the next. *)
Record World : Type := mkWorld {
  frame : ScoredFrame;
  out : list event
}.

Definition emit (e : event) : M (S := World) unit :=
  modify (fun w => mkWorld (frame w) (out w ++ [e])).

Definition print (text : string) : M unit := emit (Print text).

Definition print_object (what : string) : M unit := emit (PrintObject what).

Definition savefig (file : string) : M unit := emit (SaveFig file).

(** The newline character of a Python string literal. *)
Definition nl : string := String (ascii_of_nat 10) EmptyString.

(** [df[df[category_column] == label][text_column]] *)
Definition select_where (label : string) (cats texts : list string) : list string :=
  map snd (filter (fun p => String.eqb (fst p) label) (combine cats texts)).

Definition positive_feedback (df : ScoredFrame) : string :=
  String.concat " "
    (select_where "Positive" (like_sentiment_category df) (WhatDidYouLike (base df))).

Definition negative_feedback (df : ScoredFrame) : string :=
  String.concat " "
    (select_where "Negative" (improvements_sentiment_category df)
       (Improvements (base df))).

Definition positive_options : WordCloudOptions :=
  mkWordCloudOptions 800 400 "white" None.

Definition negative_options : WordCloudOptions :=
  mkWordCloudOptions 800 400 "black" (Some "autumn"%string).

(** [col.mean()] of an int64 column: the float64 sum of the cells over their
    count; NaN on an empty column.  The order in which the library adds the
    cells (pairwise in [Series.mean], compensated in [groupby(...).mean]) is
    not modelled: the cells are added from left to right.  The model is that
    of the library where no addition rounds, that is while the cells add up
    to less than 2^53, as ratings do; there every order gives the float of
    the exact sum (lemma [MeanFacts.mean_exact]). *)
Definition mean (l : list Z) : float :=
  fold_left (fun acc z => acc + of_int z) l 0 / of_int (Z.of_nat (List.length l)).

(** [(col.value_counts(normalize=True) * 100).get(label, 0)] *)
Definition percentage (label : string) (cats : list string) : float :=
  match List.length (filter (String.eqb label) cats) with
  | O => 0
  | count => of_int (Z.of_nat count) / of_int (Z.of_nat (List.length cats)) * 100
  end.

(** The group keys of [df.groupby('YearOfStudy')]: the sorted distinct values
    of an int64 column, every category of a categorical one. *)
Definition group_keys (years : list Z) (d : dtype) : list Z :=
  match d with
  | Int64 => unique years
  | Category cats => cats
  end.

(** The OverallRating cells of the rows of one group. *)
Definition group_rows (key : Z) (years ratings : list Z) : list Z :=
  map snd (filter (fun p => Z.eqb (fst p) key) (combine years ratings)).

(** [df.groupby('YearOfStudy')['OverallRating'].mean()]: a Series indexed by
    group key, in key order. *)
Definition groupby_mean (df : DataFrame) : list (Z * float) :=
  map (fun k => (k, mean (group_rows k (YearOfStudy df) (OverallRating df))))
      (group_keys (YearOfStudy df) (YearOfStudy_dtype df)).

(** [series.plot(kind='bar', ...)]: the bar chart of a Series.  The chart's
    axis limits are taken from the position of its first bar, so a Series
    without an entry raises the IndexError of indexing an empty array;
    otherwise the chart is drawn. *)
Definition plot_bar (s : list (Z * float)) : unit + exn :=
  match s with
  | [] => inr (IndexError "index 0 is out of bounds for axis 0 with size 0")
  | _ :: _ => inl tt
  end.

(** [visualize_data(df)].  The count plots, the titles and labels, and
    [imshow] produce no value the program uses; they are taken to succeed and
    are left out.  What is kept is every saved file, every printed line, the
    bar chart of the group means, which raises when there is no group, and
    the two renderer calls; none of their exceptions is caught. *)
Definition visualize_data `{Capabilities} : M (S := World) unit :=
  df <- gets frame ;;
  (* 1. Overall Rating Distribution *)
  savefig "overall_rating_distribution.png" ;;
  print "Saved overall_rating_distribution.png" ;;
  (* 2. Sentiment Analysis of Feedback *)
  savefig "sentiment_analysis_distribution.png" ;;
  print "Saved sentiment_analysis_distribution.png" ;;
  (* 3. Ratings by Year of Study *)
  lift (plot_bar (groupby_mean (base df))) ;;
  savefig "rating_by_year.png" ;;
  print "Saved rating_by_year.png" ;;
  (* 4. Word Clouds for Text Feedback *)
  wordcloud_pos <- lift (render_wordcloud positive_options (positive_feedback df)) ;;
  wordcloud_neg <- lift (render_wordcloud negative_options (negative_feedback df)) ;;
  savefig "feedback_wordclouds.png" ;;
  print "Saved feedback_wordclouds.png".

(** Missing values count as +inf in [idxmin] and [min] ([skipna=True]). *)
Definition nan_to_inf (x : float) : float := if isnan x then infinity else x.

(** [numpy.argmin]: the position of the first smallest value. *)
Fixpoint argmin_from (best_i : nat) (best : float) (i : nat) (l : list float) : nat :=
  match l with
  | [] => best_i
  | x :: l' =>
      if x <? best then argmin_from i x (S i) l'
      else argmin_from best_i best (S i) l'
  end.

Definition argmin (l : list float) : nat :=
  match l with
  | [] => O
  | x :: l' => argmin_from 0 x 1 l'
  end.

Fixpoint min_from (best : float) (l : list float) : float :=
  match l with
  | [] => best
  | x :: l' => if x <? best then min_from x l' else min_from best l'
  end.

(** An index label: a group key, or NaN. *)
Inductive label : Type :=
| Key (k : Z)
| NaNLabel.

Definition str_label (l : label) : string :=
  match l with
  | Key k => decimal k
  | NaNLabel => "nan"
  end.

(** [series.idxmin()]: raises on an empty Series, gives NaN when every value
    is missing, and otherwise the label of the first smallest value. *)
Definition idxmin (s : list (Z * float)) : label + exn :=
  match s with
  | [] => inr (ValueError "attempt to get argmin of an empty sequence")
  | _ =>
      if forallb isnan (map snd s) then inl NaNLabel
      else inl (Key (nth (argmin (map nan_to_inf (map snd s))) (map fst s) 0%Z))
  end.

(** [series.min()] *)
Definition series_min (s : list (Z * float)) : float :=
  if forallb isnan (map snd s) then nan
  else match map nan_to_inf (map snd s) with
       | [] => nan
       | x :: l => min_from x l
       end.

(** The fourth finding of the report. *)
Definition demographics_line (year : label) (lowest : float) : string :=
  nl ++ "4. Attendee Demographics: Year " ++ str_label year ++
  " students gave the lowest average ratings (" ++ format_fixed 2 lowest ++ ").".

(** [generate_insights(df)] *)
Definition generate_insights : M (S := World) unit :=
  df <- gets frame ;;
  print (nl ++ "--- Key Insights and Recommendations ---") ;;
  (* Overall Satisfaction *)
  let avg_rating := mean (OverallRating (base df)) in
  print (nl ++ "1. Overall Satisfaction: The average rating for the event was " ++
         format_fixed 2 avg_rating ++ " out of 5.") ;;
  (if 4 <? avg_rating then
     print "   - Insight: Attendees were generally very satisfied with the event."
   else if 3 <? avg_rating then
     print "   - Insight: Attendees were moderately satisfied, but there is room for improvement."
   else
     print "   - Insight: Overall satisfaction is low, and significant improvements are needed.") ;;
  (* Positive Feedback Analysis *)
  print (nl ++ "2. Positive Feedback: " ++
         format_fixed 1 (percentage "Positive" (like_sentiment_category df)) ++
         "% of 'likes' feedback was clearly positive.") ;;
  print "   - Insight: The most frequently mentioned positive aspects were related to 'speaker', 'workshop', and 'food'." ;;
  print "   - Recommendation: Continue to invest in high-quality speakers and engaging workshops as these are key drivers of satisfaction." ;;
  (* Improvement Areas Analysis *)
  print (nl ++ "3. Areas for Improvement: " ++
         format_fixed 1 (percentage "Negative" (improvements_sentiment_category df)) ++
         "% of 'improvements' feedback was clearly negative.") ;;
  print "   - Insight: Common themes in improvement requests include 'crowded' workshops, need for more 'food options', and better 'signage'." ;;
  print "   - Recommendations:" ;;
  print "     - Consider offering popular workshops multiple times or in larger rooms to manage capacity." ;;
  print "     - Expand catering to include more diverse dietary options (e.g., vegetarian, vegan)." ;;
  print "     - Improve event navigation with clearer signage and perhaps a digital map." ;;
  (* Year of Study Insights *)
  let year_ratings := groupby_mean (base df) in
  lowest_rating_year <- lift (idxmin year_ratings) ;;
  print (demographics_line lowest_rating_year (series_min year_ratings)) ;;
  print ("   - Insight: This suggests the event content may be less relevant or engaging for students in year " ++
         str_label lowest_rating_year ++ ".") ;;
  print "   - Recommendation: Tailor some sessions or tracks specifically for different year groups to enhance relevance and engagement." ;;
  print (nl ++ "--- End of Report ---").

(** *** The output of the two stages, spelled out *)

(** The two figures saved before the bar chart is drawn. *)
Definition first_two : list event :=
  [ SaveFig "overall_rating_distribution.png";
    Print "Saved overall_rating_distribution.png";
    SaveFig "sentiment_analysis_distribution.png";
    Print "Saved sentiment_analysis_distribution.png" ].

(** The three figures saved before the word clouds are rendered. *)
Definition first_three : list event :=
  [ SaveFig "overall_rating_distribution.png";
    Print "Saved overall_rating_distribution.png";
    SaveFig "sentiment_analysis_distribution.png";
    Print "Saved sentiment_analysis_distribution.png";
    SaveFig "rating_by_year.png";
    Print "Saved rating_by_year.png" ].

Definition fourth : list event :=
  [ SaveFig "feedback_wordclouds.png"; Print "Saved feedback_wordclouds.png" ].

(** The lines of the report before the year-of-study finding. *)
Definition report_head (df : ScoredFrame) : list event :=
  [ Print (nl ++ "--- Key Insights and Recommendations ---");
    Print (nl ++ "1. Overall Satisfaction: The average rating for the event was " ++
           format_fixed 2 (mean (OverallRating (base df))) ++ " out of 5.");
    Print (if (4 <? mean (OverallRating (base df)))%float then
             "   - Insight: Attendees were generally very satisfied with the event."
           else if (3 <? mean (OverallRating (base df)))%float then
             "   - Insight: Attendees were moderately satisfied, but there is room for improvement."
           else
             "   - Insight: Overall satisfaction is low, and significant improvements are needed.");
    Print (nl ++ "2. Positive Feedback: " ++
           format_fixed 1 (percentage "Positive" (like_sentiment_category df)) ++
           "% of 'likes' feedback was clearly positive.");
    Print "   - Insight: The most frequently mentioned positive aspects were related to 'speaker', 'workshop', and 'food'.";
    Print "   - Recommendation: Continue to invest in high-quality speakers and engaging workshops as these are key drivers of satisfaction.";
    Print (nl ++ "3. Areas for Improvement: " ++
           format_fixed 1 (percentage "Negative" (improvements_sentiment_category df)) ++
           "% of 'improvements' feedback was clearly negative.");
    Print "   - Insight: Common themes in improvement requests include 'crowded' workshops, need for more 'food options', and better 'signage'.";
    Print "   - Recommendations:";
    Print "     - Consider offering popular workshops multiple times or in larger rooms to manage capacity.";
    Print "     - Expand catering to include more diverse dietary options (e.g., vegetarian, vegan).";
    Print "     - Improve event navigation with clearer signage and perhaps a digital map." ]%string.

(** The lines of the year-of-study finding and the end of the report. *)
Definition report_tail (year : label) (lowest : float) : list event :=
  [ Print (demographics_line year lowest);
    Print ("   - Insight: This suggests the event content may be less relevant or engaging for students in year " ++
           str_label year ++ ".");
    Print "   - Recommendation: Tailor some sessions or tracks specifically for different year groups to enhance relevance and engagement.";
    Print (nl ++ "--- End of Report ---") ]%string.

End Report.

(** ** The script *)

Module Main.
Import PyFloat Pandas Frame Capability Effects Generator Scorer Report.
Open Scope monad_scope.

(** The four diagnostics [clean_data] prints about its argument, a table of
    nine columns. *)
Definition clean_data_diagnostics (df : DataFrame) : M (S := World) unit :=
  print ("Initial data shape: (" ++ decimal (Z.of_nat (nrows df)) ++ ", 9)") ;;
  print_object "missing values before cleaning" ;;
  print_object "missing values after cleaning" ;;
  print_object "data types".

(** The body of [if __name__ == '__main__'], given the outcomes of the random
    calls.  The first three stages are pure and total, so the table they build
    is computed first and placed in the world the effects run in.  The result
    is the final world and either [tt] (exit status 0) or the uncaught
    exception that ended the run. *)
Definition main `{Capabilities} (r : Draws) : World * (unit + exn) :=
  let feedback_df := create_dummy_data r in
  let cleaned_df := clean_data feedback_df in
  let sentiment_df := perform_sentiment_analysis cleaned_df in
  (print "Starting College Event Feedback Analysis Project..." ;;
   (* Step 1 *)
   print (nl ++ "Step 1: Data Loading complete. Dummy data created.") ;;
   print_object "feedback_df.head()" ;;
   (* Step 2 *)
   clean_data_diagnostics feedback_df ;;
   print (nl ++ "Step 2: Data Cleaning complete.") ;;
   print_object "cleaned_df.head()" ;;
   (* Step 3 *)
   print (nl ++ "Step 3: Sentiment Analysis complete.") ;;
   print_object "sentiment_df[...].head()" ;;
   (* Step 4 *)
   print (nl ++ "Step 4: Generating visualizations...") ;;
   visualize_data ;;
   (* Step 5 *)
   generate_insights ;;
   print (nl ++ "Project execution finished. Check the generated image files for visualizations."))
    (mkWorld sentiment_df []).

(** What the script has printed when the visualizer starts. *)
Definition main_prefix (feedback_df : DataFrame) : list event :=
  [ Print "Starting College Event Feedback Analysis Project...";
    Print (nl ++ "Step 1: Data Loading complete. Dummy data created.");
    PrintObject "feedback_df.head()";
    Print ("Initial data shape: (" ++ decimal (Z.of_nat (nrows feedback_df)) ++ ", 9)");
    PrintObject "missing values before cleaning";
    PrintObject "missing values after cleaning";
    PrintObject "data types";
    Print (nl ++ "Step 2: Data Cleaning complete.");
    PrintObject "cleaned_df.head()";
    Print (nl ++ "Step 3: Sentiment Analysis complete.");
    PrintObject "sentiment_df[...].head()";
    Print (nl ++ "Step 4: Generating visualizations...") ]%string.

(** The last line the script prints. *)
Definition farewell : string :=
  nl ++ "Project execution finished. Check the generated image files for visualizations.".

End Main.

(** ** Specification-level notions and sample tables *)

Module Examples.
Import PyFloat Pandas Frame Generator Capability Effects Scorer Report.
Open Scope float_scope.


(** Every rating cell of a table is an integer between 1 and 5. *)
Definition integer_ratings (df : DataFrame) : bool :=
  forallb int_rating (OverallRating df) &&
  forallb is_rating (SpeakerRating df) &&
  forallb is_rating (WorkshopRating df) &&
  forallb is_rating (FoodRating df).

(** 2023-10-01 00:00:00 and one hour, in nanoseconds. *)
Definition t0 : Z := 1696118400000000000.
Definition hour : Z := 3600000000000.

(** Four responses, with missing ratings and an empty improvement text. *)
Definition four_rows : DataFrame :=
  mkDataFrame
    [t0; t0 + hour; t0 + 2 * hour; t0 + 3 * hour]%Z
    [5; 3; 4; 1]%Z
    [1; nan; 4; 5]
    [nan; 2; nan; 5]
    [3; 3; 3; 3]
    ["Good food"; ""; "Nothing much"; "The venue was excellent."]%string
    ["Better signage"; ""; "Wi-Fi was unstable."; ""]%string
    ["Keynote"; "Workshop"; "Networking"; "Keynote"]%string
    [2; 1; 2; 4]%Z
    Int64.

(** One response whose speaker rating is missing: the column has no number. *)
Definition one_row_speaker_missing : DataFrame :=
  mkDataFrame [t0] [3%Z] [nan] [4] [5]
    ["Good food"%string] ["Better signage"%string] ["Keynote"%string]
    [2%Z] Int64.

(** Three responses; two speaker ratings are present, one is missing. *)
Definition three_rows_even_speaker : DataFrame :=
  mkDataFrame [t0; t0 + hour; t0 + 2 * hour]%Z [3; 4; 5]%Z
    [1; 2; nan] [4; 4; 4] [5; 5; 5]
    ["Good food"; "Good food"; "Good food"]%string
    ["Better signage"; "Better signage"; "Better signage"]%string
    ["Keynote"; "Keynote"; "Keynote"]%string
    [1; 2; 3]%Z Int64.

(** A table that needs no cleaning. *)
Definition clean_rows : DataFrame :=
  mkDataFrame [t0; t0 + hour]%Z [3; 4]%Z
    [1; 2.5] [4; 4] [5; 5]
    ["Good food"; "No feedback"]%string
    ["Better signage"; "No feedback"]%string
    ["Keynote"; "Workshop"]%string
    [1; 2]%Z (Category [1; 2]%Z).

(** One possible outcome of the generator's random calls; the three rating
    samples pick the same ten rows. *)
Definition overlapping_draws : Draws :=
  mkDraws (repeat 3%Z 100) (fun _ => repeat 4%Z 100) (repeat 2%Z 100)
    (fun _ => seq 0 10) (seq 3 5).

(** No row of the scored table has the category Positive for its "like"
    text. *)
Definition no_positive (df : ScoredFrame) : bool :=
  forallb (fun c => negb (String.eqb c "Positive")) (like_sentiment_category df).

(** A table the reporter can rank: one year per overall rating, ratings from
    1 to 5, fewer than 2^53 rows, at least one group key, and at least one row
    for every group key. *)
Definition reportable (df : DataFrame) : bool :=
  Nat.eqb (List.length (YearOfStudy df)) (List.length (OverallRating df)) &&
  forallb int_rating (OverallRating df) &&
  (Z.of_nat (List.length (OverallRating df)) <? 2 ^ 53)%Z &&
  negb (Nat.eqb (List.length (group_keys (YearOfStudy df) (YearOfStudy_dtype df))) 0) &&
  forallb (fun k => existsb (Z.eqb k) (YearOfStudy df))
          (group_keys (YearOfStudy df) (YearOfStudy_dtype df)).

(** A table whose year groups the reporter can rank: one year per overall
    rating, ratings from 1 to 5, fewer than 2^50 rows, and a row in at least
    one group. *)
Definition rankable (df : DataFrame) : bool :=
  Nat.eqb (List.length (YearOfStudy df)) (List.length (OverallRating df)) &&
  forallb int_rating (OverallRating df) &&
  (Z.of_nat (List.length (OverallRating df)) <? 2 ^ 50)%Z &&
  existsb (fun k => existsb (Z.eqb k) (YearOfStudy df))
          (group_keys (YearOfStudy df) (YearOfStudy_dtype df)).

(** The group keys of a table are in ascending order. *)
Definition ascending_keys (df : DataFrame) : Prop :=
  StronglySorted Z.lt (group_keys (YearOfStudy df) (YearOfStudy_dtype df)).

(** The words of a text: its maximal runs of characters other than spaces. *)
Fixpoint split_words (cur : string) (s : string) : list string :=
  match s with
  | EmptyString =>
      match cur with
      | EmptyString => []
      | _ => [cur]
      end
  | String c s' =>
      if Ascii.eqb c " " then
        match cur with
        | EmptyString => split_words EmptyString s'
        | _ => cur :: split_words EmptyString s'
        end
      else split_words (cur ++ String c EmptyString) s'
  end.

(** Collaborators for a run without positive feedback: a scorer that finds
    one improvement text negative and everything else neutral, and a renderer
    that, like the wordcloud package, refuses a text without a word. *)
Definition strict_capabilities : Capabilities :=
  {| score_polarity :=
       fun text => if String.eqb text "Wi-Fi was unstable." then (-0.5)%float else 0%float;
     image := list string;
     render_wordcloud :=
       fun _ text =>
         match split_words EmptyString text with
         | [] => inr (ValueError "We need at least 1 word to plot a word cloud, got 0.")
         | ws => inl ws
         end |}.

(** Five responses whose group means are 3.0, 4.5, 2.0 and 4.0 for the years
    1, 2, 3 and 4. *)
Definition spec_year_groups : ScoredFrame :=
  mkScoredFrame
    (mkDataFrame
       [t0; t0 + hour; t0 + 2 * hour; t0 + 3 * hour; t0 + 4 * hour]%Z
       [3; 4; 5; 2; 4]%Z
       [1; 1; 1; 1; 1] [2; 2; 2; 2; 2] [3; 3; 3; 3; 3]
       ["Good food"; "Good food"; "Good food"; "Good food"; "Good food"]%string
       ["Better signage"; "Better signage"; "Better signage"; "Better signage";
        "Better signage"]%string
       ["Keynote"; "Keynote"; "Keynote"; "Keynote"; "Keynote"]%string
       [1; 2; 2; 3; 4]%Z
       (Category [1; 2; 3; 4]%Z))
    [0.7; 0.7; 0.7; 0.7; 0.7] [0; 0; 0; 0; 0]
    ["Positive"; "Positive"; "Positive"; "Positive"; "Positive"]%string
    ["Neutral"; "Neutral"; "Neutral"; "Neutral"; "Neutral"]%string.

(** Two responses of equal rating in a table whose year categories are listed
    in descending order. *)
Definition descending_categories : ScoredFrame :=
  mkScoredFrame
    (mkDataFrame [t0; t0 + hour]%Z [3; 3]%Z
       [1; 1] [2; 2] [3; 3]
       ["Good food"; "Good food"]%string
       ["Better signage"; "Better signage"]%string
       ["Keynote"; "Keynote"]%string
       [2; 1]%Z (Category [2; 1]%Z))
    [0.7; 0.7] [0; 0]
    ["Positive"; "Positive"]%string ["Neutral"; "Neutral"]%string.

(** Three responses of the years 2 and 3 in a table whose year categories are
    1, 2 and 3: the group of year 1 has no row. *)
Definition unobserved_year : ScoredFrame :=
  mkScoredFrame
    (mkDataFrame [t0; t0 + hour; t0 + 2 * hour]%Z [4; 5; 3]%Z
       [1; 1; 1] [2; 2; 2] [3; 3; 3]
       ["Good food"; "Good food"; "Good food"]%string
       ["Better signage"; "Better signage"; "Better signage"]%string
       ["Keynote"; "Keynote"; "Keynote"]%string
       [2; 3; 3]%Z (Category [1; 2; 3]%Z))
    [0.7; 0.7; 0.7] [0; 0; 0]
    ["Positive"; "Positive"; "Positive"]%string
    ["Neutral"; "Neutral"; "Neutral"]%string.

(** Every column of a scored table has one cell per row. *)
Definition aligned (s : ScoredFrame) : bool :=
  well_formed (base s) &&
  Nat.eqb (List.length (like_sentiment s)) (nrows (base s)) &&
  Nat.eqb (List.length (improvements_sentiment s)) (nrows (base s)) &&
  Nat.eqb (List.length (like_sentiment_category s)) (nrows (base s)) &&
  Nat.eqb (List.length (improvements_sentiment_category s)) (nrows (base s)).

(** A scored table without a row. *)
Definition no_rows : ScoredFrame :=
  mkScoredFrame (mkDataFrame [] [] [] [] [] [] [] [] [] Int64) [] [] [] [].

(** The category on the other side of Neutral. *)
Definition mirror (category : string) : string :=
  if String.eqb category "Positive" then "Negative"%string
  else if String.eqb category "Negative" then "Positive"%string
  else category.

(** The files saved so far, in the order they were written. *)
Fixpoint saved (log : list event) : list string :=
  match log with
  | [] => []
  | SaveFig file :: log' => file :: saved log'
  | _ :: log' => saved log'
  end.

End Examples.

(** * Part II: lemmas *)

(** ** Order facts on the binary64 specification *)

Module SFOrder.

Lemma pos_cc_eq (m n : positive) : Pos.compare_cont Eq m n = (m ?= n)%positive.
Proof. reflexivity. Qed.

Ltac cmp_cases :=
  repeat match goal with
  | |- context [Z.compare ?a ?b] => destruct (Z.compare_spec a b); subst
  | H : context [Z.compare ?a ?b] |- _ => destruct (Z.compare_spec a b); subst
  | |- context [Pos.compare_cont Eq ?a ?b] =>
      rewrite (pos_cc_eq a b); destruct (Pos.compare_spec a b); subst
  | H : context [Pos.compare_cont Eq ?a ?b] |- _ =>
      rewrite (pos_cc_eq a b) in H; destruct (Pos.compare_spec a b); subst
  | |- context [Pos.compare ?a ?b] => destruct (Pos.compare_spec a b); subst
  | H : context [Pos.compare ?a ?b] |- _ => destruct (Pos.compare_spec a b); subst
  end.

Ltac by_cases x y z :=
  unfold SFleb, SFltb;
  destruct x as [[]|[]| |[] ? ?], y as [[]|[]| |[] ? ?], z as [[]|[]| |[] ? ?];
  simpl; try discriminate; try reflexivity;
  intros; cmp_cases; simpl in *;
  try reflexivity; try discriminate; try assumption; try lia.

Lemma SFcompare_refl (x : spec_float) :
  SFcompare x x = match x with S754_nan => None | _ => Some Eq end.
Proof.
  destruct x as [s|s| |s m e]; simpl; try reflexivity.
  - destruct s; reflexivity.
  - rewrite pos_cc_eq, Z.compare_refl, Pos.compare_refl. destruct s; reflexivity.
Qed.

Lemma SFcompare_antisym (x y : spec_float) :
  SFcompare y x = option_map CompOpp (SFcompare x y).
Proof.
  destruct x as [s|s| |s m e], y as [s'|s'| |s' m' e']; simpl; try reflexivity;
    try (destruct s; reflexivity); try (destruct s'; reflexivity);
    try (destruct s, s'; reflexivity).
  rewrite !pos_cc_eq, (Z.compare_antisym e e'), (Pos.compare_antisym m m').
  destruct s, s'; simpl; try reflexivity;
    destruct (e ?= e')%Z; simpl; try reflexivity;
    destruct (m ?= m')%positive; reflexivity.
Qed.

Lemma SFcompare_trans_le (x y z : spec_float) :
  SFleb x y = true -> SFleb y z = true -> SFleb x z = true.
Proof. by_cases x y z. Qed.

Lemma SFcompare_trans_lt_le (x y z : spec_float) :
  SFltb x y = true -> SFleb y z = true -> SFltb x z = true.
Proof. by_cases x y z. Qed.

Lemma SFcompare_trans_le_lt (x y z : spec_float) :
  SFleb x y = true -> SFltb y z = true -> SFltb x z = true.
Proof. by_cases x y z. Qed.

End SFOrder.

(** ** The order of Python floats *)

Module PyFloatFacts.
Import SFOrder PyFloat.
Open Scope float_scope.

Lemma isnan_spec (x : float) :
  isnan x = match Prim2SF x with S754_nan => true | _ => false end.
Proof.
  unfold isnan, PrimFloat.is_nan.
  rewrite eqb_spec. unfold SFeqb. rewrite SFcompare_refl.
  destruct (Prim2SF x); reflexivity.
Qed.

Lemma compare_some (x y : float) :
  isnan x = false -> isnan y = false ->
  exists c, SFcompare (Prim2SF x) (Prim2SF y) = Some c.
Proof.
  rewrite !isnan_spec. intros Hx Hy.
  destruct (Prim2SF x) as [[]|[]| |[] ? ?]; try discriminate;
    destruct (Prim2SF y) as [[]|[]| |[] ? ?]; try discriminate;
    simpl; eexists; reflexivity.
Qed.

Lemma ltb_isnan_l (x y : float) : (x <? y) = true -> isnan x = false.
Proof.
  rewrite ltb_spec, isnan_spec. unfold SFltb.
  destruct (Prim2SF x); try reflexivity. simpl. discriminate.
Qed.

Lemma ltb_isnan_r (x y : float) : (x <? y) = true -> isnan y = false.
Proof.
  rewrite ltb_spec, isnan_spec. unfold SFltb.
  destruct (Prim2SF y); try reflexivity.
  destruct (Prim2SF x); simpl; discriminate.
Qed.

Lemma leb_refl (x : float) : isnan x = false -> (x <=? x) = true.
Proof.
  rewrite leb_spec, isnan_spec. unfold SFleb. rewrite SFcompare_refl.
  destruct (Prim2SF x); try reflexivity. discriminate.
Qed.

Lemma leb_trans (x y z : float) :
  (x <=? y) = true -> (y <=? z) = true -> (x <=? z) = true.
Proof. rewrite !leb_spec. apply SFcompare_trans_le. Qed.

Lemma ltb_leb_trans (x y z : float) :
  (x <? y) = true -> (y <=? z) = true -> (x <? z) = true.
Proof.
  rewrite !leb_spec, !ltb_spec. apply SFcompare_trans_lt_le.
Qed.

Lemma leb_ltb_trans (x y z : float) :
  (x <=? y) = true -> (y <? z) = true -> (x <? z) = true.
Proof.
  rewrite !leb_spec, !ltb_spec. apply SFcompare_trans_le_lt.
Qed.

Lemma ltb_leb (x y : float) : (x <? y) = true -> (x <=? y) = true.
Proof.
  rewrite leb_spec, ltb_spec. unfold SFleb, SFltb.
  destruct (SFcompare _ _) as [[]|]; simpl; congruence.
Qed.

Lemma ltb_trans (x y z : float) :
  (x <? y) = true -> (y <? z) = true -> (x <? z) = true.
Proof. intros H1 H2. apply (ltb_leb_trans x y z H1), ltb_leb, H2. Qed.

Lemma ltb_asym (x y : float) : (x <? y) = true -> (y <? x) = false.
Proof.
  rewrite !ltb_spec. unfold SFltb.
  rewrite (SFcompare_antisym (Prim2SF x) (Prim2SF y)).
  destruct (SFcompare _ _) as [[]|]; simpl; congruence.
Qed.

Lemma ltb_irrefl (x : float) : (x <? x) = false.
Proof.
  destruct (x <? x) eqn:E; [|reflexivity].
  rewrite (ltb_asym _ _ E) in E. discriminate.
Qed.

(** On numbers (no NaN) the order is total. *)
Lemma ltb_false_leb (x y : float) :
  isnan x = false -> isnan y = false -> (x <? y) = false -> (y <=? x) = true.
Proof.
  intros Hx Hy. destruct (compare_some x y Hx Hy) as [c Hc].
  rewrite ltb_spec, leb_spec. unfold SFleb, SFltb.
  rewrite (SFcompare_antisym (Prim2SF x) (Prim2SF y)), Hc.
  destruct c; simpl; congruence.
Qed.


Lemma leb_ltb_false (x y : float) : (x <=? y) = true -> (y <? x) = false.
Proof.
  rewrite ltb_spec, leb_spec. unfold SFleb, SFltb.
  rewrite (SFcompare_antisym (Prim2SF x) (Prim2SF y)).
  destruct (SFcompare _ _) as [[]|]; simpl; congruence.
Qed.

Lemma eqb_leb (x y : float) : (x =? y) = true -> (x <=? y) = true /\ (y <=? x) = true.
Proof.
  rewrite eqb_spec, !leb_spec. unfold SFeqb, SFleb.
  rewrite (SFcompare_antisym (Prim2SF x) (Prim2SF y)).
  destruct (SFcompare _ _) as [[]|]; simpl; try discriminate. auto.
Qed.

Lemma leb_antisym_eqb (x y : float) :
  (x <=? y) = true -> (y <=? x) = true -> (x =? y) = true.
Proof.
  rewrite eqb_spec, !leb_spec. unfold SFeqb, SFleb.
  rewrite (SFcompare_antisym (Prim2SF x) (Prim2SF y)).
  destruct (SFcompare _ _) as [[]|]; simpl; congruence.
Qed.

End PyFloatFacts.

(** ** Sorting and filling *)

Module PandasFacts.
Import PyFloat PyFloatFacts Pandas.
Open Scope float_scope.

Lemma insert_sorted_perm (x : float) (l : list float) :
  Permutation (x :: l) (insert_sorted x l).
Proof.
  induction l as [|y l IH]; simpl.
  - apply Permutation_refl.
  - destruct (x <=? y).
    + apply Permutation_refl.
    + eapply perm_trans; [apply perm_swap|]. apply perm_skip, IH.
Qed.

Lemma sort_perm (l : list float) : Permutation l (sort l).
Proof.
  induction l as [|x l IH]; simpl.
  - apply perm_nil.
  - eapply perm_trans; [apply perm_skip, IH|]. apply insert_sorted_perm.
Qed.

Lemma sort_length (l : list float) : List.length (sort l) = List.length l.
Proof. symmetry. apply Permutation_length, sort_perm. Qed.

Lemma sort_In (x : float) (l : list float) : In x (sort l) <-> In x l.
Proof.
  split; intros H.
  - eapply Permutation_in; [apply Permutation_sym, sort_perm|exact H].
  - eapply Permutation_in; [apply sort_perm|exact H].
Qed.





Lemma isnull_any_false (col : column) :
  isnull_any col = false <-> Forall (fun y => isnan y = false) col.
Proof.
  unfold isnull_any. induction col as [|x col IH]; simpl.
  - split; [constructor|reflexivity].
  - rewrite orb_false_iff, IH. split.
    + intros [Hx Hc]. constructor; assumption.
    + intros H. inversion H; auto.
Qed.

Lemma fillna_length (v : float) (col : column) :
  List.length (fillna v col) = List.length col.
Proof. apply length_map. Qed.

Lemma fillna_no_missing (v : float) (col : column) :
  isnan v = false -> isnull_any (fillna v col) = false.
Proof.
  intros Hv. apply isnull_any_false, Forall_forall. intros y Hy.
  apply in_map_iff in Hy. destruct Hy as [x [<- _]].
  destruct (isnan x) eqn:E; assumption.
Qed.

Lemma fillna_id (v : float) (col : column) :
  isnull_any col = false -> fillna v col = col.
Proof.
  rewrite isnull_any_false. unfold fillna. intros H.
  induction H as [|x col Hx _ IH]; simpl; [reflexivity|].
  rewrite Hx, IH. reflexivity.
Qed.

End PandasFacts.

(** ** The columns of the cleaned table *)

Module FrameFacts.
Import PyFloat Pandas Frame.
Open Scope float_scope.

(** The cleaned table, column by column. *)
Lemma clean_data_eq (df : DataFrame) :
  clean_data df =
  mkDataFrame (Timestamp df) (OverallRating df)
    (fill_median (SpeakerRating df)) (fill_median (WorkshopRating df))
    (fill_median (FoodRating df))
    (replace "" "No feedback" (WhatDidYouLike df))
    (replace "" "No feedback" (Improvements df))
    (AttendedEvents df) (YearOfStudy df)
    (astype_category (YearOfStudy df) (YearOfStudy_dtype df)).
Proof.
  unfold clean_data, fill_median. simpl. unfold fill_missing. simpl.
  destruct (isnull_any (SpeakerRating df)); simpl;
    destruct (isnull_any (WorkshopRating df)); simpl;
    destruct (isnull_any (FoodRating df)); reflexivity.
Qed.

Lemma clean_data_rating (c : RatingColumn) (df : DataFrame) :
  get_rating c (clean_data df) = fill_median (get_rating c df).
Proof.
  unfold clean_data, fill_median. simpl. unfold fill_missing.
  destruct c; simpl;
    destruct (isnull_any (SpeakerRating df)); simpl;
    destruct (isnull_any (WorkshopRating df)); simpl;
    destruct (isnull_any (FoodRating df)); reflexivity.
Qed.

Lemma clean_data_frame (df : DataFrame) :
  Timestamp (clean_data df) = Timestamp df /\
  OverallRating (clean_data df) = OverallRating df /\
  AttendedEvents (clean_data df) = AttendedEvents df /\
  YearOfStudy (clean_data df) = YearOfStudy df.
Proof.
  unfold clean_data. simpl. unfold fill_missing. simpl.
  destruct (isnull_any (SpeakerRating df)); simpl;
    destruct (isnull_any (WorkshopRating df)); simpl;
    destruct (isnull_any (FoodRating df)); simpl; auto.
Qed.

Lemma clean_data_text (df : DataFrame) :
  WhatDidYouLike (clean_data df) = replace "" "No feedback" (WhatDidYouLike df) /\
  Improvements (clean_data df) = replace "" "No feedback" (Improvements df).
Proof.
  unfold clean_data. simpl. unfold fill_missing. simpl.
  destruct (isnull_any (SpeakerRating df)); simpl;
    destruct (isnull_any (WorkshopRating df)); simpl;
    destruct (isnull_any (FoodRating df)); simpl; auto.
Qed.

Lemma clean_data_dtype (df : DataFrame) :
  YearOfStudy_dtype (clean_data df) =
  astype_category (YearOfStudy df) (YearOfStudy_dtype df).
Proof.
  unfold clean_data. simpl. unfold fill_missing. simpl.
  destruct (isnull_any (SpeakerRating df)); simpl;
    destruct (isnull_any (WorkshopRating df)); simpl;
    destruct (isnull_any (FoodRating df)); simpl; auto.
Qed.

End FrameFacts.

(** ** Facts about the median fill *)

Module CleanFacts.
Import PyFloat PyFloatFacts Pandas PandasFacts Frame FrameFacts.
Open Scope float_scope.

Lemma existsb_leibniz (x : float) (l : list float) :
  existsb (Leibniz.eqb x) l = true <-> In x l.
Proof.
  rewrite existsb_exists. split.
  - intros [y [Hy E]]. apply FloatAxioms.Leibniz.eqb_spec in E. subst. exact Hy.
  - intros H. exists x. split; [exact H|]. apply FloatAxioms.Leibniz.eqb_spec.
    reflexivity.
Qed.

Lemma is_rating_In (x : float) : is_rating x = true <-> In x [1; 2; 3; 4; 5].
Proof. apply existsb_leibniz. Qed.

Lemma is_half_rating_In (x : float) :
  is_half_rating x = true <-> In x [1; 1.5; 2; 2.5; 3; 3.5; 4; 4.5; 5].
Proof. apply existsb_leibniz. Qed.

Ltac in_cases H :=
  simpl in H;
  repeat match type of H with
         | _ \/ _ => destruct H as [H|H]
         | False => destruct H
         end.

Lemma is_rating_half (x : float) : is_rating x = true -> is_half_rating x = true.
Proof. intros H. apply is_rating_In in H. in_cases H; subst; reflexivity. Qed.

Lemma midpoint_half_rating (a b : float) :
  is_rating a = true -> is_rating b = true -> is_half_rating ((a + b) / 2) = true.
Proof.
  intros Ha Hb. apply is_rating_In in Ha, Hb.
  in_cases Ha; in_cases Hb; subst; reflexivity.
Qed.

Lemma half_rating_not_nan (x : float) : is_half_rating x = true -> isnan x = false.
Proof. intros H. apply is_half_rating_In in H. in_cases H; subst; reflexivity. Qed.

(** The median of a column with at least one number, spelled out. *)
Lemma median_eq (col : column) :
  dropna col <> [] ->
  let vs := sort (dropna col) in
  let n := List.length vs in
  median col =
    if Nat.odd n then nth (n / 2) vs nan
    else (nth (n / 2 - 1) vs nan + nth (n / 2) vs nan) / 2.
Proof.
  intros Hne vs n. unfold median. fold vs. fold n.
  destruct n eqn:E; [|reflexivity].
  exfalso. apply Hne. apply length_zero_iff_nil.
  rewrite <- (sort_length (dropna col)). exact E.
Qed.

Lemma median_half_rating (col : column) :
  forallb rating_or_missing col = true -> dropna col <> [] ->
  is_half_rating (median col) = true.
Proof.
  intros Hs Hne. rewrite (median_eq col Hne).
  set (vs := sort (dropna col)). set (n := List.length vs).
  assert (Hn : n <> 0%nat).
  { unfold n, vs. rewrite sort_length. intros E. apply Hne.
    apply length_zero_iff_nil, E. }
  assert (Hr : forall k, (k < n)%nat -> is_rating (nth k vs nan) = true).
  { intros k Hk. assert (Hin : In (nth k vs nan) vs) by (apply nth_In, Hk).
    apply sort_In, filter_In in Hin. destruct Hin as [Hin Hnn].
    rewrite forallb_forall in Hs. specialize (Hs _ Hin).
    unfold rating_or_missing in Hs.
    destruct (isnan (nth k vs nan)); [discriminate|exact Hs]. }
  assert (Hhalf : (n / 2 < n)%nat) by (apply Nat.div_lt; lia).
  destruct (Nat.odd n).
  - apply is_rating_half, Hr, Hhalf.
  - apply midpoint_half_rating; apply Hr; lia.
Qed.

Lemma dropna_nonempty (col : column) :
  isnull_any col = true -> entirely_missing col = false -> dropna col <> [].
Proof.
  intros Hany Hall. destruct col as [|x col]; [discriminate|].
  unfold entirely_missing in Hall.
  assert (H : exists y, In y (x :: col) /\ isnan y = false).
  { destruct (forallb isnan (x :: col)) eqn:E; [discriminate|].
    clear Hall Hany. induction (x :: col) as [|y l IH]; [discriminate|].
    simpl in E. apply andb_false_iff in E. destruct E as [E|E].
    - exists y. split; [left; reflexivity|exact E].
    - destruct (IH E) as [z [Hz Hn]]. exists z. split; [right; exact Hz|exact Hn]. }
  destruct H as [y [Hy Hn]]. intros E.
  assert (Hin : In y (dropna (x :: col))).
  { apply filter_In. split; [exact Hy|]. rewrite Hn. reflexivity. }
  rewrite E in Hin. destruct Hin.
Qed.

(** A column that keeps at least one number has none missing once filled,
    and every cell is a rating or a midpoint of two. *)
Lemma fill_median_half_rating (col : column) :
  forallb rating_or_missing col = true -> entirely_missing col = false ->
  forallb is_half_rating (fill_median col) = true.
Proof.
  intros Hs Hall. unfold fill_median. destruct (isnull_any col) eqn:Hany.
  - pose proof (median_half_rating col Hs (dropna_nonempty col Hany Hall)) as Hm.
    apply forallb_forall. intros y Hy. apply in_map_iff in Hy.
    destruct Hy as [x [<- Hx]]. destruct (isnan x) eqn:E; [exact Hm|].
    rewrite forallb_forall in Hs. specialize (Hs _ Hx).
    unfold rating_or_missing in Hs. rewrite E in Hs. apply is_rating_half, Hs.
  - apply forallb_forall. intros y Hy.
    rewrite forallb_forall in Hs. specialize (Hs _ Hy).
    apply isnull_any_false in Hany. rewrite Forall_forall in Hany.
    unfold rating_or_missing in Hs. rewrite (Hany _ Hy) in Hs.
    apply is_rating_half, Hs.
Qed.

Lemma half_ratings_no_missing (col : column) :
  forallb is_half_rating col = true -> isnull_any col = false.
Proof.
  intros H. apply isnull_any_false, Forall_forall. intros y Hy.
  rewrite forallb_forall in H. apply half_rating_not_nan, H, Hy.
Qed.

Lemma replace_no_empty (col : list string) :
  forallb (fun s => negb (String.eqb s "")) (replace "" "No feedback" col) = true.
Proof.
  apply forallb_forall. intros s Hs. apply in_map_iff in Hs.
  destruct Hs as [t [<- _]]. destruct (String.eqb t "") eqn:E.
  - reflexivity.
  - rewrite E. reflexivity.
Qed.

Lemma replace_id (col : list string) :
  forallb (fun s => negb (String.eqb s "")) col = true ->
  replace "" "No feedback" col = col.
Proof.
  unfold replace. induction col as [|s col IH]; simpl; [reflexivity|].
  intros H. apply andb_true_iff in H. destruct H as [Hs Hc].
  rewrite IH by exact Hc. destruct (String.eqb s ""); [discriminate|reflexivity].
Qed.

Lemma fill_median_length (col : column) :
  List.length (fill_median col) = List.length col.
Proof.
  unfold fill_median. destruct (isnull_any col); [apply fillna_length|reflexivity].
Qed.

Lemma fill_median_keeps (col : column) (i : nat) (x : float) :
  nth_error col i = Some x -> isnan x = false ->
  nth_error (fill_median col) i = Some x.
Proof.
  intros Hi Hx. unfold fill_median. destruct (isnull_any col); [|exact Hi].
  unfold fillna. rewrite nth_error_map, Hi. simpl. rewrite Hx. reflexivity.
Qed.

Lemma replace_keeps (col : list string) (i : nat) (s : string) :
  nth_error col i = Some s -> s <> ""%string ->
  nth_error (replace "" "No feedback" col) i = Some s.
Proof.
  intros Hi Hs. unfold replace. rewrite nth_error_map, Hi. simpl.
  destruct (String.eqb_spec s ""); [contradiction|reflexivity].
Qed.

End CleanFacts.

(** ** The mean of a column of ratings is a number *)

Module MeanFacts.
Import PyFloat PyFloatFacts Report.

Lemma shr_1_nonneg (mrs : shr_record) :
  (0 <= shr_m mrs)%Z -> (0 <= shr_m (shr_1 mrs))%Z.
Proof.
  destruct mrs as [m r s]. simpl. intros H.
  destruct m as [|[p|p|]|p]; simpl; lia.
Qed.

Lemma iter_shr_1_nonneg (p : positive) :
  forall mrs, (0 <= shr_m mrs)%Z -> (0 <= shr_m (iter_pos shr_1 p mrs))%Z.
Proof.
  induction p as [p IH|p IH|]; intros mrs H; simpl.
  - apply IH, IH, shr_1_nonneg, H.
  - apply IH, IH, H.
  - apply shr_1_nonneg, H.
Qed.

Lemma shr_fexp_nonneg (m e : Z) (l : location) :
  (0 <= m)%Z -> (0 <= shr_m (fst (shr_fexp prec emax m e l)))%Z.
Proof.
  intros H. unfold shr_fexp, shr.
  assert (H0 : (0 <= shr_m (shr_record_of_loc m l))%Z).
  { destruct l as [|[]]; simpl; exact H. }
  destruct (fexp prec emax (Zdigits2 m + e) - e)%Z; simpl;
    [exact H0|apply iter_shr_1_nonneg, H0|exact H0].
Qed.

Lemma round_nearest_even_nonneg (m : Z) (l : location) :
  (0 <= m)%Z -> (0 <= round_nearest_even m l)%Z.
Proof.
  intros H. unfold round_nearest_even.
  destruct l as [|[]]; try lia. destruct (Z.even m); lia.
Qed.

Lemma binary_round_aux_signed (s : bool) (mx ex : Z) (lx : location) :
  (0 <= mx)%Z -> signed s (binary_round_aux prec emax s mx ex lx).
Proof.
  intros H. unfold binary_round_aux.
  pose proof (shr_fexp_nonneg mx ex lx H) as H1.
  destruct (shr_fexp prec emax mx ex lx) as [mrs' e']. simpl in H1.
  pose proof (shr_fexp_nonneg _ e' loc_Exact
                (round_nearest_even_nonneg _ (loc_of_shr_record mrs') H1)) as H2.
  destruct (shr_fexp prec emax _ e' loc_Exact) as [mrs'' e'']. simpl in H2.
  unfold signed. destruct (shr_m mrs'') as [|p|p]; [reflexivity| |lia].
  destruct (e'' <=? emax - prec)%Z; reflexivity.
Qed.

Lemma binary_normalize_nonneg (z e : Z) :
  (0 <= z)%Z -> nonneg (binary_normalize prec emax z e false).
Proof.
  intros H. destruct z as [|p|p]; simpl; [exact I| |lia].
  unfold binary_round. destruct (shl_align p e _) as [mz ez].
  pose proof (binary_round_aux_signed false (Zpos mz) ez loc_Exact ltac:(lia)) as Hs.
  destruct (binary_round_aux prec emax false (Z.pos mz) ez loc_Exact); simpl in *;
    subst; try exact I; contradiction.
Qed.

Lemma SFadd_nonneg (x y : spec_float) :
  nonneg x -> nonneg y -> nonneg (SFadd prec emax x y).
Proof.
  destruct x as [[]|[]| |[] mx ex], y as [[]|[]| |[] my ey];
    try (simpl; intros; solve [contradiction|exact I]).
  intros _ _. unfold SFadd. apply binary_normalize_nonneg.
  unfold cond_Zopp. lia.
Qed.


Lemma of_uint63_nonneg (z : Z) :
  (0 <= z < 2 ^ 63)%Z -> nonneg (Prim2SF (PrimFloat.of_uint63 (Uint63.of_Z z))).
Proof.
  intros H. rewrite of_uint63_spec, Uint63.of_Z_spec.
  rewrite Z.mod_small by exact H. apply binary_normalize_nonneg. lia.
Qed.

Lemma of_int_nonneg (z : Z) :
  (0 <= z < 2 ^ 63)%Z -> nonneg (Prim2SF (of_int z)).
Proof.
  intros H. unfold of_int. destruct (z <? 0)%Z eqn:E.
  - apply Z.ltb_lt in E. lia.
  - apply of_uint63_nonneg, H.
Qed.

Lemma sum_nonneg (l : list Z) :
  Forall (fun z => (0 <= z < 2 ^ 63)%Z) l ->
  forall acc : float, nonneg (Prim2SF acc) ->
  nonneg (Prim2SF (fold_left (fun acc z => (acc + of_int z)%float) l acc)).
Proof.
  induction 1 as [|z l Hz _ IH]; intros acc Hacc; simpl; [exact Hacc|].
  apply IH. rewrite add_spec. apply SFadd_nonneg; [exact Hacc|].
  apply of_int_nonneg, Hz.
Qed.

Lemma digits2_pos_lower (m : positive) :
  (2 ^ (Zpos (digits2_pos m) - 1) <= Zpos m)%Z.
Proof.
  induction m as [m IH|m IH|]; simpl digits2_pos.
  - rewrite Pos2Z.inj_succ. replace (Z.succ (Zpos (digits2_pos m)) - 1)%Z
      with (Z.succ (Zpos (digits2_pos m) - 1))%Z by lia.
    rewrite Z.pow_succ_r by lia. lia.
  - rewrite Pos2Z.inj_succ. replace (Z.succ (Zpos (digits2_pos m)) - 1)%Z
      with (Z.succ (Zpos (digits2_pos m) - 1))%Z by lia.
    rewrite Z.pow_succ_r by lia. lia.
  - simpl. lia.
Qed.

Lemma digits2_pos_small (m : positive) :
  (Zpos m < 2 ^ 53)%Z -> (Zpos (digits2_pos m) <= 53)%Z.
Proof.
  intros H. pose proof (digits2_pos_lower m) as L.
  destruct (Z.le_gt_cases (Zpos (digits2_pos m)) 53) as [G|G]; [exact G|].
  exfalso. assert (2 ^ 53 <= 2 ^ (Zpos (digits2_pos m) - 1))%Z
    by (apply Z.pow_le_mono_r; lia). lia.
Qed.

Lemma digits2_pos_iter (m k : positive) :
  digits2_pos (Pos.iter xO m k) = (digits2_pos m + k)%positive.
Proof.
  induction k as [|k IH] using Pos.peano_ind.
  - simpl. lia.
  - rewrite Pos.iter_succ. simpl. rewrite IH. lia.
Qed.


Lemma binary_round_aux_exact (s : bool) (mz : positive) (ez : Z) :
  Zpos (digits2_pos mz) = 53%Z -> (-1074 <= ez <= 971)%Z ->
  binary_round_aux prec emax s (Zpos mz) ez loc_Exact = S754_finite s mz ez.
Proof.
  intros Hd He.
  assert (Hshr : shr_fexp prec emax (Zpos mz) ez loc_Exact =
                 (Build_shr_record (Zpos mz) false false, ez)).
  { unfold shr_fexp. simpl Zdigits2. rewrite Hd.
    replace (fexp prec emax (53 + ez) - ez)%Z with 0%Z
      by (unfold fexp, SpecFloat.emin, prec, emax; lia).
    reflexivity. }
  unfold binary_round_aux. rewrite Hshr. simpl shr_m. simpl loc_of_shr_record.
  simpl round_nearest_even. rewrite Hshr. simpl shr_m.
  replace (ez <=? emax - prec)%Z with true; [reflexivity|].
  symmetry. apply Z.leb_le. unfold emax, prec. lia.
Qed.

Lemma binary_round_small (m : positive) :
  (Zpos m < 2 ^ 53)%Z ->
  exists (m' : positive) (e' : Z),
    binary_round prec emax false m 0 = S754_finite false m' e'.
Proof.
  intros H. pose proof (digits2_pos_small m H) as Hd.
  unfold binary_round.
  replace (fexp prec emax (Zpos (digits2_pos m) + 0))
    with (Zpos (digits2_pos m) - 53)%Z
    by (unfold fexp, SpecFloat.emin, prec, emax; lia).
  unfold shl_align.
  destruct (Zpos (digits2_pos m) - 53 - 0)%Z as [|k|k] eqn:E; [|lia|].
  - exists m, 0%Z. apply binary_round_aux_exact; lia.
  - exists (Pos.iter xO m k), (Zpos (digits2_pos m) - 53)%Z.
    apply binary_round_aux_exact; [|lia].
    rewrite digits2_pos_iter. lia.
Qed.

Lemma of_int_finite (z : Z) :
  (1 <= z < 2 ^ 53)%Z ->
  exists (m : positive) (e : Z), Prim2SF (of_int z) = S754_finite false m e.
Proof.
  intros H. unfold of_int. destruct (z <? 0)%Z eqn:E.
  - apply Z.ltb_lt in E. lia.
  - rewrite of_uint63_spec, Uint63.of_Z_spec.
    rewrite Z.mod_small by (split; [lia|]; apply Z.lt_trans with (2 ^ 53)%Z;
                            [lia|reflexivity]).
    destruct z as [|p|p]; try lia. simpl binary_normalize.
    apply binary_round_small. lia.
Qed.

Lemma SFdiv_number (x : spec_float) (m : positive) (e : Z) :
  nonneg x -> SFdiv prec emax x (S754_finite false m e) <> S754_nan.
Proof.
  destruct x as [[]|[]| |[] mx ex]; try (simpl; intros; solve [contradiction|discriminate]).
  intros _. unfold SFdiv.
  destruct (SFdiv_core_binary prec emax (Zpos mx) ex (Zpos m) e) as [[mz ez] lz] eqn:E.
  assert (Hmz : (0 <= mz)%Z).
  { unfold SFdiv_core_binary in E.
    match type of E with
    | context [Z.div_eucl ?a ?b] =>
        assert (Ha : (0 <= a)%Z);
        [|pose proof (Z.div_pos a b Ha ltac:(reflexivity)) as Hq;
          unfold Z.div in Hq; destruct (Z.div_eucl a b) as [q r]]
    end.
    - destruct (ex - e - _)%Z; try lia. apply Z.shiftl_nonneg. lia.
    - injection E as <- _ _. exact Hq. }
  pose proof (binary_round_aux_signed (xorb false false) mz ez lz Hmz) as Hs.
  intros Hn. rewrite Hn in Hs. exact Hs.
Qed.

Lemma mean_number (l : list Z) :
  l <> [] -> Forall (fun z => (0 <= z < 2 ^ 63)%Z) l ->
  (Z.of_nat (List.length l) < 2 ^ 53)%Z -> number (mean l).
Proof.
  intros Hne Hl Hn. unfold number. rewrite isnan_spec.
  unfold mean. rewrite div_spec.
  destruct (of_int_finite (Z.of_nat (List.length l))) as [m [e ->]].
  { destruct l; [contradiction|]. simpl List.length in *. lia. }
  pose proof (sum_nonneg l Hl 0%float I) as Hs.
  pose proof (SFdiv_number _ m e Hs) as Hd. unfold SF64div.
  destruct (SFdiv prec emax _ _); try reflexivity. contradiction.
Qed.

(** *** A converted count divided by itself *)

Lemma binary_round_small_canonical (m : positive) :
  (Zpos m < 2 ^ 53)%Z ->
  exists (m' : positive) (e' : Z),
    binary_round prec emax false m 0 = S754_finite false m' e' /\
    Zpos (digits2_pos m') = 53%Z.
Proof.
  intros H. pose proof (digits2_pos_small m H) as Hd.
  unfold binary_round.
  replace (fexp prec emax (Zpos (digits2_pos m) + 0))
    with (Zpos (digits2_pos m) - 53)%Z
    by (unfold fexp, SpecFloat.emin, prec, emax; lia).
  unfold shl_align.
  destruct (Zpos (digits2_pos m) - 53 - 0)%Z as [|k|k] eqn:E; [|lia|].
  - exists m, 0%Z. split; [apply binary_round_aux_exact; lia|lia].
  - exists (Pos.iter xO m k), (Zpos (digits2_pos m) - 53)%Z.
    assert (Hk : Zpos (digits2_pos (Pos.iter xO m k)) = 53%Z)
      by (rewrite digits2_pos_iter; lia).
    split; [apply binary_round_aux_exact; [exact Hk|lia]|exact Hk].
Qed.

Lemma of_int_canonical (z : Z) :
  (1 <= z < 2 ^ 53)%Z ->
  exists (m : positive) (e : Z),
    Prim2SF (of_int z) = S754_finite false m e /\ Zpos (digits2_pos m) = 53%Z.
Proof.
  intros H. unfold of_int. destruct (z <? 0)%Z eqn:E.
  - apply Z.ltb_lt in E. lia.
  - rewrite of_uint63_spec, Uint63.of_Z_spec.
    rewrite Z.mod_small by (split; [lia|]; apply Z.lt_trans with (2 ^ 53)%Z;
                            [lia|reflexivity]).
    destruct z as [|p|p]; try lia. simpl binary_normalize.
    apply binary_round_small_canonical. lia.
Qed.

Lemma div_eucl_shift (m : positive) :
  Z.div_eucl (Z.shiftl (Zpos m) 53) (Zpos m) = ((2 ^ 53)%Z, 0%Z).
Proof.
  rewrite Z.shiftl_mul_pow2 by lia.
  pose proof (Z_div_mult_full (2 ^ 53) (Zpos m) ltac:(lia)) as Hq.
  pose proof (Z_mod_mult (2 ^ 53) (Zpos m)) as Hr.
  rewrite (Z.mul_comm (2 ^ 53)) in Hq, Hr.
  unfold Z.div, Z.modulo in Hq, Hr.
  destruct (Z.div_eucl (Zpos m * 2 ^ 53) (Zpos m)) as [q r].
  subst. reflexivity.
Qed.

Lemma SFdiv_self (m : positive) (e : Z) :
  Zpos (digits2_pos m) = 53%Z ->
  SFdiv prec emax (S754_finite false m e) (S754_finite false m e) = Prim2SF 1.
Proof.
  intros Hd. unfold SFdiv, SFdiv_core_binary. simpl Zdigits2. rewrite Hd.
  replace (53 + e - (53 + e))%Z with 0%Z by lia.
  replace (e - e)%Z with 0%Z by lia.
  change (Z.min (fexp prec emax 0) 0) with (-53)%Z.
  change (0 - -53)%Z with 53%Z. cbv iota.
  rewrite div_eucl_shift.
  assert (Hloc : new_location (Zpos m) 0 = loc_Exact).
  { unfold new_location. destruct (Z.even (Zpos m)); reflexivity. }
  rewrite Hloc. vm_compute. reflexivity.
Qed.

Lemma div_self (z : Z) : (1 <= z < 2 ^ 53)%Z -> (of_int z / of_int z)%float = 1%float.
Proof.
  intros H. destruct (of_int_canonical z H) as [m [e [E Hd]]].
  apply Prim2SF_inj. rewrite div_spec, E. apply SFdiv_self, Hd.
Qed.

(** *** Sums of small integers are exact *)

Lemma iter_pos_iter {A : Type} (f : A -> A) (p : positive) (x : A) :
  iter_pos f p x = Pos.iter f x p.
Proof.
  revert x. induction p as [p IH|p IH|]; intros x; simpl.
  - rewrite !IH, !Pos.iter_swap. reflexivity.
  - rewrite !IH. reflexivity.
  - reflexivity.
Qed.

Lemma iter_shr_1_exact (p : positive) :
  forall m : positive,
    iter_pos shr_1 p (Build_shr_record (Zpos (Pos.iter xO m p)) false false) =
    Build_shr_record (Zpos m) false false.
Proof.
  intros m. rewrite iter_pos_iter.
  induction p as [|p IH] using Pos.peano_ind.
  - reflexivity.
  - rewrite Pos.iter_succ_r, Pos.iter_succ. exact IH.
Qed.

Lemma iter_xO_value (m p : positive) :
  Zpos (Pos.iter xO m p) = (Zpos m * 2 ^ Zpos p)%Z.
Proof.
  pose proof (shift_pos_correct p m) as H. unfold shift_pos in H.
  rewrite H. rewrite Zpower_pos_nat, Zpower_nat_Z, positive_nat_Z. lia.
Qed.

Lemma digits2_pos_upper (m : positive) :
  (Zpos m < 2 ^ Zpos (digits2_pos m))%Z.
Proof.
  induction m as [m IH|m IH|]; simpl digits2_pos.
  - rewrite Pos2Z.inj_succ, Z.pow_succ_r by lia. lia.
  - rewrite Pos2Z.inj_succ, Z.pow_succ_r by lia. lia.
  - reflexivity.
Qed.

Lemma Zdigits2_le (m k : Z) :
  (0 <= m < 2 ^ k)%Z -> (0 <= k)%Z -> (Zdigits2 m <= k)%Z.
Proof.
  intros [H0 H] Hk. destruct m as [|p|p]; simpl; [exact Hk| |lia].
  pose proof (digits2_pos_lower p) as L.
  destruct (Z.le_gt_cases (Zpos (digits2_pos p)) k) as [G|G]; [exact G|].
  exfalso. assert (2 ^ k <= 2 ^ (Zpos (digits2_pos p) - 1))%Z
    by (apply Z.pow_le_mono_r; lia). lia.
Qed.

Lemma binary_round_aux_shift_exact (s : bool) (mz : positive) (ez : Z) (p : positive) :
  Zpos (digits2_pos mz) = 53%Z -> (-1074 <= ez <= 971)%Z ->
  binary_round_aux prec emax s (Zpos (Pos.iter xO mz p)) (ez - Zpos p) loc_Exact =
  S754_finite s mz ez.
Proof.
  intros Hd He.
  assert (Hshr : shr_fexp prec emax (Zpos (Pos.iter xO mz p)) (ez - Zpos p) loc_Exact =
                 (Build_shr_record (Zpos mz) false false, ez)).
  { unfold shr_fexp. simpl Zdigits2. rewrite digits2_pos_iter, Pos2Z.inj_add, Hd.
    replace (fexp prec emax (53 + Zpos p + (ez - Zpos p)) - (ez - Zpos p))%Z
      with (Zpos p) by (unfold fexp, SpecFloat.emin, prec, emax; lia).
    unfold shr. simpl shr_record_of_loc. rewrite iter_shr_1_exact.
    f_equal. lia. }
  assert (Hshr' : shr_fexp prec emax (Zpos mz) ez loc_Exact =
                  (Build_shr_record (Zpos mz) false false, ez)).
  { unfold shr_fexp. simpl Zdigits2. rewrite Hd.
    replace (fexp prec emax (53 + ez) - ez)%Z with 0%Z
      by (unfold fexp, SpecFloat.emin, prec, emax; lia).
    reflexivity. }
  unfold binary_round_aux. rewrite Hshr. simpl shr_m. simpl loc_of_shr_record.
  simpl round_nearest_even. rewrite Hshr'. simpl shr_m.
  replace (ez <=? emax - prec)%Z with true; [reflexivity|].
  symmetry. apply Z.leb_le. unfold emax, prec. lia.
Qed.

Lemma binary_normalize_shift (mz : positive) (ez k : Z) :
  Zpos (digits2_pos mz) = 53%Z -> (-1074 <= ez <= 971)%Z -> (0 <= k)%Z ->
  binary_normalize prec emax (Zpos mz * 2 ^ k) (ez - k) false = S754_finite false mz ez.
Proof.
  intros Hd He Hk. destruct k as [|p|p]; [| |lia].
  - rewrite Z.pow_0_r, Z.mul_1_r, Z.sub_0_r. simpl binary_normalize.
    unfold binary_round. rewrite Hd.
    replace (fexp prec emax (53 + ez)) with ez
      by (unfold fexp, SpecFloat.emin, prec, emax; lia).
    unfold shl_align. rewrite Z.sub_diag. apply binary_round_aux_exact; assumption.
  - rewrite <- iter_xO_value. simpl binary_normalize.
    unfold binary_round. rewrite digits2_pos_iter, Pos2Z.inj_add, Hd.
    replace (fexp prec emax (53 + Zpos p + (ez - Zpos p))) with ez
      by (unfold fexp, SpecFloat.emin, prec, emax; lia).
    unfold shl_align.
    replace (ez - (ez - Zpos p))%Z with (Zpos p) by lia.
    apply binary_round_aux_shift_exact; assumption.
Qed.

Lemma shl_align_value (m : positive) (e ez : Z) :
  (ez <= e)%Z -> Zpos (fst (shl_align m e ez)) = (Zpos m * 2 ^ (e - ez))%Z.
Proof.
  intros H. unfold shl_align. destruct (ez - e)%Z as [|d|d] eqn:E; [|lia|].
  - replace (e - ez)%Z with 0%Z by lia. simpl fst. lia.
  - replace (e - ez)%Z with (Zpos d) by lia. simpl fst. apply iter_xO_value.
Qed.

Lemma binary_round_small_value (m : positive) :
  (Zpos m < 2 ^ 53)%Z ->
  exists (m' : positive) (e' : Z),
    binary_round prec emax false m 0 = S754_finite false m' e' /\
    Zpos (digits2_pos m') = 53%Z /\ (-52 <= e' <= 0)%Z /\
    Zpos m' = (Zpos m * 2 ^ (- e'))%Z.
Proof.
  intros H. pose proof (digits2_pos_small m H) as Hd.
  unfold binary_round.
  replace (fexp prec emax (Zpos (digits2_pos m) + 0))
    with (Zpos (digits2_pos m) - 53)%Z
    by (unfold fexp, SpecFloat.emin, prec, emax; lia).
  unfold shl_align.
  destruct (Zpos (digits2_pos m) - 53 - 0)%Z as [|k|k] eqn:E; [|lia|].
  - exists m, 0%Z. split; [apply binary_round_aux_exact; lia|].
    split; [lia|]. split; [lia|]. simpl. lia.
  - exists (Pos.iter xO m k), (Zpos (digits2_pos m) - 53)%Z.
    assert (Hk : Zpos (digits2_pos (Pos.iter xO m k)) = 53%Z)
      by (rewrite digits2_pos_iter; lia).
    split; [apply binary_round_aux_exact; [exact Hk|lia]|].
    split; [exact Hk|]. split; [lia|].
    rewrite iter_xO_value. f_equal. f_equal. lia.
Qed.

Lemma of_int_value (z : Z) :
  (1 <= z < 2 ^ 53)%Z ->
  exists (m : positive) (e : Z),
    Prim2SF (of_int z) = S754_finite false m e /\
    Zpos (digits2_pos m) = 53%Z /\ (-52 <= e <= 0)%Z /\
    Zpos m = (z * 2 ^ (- e))%Z.
Proof.
  intros H. unfold of_int. destruct (z <? 0)%Z eqn:E.
  - apply Z.ltb_lt in E. lia.
  - rewrite of_uint63_spec, Uint63.of_Z_spec.
    rewrite Z.mod_small by (split; [lia|]; apply Z.lt_trans with (2 ^ 53)%Z;
                            [lia|reflexivity]).
    destruct z as [|p|p]; try lia. simpl binary_normalize.
    apply binary_round_small_value. lia.
Qed.

Lemma SFadd_exact (ma mb mc : positive) (ea eb ec a b : Z) :
  Zpos (digits2_pos ma) = 53%Z -> Zpos (digits2_pos mb) = 53%Z ->
  Zpos (digits2_pos mc) = 53%Z ->
  (-52 <= ea <= 0)%Z -> (-52 <= eb <= 0)%Z -> (-52 <= ec <= 0)%Z ->
  (0 < a)%Z -> (0 < b)%Z ->
  Zpos ma = (a * 2 ^ (- ea))%Z -> Zpos mb = (b * 2 ^ (- eb))%Z ->
  Zpos mc = ((a + b) * 2 ^ (- ec))%Z ->
  SFadd prec emax (S754_finite false ma ea) (S754_finite false mb eb) =
  S754_finite false mc ec.
Proof.
  intros Da Db Dc Ha Hb Hc Pa Pb Va Vb Vc.
  pose proof (digits2_pos_lower ma) as La. rewrite Da in La.
  pose proof (digits2_pos_lower mb) as Lb. rewrite Db in Lb.
  pose proof (digits2_pos_upper mc) as Uc. rewrite Dc in Uc.
  change (2 ^ (53 - 1))%Z with (2 ^ 52)%Z in La, Lb.
  assert (Hpow : forall x y : Z, (0 <= x)%Z -> (0 <= y)%Z ->
                   (2 ^ (x + y) = 2 ^ x * 2 ^ y)%Z)
    by (intros; apply Z.pow_add_r; assumption).
  assert (Hmono : forall e : Z, (-52 <= e <= 0)%Z -> (ec < e)%Z ->
                    forall (m : positive) (v : Z), (0 < v)%Z -> (v <= a + b)%Z ->
                    (2 ^ 52 <= Zpos m)%Z -> Zpos m = (v * 2 ^ (- e))%Z -> False).
  { intros e He Hlt m v Hv Hle Lm Vm.
    assert (E : (2 ^ (- ec) = 2 ^ (- e) * 2 ^ (e - ec))%Z)
      by (rewrite <- Hpow by lia; f_equal; lia).
    assert (P2 : (2 ^ 1 <= 2 ^ (e - ec))%Z) by (apply Z.pow_le_mono_r; lia).
    change (2 ^ 1)%Z with 2%Z in P2.
    assert (P0 : (0 < 2 ^ (- e))%Z) by (apply Z.pow_pos_nonneg; lia).
    rewrite E in Vc. nia. }
  assert (Hea : (ea <= ec)%Z).
  { destruct (Z.le_gt_cases ea ec) as [G|G]; [exact G|exfalso].
    apply (Hmono ea Ha ltac:(lia) ma a Pa ltac:(lia) La Va). }
  assert (Heb : (eb <= ec)%Z).
  { destruct (Z.le_gt_cases eb ec) as [G|G]; [exact G|exfalso].
    apply (Hmono eb Hb ltac:(lia) mb b Pb ltac:(lia) Lb Vb). }
  unfold SFadd. cbv [cond_Zopp].
  set (ez := Z.min ea eb).
  assert (Hez : (ez <= ea /\ ez <= eb /\ -52 <= ez)%Z) by (unfold ez; lia).
  rewrite !shl_align_value by lia.
  assert (Hsum : (Zpos ma * 2 ^ (ea - ez) + Zpos mb * 2 ^ (eb - ez) =
                  Zpos mc * 2 ^ (ec - ez))%Z).
  { rewrite Va, Vb, Vc.
    rewrite <- !Z.mul_assoc, <- !Hpow by lia.
    replace (- ea + (ea - ez))%Z with (- ez)%Z by lia.
    replace (- eb + (eb - ez))%Z with (- ez)%Z by lia.
    replace (- ec + (ec - ez))%Z with (- ez)%Z by lia.
    lia. }
  rewrite Hsum.
  replace ez with (ec - (ec - ez))%Z at 2 by lia.
  apply binary_normalize_shift; [exact Dc|lia|lia].
Qed.

Lemma of_int_zero : of_int 0 = 0%float.
Proof. reflexivity. Qed.

Lemma of_int_add (a b : Z) :
  (0 <= a)%Z -> (0 <= b)%Z -> (a + b < 2 ^ 53)%Z ->
  (of_int a + of_int b)%float = of_int (a + b).
Proof.
  intros Ha Hb Hs. apply Prim2SF_inj. rewrite add_spec. unfold SF64add.
  destruct (Z.eq_dec a 0) as [->|Na]; [|destruct (Z.eq_dec b 0) as [->|Nb]].
  - destruct (Z.eq_dec b 0) as [->|Nb]; [reflexivity|].
    destruct (of_int_value b ltac:(lia)) as [mb [eb [Eb _]]].
    simpl Z.add. rewrite Eb. reflexivity.
  - destruct (of_int_value a ltac:(lia)) as [ma [ea [Ea _]]].
    rewrite Z.add_0_r, Ea. reflexivity.
  - destruct (of_int_value a ltac:(lia)) as [ma [ea [Ea [Da [Ra Va]]]]].
    destruct (of_int_value b ltac:(lia)) as [mb [eb [Eb [Db [Rb Vb]]]]].
    destruct (of_int_value (a + b) ltac:(lia)) as [mc [ec [Ec [Dc [Rc Vc]]]]].
    rewrite Ea, Eb, Ec.
    apply (SFadd_exact ma mb mc ea eb ec a b); try assumption; lia.
Qed.

Lemma sum_exact (l : list Z) :
  Forall (fun z => (0 <= z)%Z) l ->
  forall k : Z, (0 <= k)%Z -> (k + fold_right Z.add 0%Z l < 2 ^ 53)%Z ->
  fold_left (fun acc z => (acc + of_int z)%float) l (of_int k) =
  of_int (k + fold_right Z.add 0%Z l).
Proof.
  induction 1 as [|z l Hz Hl IH]; intros k Hk Hs; simpl.
  - rewrite Z.add_0_r. reflexivity.
  - simpl in Hs.
    assert (Hpos : (0 <= fold_right Z.add 0 l)%Z).
    { clear -Hl. induction Hl; simpl; lia. }
    rewrite of_int_add by lia. rewrite IH by lia. f_equal. lia.
Qed.

Lemma mean_exact (l : list Z) :
  Forall (fun z => (0 <= z)%Z) l -> (fold_right Z.add 0%Z l < 2 ^ 53)%Z ->
  mean l = (of_int (fold_right Z.add 0%Z l) / of_int (Z.of_nat (List.length l)))%float.
Proof.
  intros Hl Hs. unfold mean. rewrite <- of_int_zero, (sum_exact l Hl 0%Z) by lia.
  reflexivity.
Qed.

(** *** The quotient of two converted integers is finite *)

Lemma shr_1_le (mrs : shr_record) :
  (0 <= shr_m mrs)%Z -> (shr_m (shr_1 mrs) <= shr_m mrs)%Z.
Proof.
  destruct mrs as [m r s]. simpl. intros H.
  destruct m as [|[p|p|]|p]; simpl; lia.
Qed.

Lemma iter_shr_1_le (p : positive) :
  forall mrs, (0 <= shr_m mrs)%Z -> (shr_m (iter_pos shr_1 p mrs) <= shr_m mrs)%Z.
Proof.
  induction p as [p IH|p IH|]; intros mrs H; simpl.
  - pose proof (shr_1_nonneg mrs H) as H1. pose proof (shr_1_le mrs H) as L1.
    pose proof (iter_shr_1_nonneg p _ H1) as H2. pose proof (IH _ H1) as L2.
    pose proof (IH _ H2) as L3. lia.
  - pose proof (iter_shr_1_nonneg p _ H) as H2. pose proof (IH _ H) as L2.
    pose proof (IH _ H2) as L3. lia.
  - apply shr_1_le, H.
Qed.

Lemma shr_fexp_le (m e : Z) (l : location) :
  (0 <= m)%Z -> (shr_m (fst (shr_fexp prec emax m e l)) <= m)%Z.
Proof.
  intros H. unfold shr_fexp, shr.
  assert (H0 : shr_m (shr_record_of_loc m l) = m).
  { destruct l as [|[]]; reflexivity. }
  destruct (fexp prec emax (Zdigits2 m + e) - e)%Z; simpl; try lia.
  pose proof (iter_shr_1_le p (shr_record_of_loc m l)) as L. rewrite H0 in L.
  apply L, H.
Qed.

Lemma shr_fexp_exponent (m e k : Z) (l : location) :
  (0 <= m < 2 ^ k)%Z -> (0 <= k)%Z ->
  (snd (shr_fexp prec emax m e l) <= Z.max e (Z.max (k + e - 53) (-1074)))%Z.
Proof.
  intros Hm Hk. pose proof (Zdigits2_le m k Hm Hk) as Hd.
  unfold shr_fexp, shr.
  destruct (fexp prec emax (Zdigits2 m + e) - e)%Z as [|p|p] eqn:E; simpl; try lia.
  unfold fexp, SpecFloat.emin, prec, emax in E. lia.
Qed.

Lemma round_nearest_even_le (m : Z) (l : location) :
  (round_nearest_even m l <= m + 1)%Z.
Proof.
  unfold round_nearest_even. destruct l as [|[]]; try lia.
  destruct (Z.even m); lia.
Qed.

(** A rounded value that is far below the overflow threshold is zero or
    finite. *)
Lemma binary_round_aux_finite (s : bool) (mx ex k : Z) (lx : location) :
  (0 <= mx < 2 ^ k)%Z -> (0 <= k <= 400)%Z -> (ex <= 100)%Z ->
  match binary_round_aux prec emax s mx ex lx with
  | S754_zero s' | S754_finite s' _ _ => s' = s
  | _ => False
  end.
Proof.
  intros Hm Hk He. unfold binary_round_aux.
  pose proof (shr_fexp_nonneg mx ex lx ltac:(lia)) as N1.
  pose proof (shr_fexp_le mx ex lx ltac:(lia)) as L1.
  pose proof (shr_fexp_exponent mx ex k lx Hm ltac:(lia)) as E1.
  destruct (shr_fexp prec emax mx ex lx) as [mrs' e']. simpl in N1, L1, E1.
  set (m2 := round_nearest_even (shr_m mrs') (loc_of_shr_record mrs')).
  pose proof (round_nearest_even_nonneg _ (loc_of_shr_record mrs') N1) as N2.
  pose proof (round_nearest_even_le (shr_m mrs') (loc_of_shr_record mrs')) as L2.
  fold m2 in N2, L2.
  assert (Hm2 : (0 <= m2 < 2 ^ (k + 1))%Z).
  { split; [exact N2|]. rewrite Z.pow_add_r by lia. change (2 ^ 1)%Z with 2%Z.
    assert (0 < 2 ^ k)%Z by (apply Z.pow_pos_nonneg; lia). lia. }
  pose proof (shr_fexp_nonneg m2 e' loc_Exact N2) as N3.
  pose proof (shr_fexp_exponent m2 e' (k + 1) loc_Exact Hm2 ltac:(lia)) as E3.
  destruct (shr_fexp prec emax m2 e' loc_Exact) as [mrs'' e'']. simpl in N3, E3.
  destruct (shr_m mrs'') as [|p|p]; [reflexivity| |lia].
  replace (e'' <=? emax - prec)%Z with true; [reflexivity|].
  symmetry. apply Z.leb_le. unfold emax, prec. lia.
Qed.

Lemma SFdiv_finite (m1 m2 : positive) (e1 e2 : Z) :
  Zpos (digits2_pos m1) = 53%Z -> Zpos (digits2_pos m2) = 53%Z ->
  (-52 <= e1 <= 0)%Z -> (-52 <= e2 <= 0)%Z ->
  match SFdiv prec emax (S754_finite false m1 e1) (S754_finite false m2 e2) with
  | S754_zero s | S754_finite s _ _ => s = false
  | _ => False
  end.
Proof.
  intros D1 D2 H1 H2. unfold SFdiv.
  destruct (SFdiv_core_binary prec emax (Zpos m1) e1 (Zpos m2) e2) as [[mz ez] lz] eqn:E.
  pose proof (digits2_pos_upper m1) as U1. rewrite D1 in U1.
  pose proof (digits2_pos_lower m2) as L2. rewrite D2 in L2.
  change (2 ^ (53 - 1))%Z with (2 ^ 52)%Z in L2.
  assert (Hb : (0 <= mz < 2 ^ 54)%Z /\ (ez <= 100)%Z).
  { unfold SFdiv_core_binary in E. simpl Zdigits2 in E. rewrite D1, D2 in E.
    replace (Z.min (fexp prec emax (53 + e1 - (53 + e2))) (e1 - e2))
      with (e1 - e2 - 53)%Z in E
      by (unfold fexp, SpecFloat.emin, prec, emax; lia).
    replace (e1 - e2 - (e1 - e2 - 53))%Z with 53%Z in E by lia.
    cbv iota in E.
    pose proof (Z.div_pos (Z.shiftl (Zpos m1) 53) (Zpos m2)
                  ltac:(apply Z.shiftl_nonneg; lia) ltac:(reflexivity)) as Hq.
    assert (Hq' : (Z.shiftl (Zpos m1) 53 / Zpos m2 < 2 ^ 54)%Z).
    { apply Z.div_lt_upper_bound; [reflexivity|].
      rewrite Z.shiftl_mul_pow2 by lia. lia. }
    unfold Z.div in Hq, Hq'.
    destruct (Z.div_eucl (Z.shiftl (Zpos m1) 53) (Zpos m2)) as [q r].
    injection E as <- <- _. split; [lia|lia]. }
  destruct Hb as [Hm He].
  apply (binary_round_aux_finite (xorb false false) mz ez 54 lz Hm ltac:(lia) He).
Qed.

(** The mean of a non-empty column of small non-negative integers is a
    finite number. *)
Lemma mean_finite (l : list Z) :
  l <> [] -> Forall (fun z => (0 <= z)%Z) l ->
  (fold_right Z.add 0%Z l < 2 ^ 53)%Z -> (Z.of_nat (List.length l) < 2 ^ 53)%Z ->
  (mean l <? infinity)%float = true.
Proof.
  intros Hne Hl Hs Hn.
  assert (Hpos : (0 <= fold_right Z.add 0 l)%Z).
  { clear -Hl. induction Hl; simpl; lia. }
  rewrite (mean_exact l Hl Hs), ltb_spec, div_spec. unfold SF64div.
  destruct (of_int_value (Z.of_nat (List.length l))) as [m2 [e2 [E2 [D2 [R2 _]]]]].
  { destruct l; [contradiction|]. simpl List.length in *. lia. }
  rewrite E2.
  destruct (Z.eq_dec (fold_right Z.add 0%Z l) 0) as [->|Nz].
  - reflexivity.
  - destruct (of_int_value (fold_right Z.add 0%Z l) ltac:(lia))
      as [m1 [e1 [E1 [D1 [R1 _]]]]].
    rewrite E1. pose proof (SFdiv_finite m1 m2 e1 e2 D1 D2 R1 R2) as Hf.
    destruct (SFdiv prec emax _ _) as [s|s| |s m e]; try contradiction;
      subst s; reflexivity.
Qed.

End MeanFacts.

(** ** The generator's assignments *)

Module GeneratorFacts.
Import PyFloat Pandas Frame Generator.
Open Scope float_scope.

Lemma mem_In (i : nat) (labels : list nat) : mem i labels = true <-> In i labels.
Proof.
  unfold mem. rewrite existsb_exists. split.
  - intros [j [Hj E]]. apply Nat.eqb_eq in E. subst. exact Hj.
  - intros H. exists i. split; [exact H|apply Nat.eqb_refl].
Qed.

Lemma distinct_NoDup (l : list nat) : distinct l = true -> NoDup l.
Proof.
  induction l as [|x l IH]; simpl; intros H; constructor.
  - apply andb_true_iff in H. destruct H as [H _].
    apply negb_true_iff in H. intros Hin. apply mem_In in Hin. congruence.
  - apply IH. apply andb_true_iff in H. apply H.
Qed.

Lemma loc_assign_length {A : Type} (labels : list nat) (v : A) (col : list A) :
  List.length (loc_assign labels v col) = List.length col.
Proof.
  unfold loc_assign. rewrite length_map, length_combine, length_seq.
  apply Nat.min_id.
Qed.



Lemma filter_combine_fst {A : Type} (P : nat -> bool) (l : list nat) (col : list A) :
  List.length l = List.length col ->
  List.length (filter (fun p => P (fst p)) (combine l col)) = List.length (filter P l).
Proof.
  revert col. induction l as [|i l IH]; intros [|x col] H; try discriminate.
  - reflexivity.
  - simpl. injection H as H. destruct (P i); simpl; rewrite (IH col H); reflexivity.
Qed.

Lemma count_labels (labels : list nat) (n : nat) :
  NoDup labels -> (forall i, In i labels -> (i < n)%nat) ->
  List.length (filter (fun i => mem i labels) (seq 0 n)) = List.length labels.
Proof.
  intros Hnd Hlt. apply Permutation_length, NoDup_Permutation.
  - apply NoDup_filter, seq_NoDup.
  - exact Hnd.
  - intros i. rewrite filter_In, in_seq, mem_In. split.
    + intros [_ H]. exact H.
    + intros H. split; [|exact H]. specialize (Hlt i H). lia.
Qed.

(** After [df.loc[labels, col] = v] on a column without a cell like [v],
    exactly the labelled rows are like [v]. *)
Lemma loc_assign_count {A : Type} (P : A -> bool) (labels : list nat) (v : A)
      (col : list A) :
  P v = true -> forallb (fun x => negb (P x)) col = true ->
  NoDup labels -> (forall i, In i labels -> (i < List.length col)%nat) ->
  List.length (filter P (loc_assign labels v col)) = List.length labels.
Proof.
  intros Hv Hcol Hnd Hlt. unfold loc_assign.
  rewrite <- (count_labels labels (List.length col) Hnd Hlt).
  rewrite <- (filter_combine_fst (fun i => mem i labels) (seq 0 (List.length col)) col)
    by apply length_seq.
  assert (Hin : forall p, In p (combine (seq 0 (List.length col)) col) ->
                          P (snd p) = false).
  { intros [i x] Hp. apply in_combine_r in Hp. rewrite forallb_forall in Hcol.
    apply negb_true_iff, Hcol, Hp. }
  induction (combine (seq 0 (List.length col)) col) as [|p l IH]; [reflexivity|].
  simpl.
  assert (Hp : P (snd p) = false) by (apply Hin; left; reflexivity).
  destruct (mem (fst p) labels) eqn:E.
  - rewrite Hv. simpl. f_equal. apply IH. intros q Hq. apply Hin. right. exact Hq.
  - rewrite Hp. apply IH. intros q Hq. apply Hin. right. exact Hq.
Qed.

Lemma list_mul_length {A : Type} (l : list A) (n : nat) :
  List.length (list_mul l n) = (n * List.length l)%nat.
Proof.
  unfold list_mul. induction n as [|n IH]; simpl; [reflexivity|].
  rewrite length_app, IH. reflexivity.
Qed.



(** A generated rating is a number. *)
Lemma of_int_rating (z : Z) : in_range 1 6 z = true -> is_rating (of_int z) = true.
Proof.
  unfold in_range. intros H. apply andb_true_iff in H. destruct H as [H1 H2].
  apply Z.leb_le in H1. apply Z.ltb_lt in H2.
  assert (E : z = 1%Z \/ z = 2%Z \/ z = 3%Z \/ z = 4%Z \/ z = 5%Z) by lia.
  destruct E as [->|[->|[->|[->| ->]]]]; reflexivity.
Qed.

Lemma of_int_rating_not_nan (l : list Z) :
  forallb (in_range 1 6) l = true ->
  forallb (fun x => negb (isnan x)) (map of_int l) = true.
Proof.
  intros H. apply forallb_forall. intros x Hx. apply in_map_iff in Hx.
  destruct Hx as [z [<- Hz]]. rewrite forallb_forall in H.
  pose proof (of_int_rating z (H z Hz)) as Hr.
  rewrite (CleanFacts.half_rating_not_nan _ (CleanFacts.is_rating_half _ Hr)).
  reflexivity.
Qed.

(** The generated table, column by column. *)
Lemma create_dummy_data_eq (r : Draws) :
  create_dummy_data r =
  mkDataFrame
    (date_range start periods freq_H)
    (draw_overall r)
    (loc_assign (sample_rating r Speaker) nan (map of_int (draw_rating r Speaker)))
    (loc_assign (sample_rating r Workshop) nan (map of_int (draw_rating r Workshop)))
    (loc_assign (sample_rating r Food) nan (map of_int (draw_rating r Food)))
    (list_mul likes 10)
    (loc_assign (sample_improvements r) ""%string (list_mul improvements 10))
    (list_mul attended 10)
    (draw_year r)
    Int64.
Proof. reflexivity. Qed.

Lemma generated_rating (r : Draws) (c : RatingColumn) :
  get_rating c (create_dummy_data r) =
  loc_assign (sample_rating r c) nan (map of_int (draw_rating r c)).
Proof. destruct c; reflexivity. Qed.

Lemma generated_columns (r : Draws) :
  Timestamp (create_dummy_data r) = date_range start periods freq_H /\
  OverallRating (create_dummy_data r) = draw_overall r /\
  WhatDidYouLike (create_dummy_data r) = list_mul likes 10 /\
  Improvements (create_dummy_data r) =
    loc_assign (sample_improvements r) ""%string (list_mul improvements 10) /\
  AttendedEvents (create_dummy_data r) = list_mul attended 10 /\
  YearOfStudy (create_dummy_data r) = draw_year r.
Proof. repeat split; reflexivity. Qed.


Lemma improvements_not_empty :
  forallb (fun s => negb (String.eqb "" s)) (list_mul improvements 10) = true.
Proof. vm_compute. reflexivity. Qed.

Lemma in_range_int_rating (l : list Z) :
  forallb (in_range 1 6) l = true -> forallb int_rating l = true.
Proof.
  intros H. apply forallb_forall. intros z Hz. rewrite forallb_forall in H.
  specialize (H z Hz). unfold in_range in H. unfold int_rating.
  apply andb_true_iff in H. destruct H as [H1 H2].
  apply Z.ltb_lt in H2. rewrite H1. apply Z.leb_le. lia.
Qed.

Lemma in_range_year_label (l : list Z) :
  forallb (in_range 1 5) l = true -> forallb year_label l = true.
Proof.
  intros H. apply forallb_forall. intros z Hz. rewrite forallb_forall in H.
  specialize (H z Hz). unfold in_range in H. unfold year_label.
  apply andb_true_iff in H. destruct H as [H1 H2].
  apply Z.ltb_lt in H2. rewrite H1. apply Z.leb_le. lia.
Qed.

Lemma randint_ok_spec (lo hi : Z) (n : nat) (l : list Z) :
  randint_ok lo hi n l = true ->
  List.length l = n /\ forallb (in_range lo hi) l = true.
Proof.
  unfold randint_ok. intros H. apply andb_true_iff in H. destruct H as [H1 H2].
  apply Nat.eqb_eq in H1. auto.
Qed.

Lemma sample_ok_spec (frac : float) (n : nat) (labels : list nat) :
  sample_ok frac n labels = true ->
  List.length labels = sample_size frac n /\
  (forall i, In i labels -> (i < n)%nat) /\ NoDup labels.
Proof.
  unfold sample_ok. intros H. apply andb_true_iff in H. destruct H as [H H3].
  apply andb_true_iff in H. destruct H as [H1 H2]. apply Nat.eqb_eq in H1.
  split; [exact H1|]. split; [|apply distinct_NoDup, H3].
  intros i Hi. rewrite forallb_forall in H2. apply Nat.ltb_lt, H2, Hi.
Qed.

(** Ten rows of a generated rating column are missing. *)
Lemma generated_rating_missing (draws : list Z) (labels : list nat) :
  randint_ok 1 6 100 draws = true -> sample_ok 0.1 100 labels = true ->
  isnull_sum (loc_assign labels nan (map of_int draws)) = 10%nat.
Proof.
  intros Hd Hs. apply randint_ok_spec in Hd. destruct Hd as [Hlen Hin].
  apply sample_ok_spec in Hs. destruct Hs as [Hn [Hlt Hnd]].
  unfold isnull_sum. rewrite (loc_assign_count isnan).
  - exact Hn.
  - reflexivity.
  - apply of_int_rating_not_nan, Hin.
  - exact Hnd.
  - rewrite length_map, Hlen. exact Hlt.
Qed.


End GeneratorFacts.

(** ** The scorer, the visualizer and the reporter *)

Module ReportFacts.
Import PyFloat PyFloatFacts Pandas Frame Capability Effects Sentiment Scorer Report Examples.
Open Scope float_scope.

Lemma get_sentiment_category_is_category (p : float) :
  is_category (get_sentiment_category p) = true.
Proof.
  unfold get_sentiment_category.
  destruct (0.1 <? p); [reflexivity|]. destruct (p <? -0.1); reflexivity.
Qed.

Lemma map_category (l : list float) :
  forallb is_category (map get_sentiment_category l) = true.
Proof.
  apply forallb_forall. intros s Hs. apply in_map_iff in Hs.
  destruct Hs as [p [<- _]]. apply get_sentiment_category_is_category.
Qed.

Lemma select_where_none (label : string) (cats texts : list string) :
  forallb (fun c => negb (String.eqb c label)) cats = true ->
  select_where label cats texts = [].
Proof.
  unfold select_where. revert texts.
  induction cats as [|c cats IH]; intros texts H; [reflexivity|].
  destruct texts as [|t texts]; [reflexivity|].
  simpl in *. apply andb_true_iff in H. destruct H as [Hc H].
  apply negb_true_iff in Hc. rewrite Hc. apply IH, H.
Qed.

(** [visualize_data], case by case on the bar chart and on the two renderer
    calls. *)
Lemma visualize_data_eq `{Capabilities} (w : World) :
  visualize_data w =
  match plot_bar (groupby_mean (base (frame w))) with
  | inr e => (mkWorld (frame w) (out w ++ first_two), inr e)
  | inl _ =>
      match render_wordcloud positive_options (positive_feedback (frame w)) with
      | inr e => (mkWorld (frame w) (out w ++ first_three), inr e)
      | inl _ =>
          match render_wordcloud negative_options (negative_feedback (frame w)) with
          | inr e => (mkWorld (frame w) (out w ++ first_three), inr e)
          | inl _ => (mkWorld (frame w) (out w ++ first_three ++ fourth), inl tt)
          end
      end
  end.
Proof.
  unfold visualize_data, bind, gets, savefig, print, emit, modify, lift.
  cbn [fst snd frame out].
  destruct (plot_bar (groupby_mean (base (frame w)))) as [u|e];
    [|cbn [fst snd frame out]; rewrite <- ?app_assoc; reflexivity].
  cbn [fst snd frame out].
  destruct (render_wordcloud positive_options _) as [i|e];
    [destruct (render_wordcloud negative_options _) as [j|e]|];
    cbn [fst snd frame out]; rewrite <- ?app_assoc; reflexivity.
Qed.

(** The bar chart is drawn exactly when there is a group. *)
Lemma plot_bar_groups (s : list (Z * float)) : s <> [] -> plot_bar s = inl tt.
Proof. destruct s; [contradiction|reflexivity]. Qed.

Lemma visualize_data_groups `{Capabilities} (w : World) :
  groupby_mean (base (frame w)) <> [] ->
  visualize_data w =
  match render_wordcloud positive_options (positive_feedback (frame w)) with
  | inr e => (mkWorld (frame w) (out w ++ first_three), inr e)
  | inl _ =>
      match render_wordcloud negative_options (negative_feedback (frame w)) with
      | inr e => (mkWorld (frame w) (out w ++ first_three), inr e)
      | inl _ => (mkWorld (frame w) (out w ++ first_three ++ fourth), inl tt)
      end
  end.
Proof.
  intros Hne. rewrite visualize_data_eq, (plot_bar_groups _ Hne). reflexivity.
Qed.

Lemma visualize_data_no_group `{Capabilities} (w : World) :
  groupby_mean (base (frame w)) = [] ->
  visualize_data w =
  (mkWorld (frame w) (out w ++ first_two),
   inr (IndexError "index 0 is out of bounds for axis 0 with size 0")).
Proof.
  intros He. rewrite visualize_data_eq, He. reflexivity.
Qed.

Lemma visualize_data_frame `{Capabilities} (w : World) :
  frame (fst (visualize_data w)) = frame w.
Proof.
  rewrite visualize_data_eq.
  destruct (plot_bar _); [|reflexivity].
  destruct (render_wordcloud positive_options _);
    [destruct (render_wordcloud negative_options _)|]; reflexivity.
Qed.

Lemma print_eq (text : string) (w : World) :
  print text w = (mkWorld (frame w) (out w ++ [Print text]), inl tt).
Proof. reflexivity. Qed.

(** [generate_insights], case by case on [idxmin]. *)
Lemma generate_insights_eq (w : World) :
  generate_insights w =
  match idxmin (groupby_mean (base (frame w))) with
  | inr e => (mkWorld (frame w) (out w ++ report_head (frame w)), inr e)
  | inl year =>
      (mkWorld (frame w)
         (out w ++ report_head (frame w) ++
          report_tail year (series_min (groupby_mean (base (frame w))))),
       inl tt)
  end.
Proof.
  unfold generate_insights, report_head, report_tail.
  unfold bind, gets, print, emit, modify, lift.
  cbn [frame out fst snd].
  destruct (4 <? mean (OverallRating (base (frame w))));
    [|destruct (3 <? mean (OverallRating (base (frame w))))];
    cbn [frame out fst snd];
    destruct (idxmin (groupby_mean (base (frame w)))) as [year|e];
    cbn [frame out fst snd]; rewrite <- ?app_assoc; reflexivity.
Qed.

Lemma generate_insights_frame (w : World) :
  frame (fst (generate_insights w)) = frame w.
Proof.
  rewrite generate_insights_eq.
  destruct (idxmin (groupby_mean (base (frame w)))); reflexivity.
Qed.

(** *** The first smallest value *)

Lemma min_from_step (b x : float) (l : list float) :
  min_from b (x :: l) = if x <? b then min_from x l else min_from b l.
Proof. reflexivity. Qed.

(** The scan of [argmin]: [seen] is the part of the array already visited,
    [b] its first smallest value, at position [length p1]. *)
Lemma argmin_from_spec (l : list float) :
  forall (seen p1 p2 : list float) (b : float),
    seen = p1 ++ b :: p2 ->
    number b -> Forall number l ->
    Forall (fun y => (b <? y) = true) p1 ->
    Forall (fun y => (b <=? y) = true) p2 ->
    exists q1 q2 : list float,
      seen ++ l = q1 ++ min_from b l :: q2 /\
      List.length q1 = argmin_from (List.length p1) b (List.length seen) l /\
      Forall (fun y => (min_from b l <? y) = true) q1 /\
      Forall (fun y => (min_from b l <=? y) = true) q2.
Proof.
  induction l as [|x l IH]; intros seen p1 p2 b Hseen Hb Hl H1 H2.
  - exists p1, p2. rewrite app_nil_r. simpl. auto.
  - inversion Hl as [|? ? Hx Hl']; subst.
    rewrite min_from_step. simpl argmin_from.
    replace ((p1 ++ b :: p2) ++ x :: l) with (((p1 ++ b :: p2) ++ [x]) ++ l)
      by (rewrite <- app_assoc; reflexivity).
    replace (S (List.length (p1 ++ b :: p2)))
      with (List.length ((p1 ++ b :: p2) ++ [x]))
      by (rewrite (length_app _ [x]); simpl; lia).
    destruct (x <? b) eqn:E.
    + apply (IH ((p1 ++ b :: p2) ++ [x]) (p1 ++ b :: p2) [] x).
      * reflexivity.
      * exact Hx.
      * exact Hl'.
      * apply Forall_app. split.
        -- eapply Forall_impl; [|exact H1]. intros y Hy. simpl in Hy.
           apply (ltb_trans x b y E Hy).
        -- constructor; [exact E|].
           eapply Forall_impl; [|exact H2]. intros y Hy. simpl in Hy.
           apply (ltb_leb_trans x b y E Hy).
      * constructor.
    + apply (IH ((p1 ++ b :: p2) ++ [x]) p1 (p2 ++ [x]) b).
      * rewrite <- app_assoc. reflexivity.
      * exact Hb.
      * exact Hl'.
      * exact H1.
      * apply Forall_app. split; [exact H2|]. constructor; [|constructor].
        apply ltb_false_leb; assumption.
Qed.

Lemma argmin_spec (x : float) (l : list float) :
  Forall number (x :: l) ->
  exists q1 q2 : list float,
    x :: l = q1 ++ min_from x l :: q2 /\
    List.length q1 = argmin (x :: l) /\
    Forall (fun y => (min_from x l <? y) = true) q1 /\
    Forall (fun y => (min_from x l <=? y) = true) q2.
Proof.
  intros H. inversion H as [|? ? Hx Hl]; subst.
  apply (argmin_from_spec l [x] [] [] x); auto.
Qed.

Lemma nan_to_inf_numbers (l : list float) :
  Forall number l -> map nan_to_inf l = l.
Proof.
  intros H. induction H as [|x l Hx _ IH]; simpl; [reflexivity|].
  rewrite IH. unfold nan_to_inf. rewrite Hx. reflexivity.
Qed.

Lemma numbers_not_all_nan (l : list float) :
  l <> [] -> Forall number l -> forallb isnan l = false.
Proof.
  intros Hne H. destruct H as [|x l Hx _]; [contradiction|].
  simpl. rewrite Hx. reflexivity.
Qed.

Lemma idxmin_numbers (s : list (Z * float)) :
  s <> [] -> Forall number (map snd s) ->
  idxmin s = inl (Key (nth (argmin (map snd s)) (map fst s) 0%Z)) /\
  series_min s = match map snd s with
                 | [] => nan
                 | x :: l => min_from x l
                 end.
Proof.
  intros Hne Hnum.
  assert (Hv : map snd s <> []) by (destruct s; [contradiction|discriminate]).
  unfold idxmin, series_min.
  rewrite (nan_to_inf_numbers _ Hnum), (numbers_not_all_nan _ Hv Hnum).
  destruct s; [contradiction|]. split; reflexivity.
Qed.

(** [idxmin] and [min] on a non-empty Series of numbers: the Series splits
    around its first smallest value. *)
Lemma idxmin_spec (s : list (Z * float)) :
  s <> [] -> Forall number (map snd s) ->
  exists (pre : list (Z * float)) (y : Z) (m : float) (post : list (Z * float)),
    s = pre ++ (y, m) :: post /\
    idxmin s = inl (Key y) /\
    series_min s = m /\
    Forall (fun p => (m <? snd p) = true) pre /\
    Forall (fun p => (m <=? snd p) = true) post.
Proof.
  intros Hne Hnum. destruct (idxmin_numbers s Hne Hnum) as [Hidx Hmin].
  rewrite Hidx, Hmin. clear Hidx Hmin.
  destruct (map snd s) as [|x l] eqn:Hv.
  { destruct s; [contradiction|discriminate]. }
  destruct (argmin_spec x l Hnum) as [q1 [q2 [Hsplit [Hlen [H1 H2]]]]].
  rewrite <- Hlen. rewrite <- Hv in Hsplit.
  apply map_eq_app in Hsplit. destruct Hsplit as [pre [rest [Hs [Hpre Hrest]]]].
  apply map_eq_cons in Hrest. destruct Hrest as [[y m] [post [Hr [Hm Hpost]]]].
  simpl in Hm. subst rest.
  exists pre, y, m, post.
  split; [exact Hs|]. split; [|split; [|split]].
  - rewrite Hs, map_app, <- Hpre, length_map.
    rewrite app_nth2 by (rewrite length_map; lia).
    rewrite length_map, Nat.sub_diag. reflexivity.
  - symmetry. exact Hm.
  - subst q1. rewrite Forall_map in H1. rewrite Hm. exact H1.
  - subst q2. rewrite Forall_map in H2. rewrite Hm. exact H2.
Qed.

(** *** The first smallest value of a Series with missing values *)

Lemma nan_to_inf_number (x : float) : number (nan_to_inf x).
Proof.
  unfold nan_to_inf, number. destruct (isnan x) eqn:E; [reflexivity|exact E].
Qed.

Lemma nan_to_inf_finite (x : float) :
  (nan_to_inf x <? infinity) = true -> nan_to_inf x = x /\ isnan x = false.
Proof.
  unfold nan_to_inf. destruct (isnan x) eqn:E; [|intros _; split; reflexivity].
  rewrite ltb_irrefl. discriminate.
Qed.

Lemma nan_to_inf_cases (m x : float) :
  number m ->
  ((m <? nan_to_inf x) = true -> isnan x = true \/ (m <? x) = true) /\
  ((m <=? nan_to_inf x) = true -> isnan x = true \/ (m <=? x) = true).
Proof.
  intros _. unfold nan_to_inf. destruct (isnan x); split; intros H;
    [left; reflexivity|left; reflexivity|right; exact H|right; exact H].
Qed.

(** [idxmin] and [min] on a Series with a finite value: missing values are
    passed over, and the Series splits around its first smallest value. *)
Lemma idxmin_skipna (s : list (Z * float)) :
  (exists p, In p s /\ (snd p <? infinity) = true) ->
  exists (pre : list (Z * float)) (y : Z) (m : float) (post : list (Z * float)),
    s = pre ++ (y, m) :: post /\
    (m <? infinity) = true /\
    idxmin s = inl (Key y) /\
    series_min s = m /\
    Forall (fun p => isnan (snd p) = true \/ (m <? snd p) = true) pre /\
    Forall (fun p => isnan (snd p) = true \/ (m <=? snd p) = true) post.
Proof.
  intros [p0 [Hin0 Hfin0]].
  assert (Hall : forallb isnan (map snd s) = false).
  { destruct (forallb isnan (map snd s)) eqn:F; [|reflexivity].
    rewrite forallb_forall in F.
    pose proof (ltb_isnan_l _ _ Hfin0) as Hn.
    rewrite (F (snd p0) (in_map snd _ _ Hin0)) in Hn. discriminate. }
  assert (Hnum : Forall number (map nan_to_inf (map snd s))).
  { apply Forall_forall. intros x Hx. apply in_map_iff in Hx.
    destruct Hx as [x0 [<- _]]. apply nan_to_inf_number. }
  unfold idxmin, series_min. rewrite Hall.
  destruct (map nan_to_inf (map snd s)) as [|x l] eqn:Hv.
  { destruct s; [destruct Hin0|discriminate]. }
  destruct (argmin_spec x l Hnum) as [q1 [q2 [Hsplit [Hlen [H1 H2]]]]].
  rewrite <- Hlen. rewrite <- Hv, map_map in Hsplit.
  apply map_eq_app in Hsplit. destruct Hsplit as [pre [rest [Hs [Hpre Hrest]]]].
  apply map_eq_cons in Hrest. destruct Hrest as [[y m0] [post [Hr [Hm Hpost]]]].
  simpl in Hm. subst rest.
  set (m := min_from x l) in *.
  assert (Hmnum : number m).
  { rewrite <- Hm. apply nan_to_inf_number. }
  assert (Hfin : (m <? infinity) = true).
  { rewrite Hs in Hin0. apply in_app_or in Hin0.
    destruct Hin0 as [Hin0|[Hin0|Hin0]].
    - subst q1. rewrite Forall_map in H1. rewrite Forall_forall in H1.
      specialize (H1 p0 Hin0). simpl in H1.
      destruct (proj1 (nan_to_inf_cases m (snd p0) Hmnum) H1) as [Hn|Hlt].
      + pose proof (ltb_isnan_l _ _ Hfin0) as Hn'. rewrite Hn in Hn'. discriminate.
      + apply (ltb_trans _ _ _ Hlt Hfin0).
    - subst p0. simpl in Hfin0. rewrite <- Hm. unfold nan_to_inf.
      rewrite (ltb_isnan_l _ _ Hfin0). exact Hfin0.
    - subst q2. rewrite Forall_map in H2. rewrite Forall_forall in H2.
      specialize (H2 p0 Hin0). simpl in H2.
      destruct (proj2 (nan_to_inf_cases m (snd p0) Hmnum) H2) as [Hn|Hle].
      + pose proof (ltb_isnan_l _ _ Hfin0) as Hn'. rewrite Hn in Hn'. discriminate.
      + apply (leb_ltb_trans _ _ _ Hle Hfin0). }
  assert (Hm0 : m0 = m).
  { rewrite <- Hm in Hfin. destruct (nan_to_inf_finite m0 Hfin) as [E _].
    rewrite <- Hm. symmetry. exact E. }
  subst m0.
  exists pre, y, m, post.
  split; [exact Hs|]. split; [exact Hfin|]. split; [|split; [reflexivity|split]].
  - destruct s as [|s0 s']; [destruct pre; discriminate|].
    f_equal. f_equal.
    rewrite Hs, map_app, <- Hpre, length_map.
    rewrite app_nth2 by (rewrite length_map; lia).
    rewrite length_map, Nat.sub_diag. reflexivity.
  - subst q1. rewrite Forall_map in H1.
    eapply Forall_impl; [|exact H1]. intros p Hp. simpl in Hp.
    apply (proj1 (nan_to_inf_cases m (snd p) Hmnum) Hp).
  - subst q2. rewrite Forall_map in H2.
    eapply Forall_impl; [|exact H2]. intros p Hp. simpl in Hp.
    apply (proj2 (nan_to_inf_cases m (snd p) Hmnum) Hp).
Qed.

(** *** Group keys in ascending order *)

Lemma insert_unique_In (x y : Z) (l : list Z) :
  In y (insert_unique x l) -> y = x \/ In y l.
Proof.
  induction l as [|z l IH]; simpl.
  - intros [H|[]]. left. symmetry. exact H.
  - destruct (x <? z)%Z; [|destruct (x =? z)%Z]; simpl.
    + intros [H|H]; [left; symmetry; exact H|right; exact H].
    + intros H. right. exact H.
    + intros [H|H]; [right; left; exact H|].
      destruct (IH H) as [E|E]; [left; exact E|right; right; exact E].
Qed.

Lemma insert_unique_sorted (x : Z) (l : list Z) :
  StronglySorted Z.lt l -> StronglySorted Z.lt (insert_unique x l).
Proof.
  intros Hs. induction Hs as [|z l Hs IH Hz]; simpl.
  - repeat constructor.
  - destruct (x <? z)%Z eqn:E1; [|destruct (x =? z)%Z eqn:E2].
    + apply Z.ltb_lt in E1. constructor; [constructor; assumption|].
      constructor; [exact E1|].
      eapply Forall_impl; [|exact Hz]. intros a Ha. simpl in Ha. lia.
    + constructor; assumption.
    + apply Z.ltb_ge in E1. apply Z.eqb_neq in E2.
      constructor; [exact IH|].
      apply Forall_forall. intros a Ha. apply insert_unique_In in Ha.
      destruct Ha as [->|Ha]; [lia|].
      rewrite Forall_forall in Hz. apply Hz, Ha.
Qed.

Lemma unique_sorted (l : list Z) : StronglySorted Z.lt (unique l).
Proof.
  induction l as [|x l IH]; simpl; [constructor|].
  apply insert_unique_sorted, IH.
Qed.

Lemma groupby_mean_keys (df : DataFrame) :
  map fst (groupby_mean df) = group_keys (YearOfStudy df) (YearOfStudy_dtype df).
Proof. unfold groupby_mean. rewrite map_map. simpl. apply map_id. Qed.

Lemma sorted_after (pre post : list Z) (y : Z) :
  StronglySorted Z.lt (pre ++ y :: post) -> Forall (fun k => (y < k)%Z) post.
Proof.
  induction pre as [|a pre IH]; simpl; intros H; inversion H; subst; auto.
Qed.

(** *** The group means of a reportable table *)

Lemma in_combine_key (k : Z) (years ratings : list Z) :
  List.length years = List.length ratings -> In k years ->
  exists z, In (k, z) (combine years ratings).
Proof.
  revert ratings. induction years as [|y years IH]; intros [|z ratings] Hl Hk;
    try discriminate; try contradiction.
  simpl in Hl. injection Hl as Hl. destruct Hk as [->|Hk].
  - exists z. left. reflexivity.
  - destruct (IH ratings Hl Hk) as [z' Hz']. exists z'. right. exact Hz'.
Qed.

Lemma group_rows_nonempty (k : Z) (years ratings : list Z) :
  List.length years = List.length ratings -> In k years ->
  group_rows k years ratings <> [].
Proof.
  intros Hl Hk. destruct (in_combine_key k years ratings Hl Hk) as [z Hz].
  assert (Hin : In z (group_rows k years ratings)).
  { unfold group_rows. apply in_map_iff. exists (k, z). split; [reflexivity|].
    apply filter_In. split; [exact Hz|]. simpl. apply Z.eqb_refl. }
  intros E. rewrite E in Hin. destruct Hin.
Qed.

Lemma group_rows_incl (k : Z) (years ratings : list Z) (z : Z) :
  In z (group_rows k years ratings) -> In z ratings.
Proof.
  unfold group_rows. intros H. apply in_map_iff in H.
  destruct H as [[y z'] [E H]]. simpl in E. subst z'.
  apply filter_In in H. destruct H as [H _]. apply in_combine_r in H. exact H.
Qed.

Lemma group_rows_length (k : Z) (years ratings : list Z) :
  (List.length (group_rows k years ratings) <= List.length ratings)%nat.
Proof.
  unfold group_rows. rewrite length_map.
  eapply Nat.le_trans; [apply filter_length_le|].
  rewrite length_combine. apply Nat.le_min_r.
Qed.

Lemma reportable_means (df : DataFrame) :
  reportable df = true ->
  groupby_mean df <> [] /\
  forallb (fun p => negb (isnan (snd p))) (groupby_mean df) = true.
Proof.
  unfold reportable. intros H.
  apply andb_true_iff in H. destruct H as [H Hobs].
  apply andb_true_iff in H. destruct H as [H Hkeys].
  apply andb_true_iff in H. destruct H as [H Hsmall].
  apply andb_true_iff in H. destruct H as [Hlen Hrat].
  apply Nat.eqb_eq in Hlen. apply Z.ltb_lt in Hsmall.
  split.
  - unfold groupby_mean.
    destruct (group_keys (YearOfStudy df) (YearOfStudy_dtype df));
      [discriminate|discriminate].
  - unfold groupby_mean. apply forallb_forall. intros p Hp.
    apply in_map_iff in Hp. destruct Hp as [k [<- Hk]]. simpl.
    rewrite forallb_forall in Hobs. specialize (Hobs k Hk).
    apply existsb_exists in Hobs. destruct Hobs as [k' [Hk' E]].
    apply Z.eqb_eq in E. subst k'.
    apply negb_true_iff. apply MeanFacts.mean_number.
    + apply group_rows_nonempty; assumption.
    + apply Forall_forall. intros z Hz. apply group_rows_incl in Hz.
      rewrite forallb_forall in Hrat. specialize (Hrat z Hz).
      unfold int_rating in Hrat. apply andb_true_iff in Hrat.
      destruct Hrat as [H1 H2]. apply Z.leb_le in H1, H2.
      split; [lia|]. apply Z.le_lt_trans with 5%Z; [exact H2|reflexivity].
    + pose proof (group_rows_length k (YearOfStudy df) (OverallRating df)). lia.
Qed.

(** *** The group means of a rankable table *)

Lemma ratings_sum (l : list Z) :
  Forall (fun z => (1 <= z <= 5)%Z) l ->
  (0 <= fold_right Z.add 0%Z l <= 5 * Z.of_nat (List.length l))%Z.
Proof.
  induction 1 as [|z l Hz _ IH]; [simpl; lia|].
  change (List.length (z :: l)) with (S (List.length l)).
  rewrite Nat2Z.inj_succ. simpl fold_right. lia.
Qed.

Lemma mean_nil : isnan (mean []) = true.
Proof. reflexivity. Qed.

(** The mean of a group of a rankable table: missing exactly when the group
    has no row, and finite otherwise. *)
Lemma group_mean_cases (df : DataFrame) (k : Z) :
  forallb int_rating (OverallRating df) = true ->
  (Z.of_nat (List.length (OverallRating df)) < 2 ^ 50)%Z ->
  (isnan (mean (group_rows k (YearOfStudy df) (OverallRating df))) = true <->
   group_rows k (YearOfStudy df) (OverallRating df) = []) /\
  (group_rows k (YearOfStudy df) (OverallRating df) <> [] ->
   (mean (group_rows k (YearOfStudy df) (OverallRating df)) <? infinity) = true).
Proof.
  intros Hrat Hsmall.
  set (rows := group_rows k (YearOfStudy df) (OverallRating df)).
  assert (Hrows : Forall (fun z => (1 <= z <= 5)%Z) rows).
  { apply Forall_forall. intros z Hz. apply group_rows_incl in Hz.
    rewrite forallb_forall in Hrat. specialize (Hrat z Hz).
    unfold int_rating in Hrat. apply andb_true_iff in Hrat.
    destruct Hrat as [H1 H2]. apply Z.leb_le in H1, H2. lia. }
  pose proof (group_rows_length k (YearOfStudy df) (OverallRating df)) as Hlen.
  fold rows in Hlen. pose proof (ratings_sum rows Hrows) as Hsum.
  assert (Hfin : rows <> [] -> (mean rows <? infinity) = true).
  { intros Hne. apply MeanFacts.mean_finite.
    - exact Hne.
    - eapply Forall_impl; [|exact Hrows]. intros z Hz. simpl in Hz. lia.
    - apply Z.le_lt_trans with (5 * 2 ^ 50)%Z; [lia|reflexivity].
    - apply Z.le_lt_trans with (2 ^ 50)%Z; [lia|reflexivity]. }
  split; [|exact Hfin]. split.
  - intros Hn. destruct rows as [|z rows'] eqn:E; [reflexivity|exfalso].
    assert (Hne : z :: rows' <> []) by discriminate.
    pose proof (ltb_isnan_l _ _ (Hfin Hne)) as Hn'.
    rewrite Hn in Hn'. discriminate.
  - intros ->. reflexivity.
Qed.

Lemma rankable_means (df : DataFrame) :
  rankable df = true ->
  (exists p, In p (groupby_mean df) /\ (snd p <? infinity) = true) /\
  Forall (fun p => isnan (snd p) = true <->
                   group_rows (fst p) (YearOfStudy df) (OverallRating df) = [])
         (groupby_mean df).
Proof.
  unfold rankable. intros H.
  apply andb_true_iff in H. destruct H as [H Hobs].
  apply andb_true_iff in H. destruct H as [H Hsmall].
  apply andb_true_iff in H. destruct H as [Hlen Hrat].
  apply Nat.eqb_eq in Hlen. apply Z.ltb_lt in Hsmall.
  split.
  - apply existsb_exists in Hobs. destruct Hobs as [k [Hk Hin]].
    apply existsb_exists in Hin. destruct Hin as [k' [Hk' E]].
    apply Z.eqb_eq in E. subst k'.
    exists (k, mean (group_rows k (YearOfStudy df) (OverallRating df))).
    split.
    + unfold groupby_mean. apply in_map_iff. exists k. split; [reflexivity|exact Hk].
    + apply (group_mean_cases df k Hrat Hsmall).
      apply group_rows_nonempty; assumption.
  - unfold groupby_mean. apply Forall_forall. intros p Hp.
    apply in_map_iff in Hp. destruct Hp as [k [<- _]].
    apply (group_mean_cases df k Hrat Hsmall).
Qed.

Lemma int64_keys_ascend (df : DataFrame) :
  YearOfStudy_dtype df = Int64 ->
  ascending_keys df /\ ascending_keys (clean_data df).
Proof.
  intros Hdt. unfold ascending_keys.
  destruct (FrameFacts.clean_data_frame df) as [_ [_ [_ Eyr]]].
  pose proof (FrameFacts.clean_data_dtype df) as Edt.
  rewrite Hdt in Edt. unfold astype_category in Edt.
  rewrite Edt, Hdt. simpl group_keys. split; apply unique_sorted.
Qed.

Lemma unique_incl (k : Z) (l : list Z) : In k (unique l) -> In k l.
Proof.
  induction l as [|x l IH]; simpl; [intros []|].
  intros H. apply insert_unique_In in H.
  destruct H as [->|H]; [left; reflexivity|right; apply IH, H].
Qed.

Lemma insert_unique_nonempty (x : Z) (l : list Z) : insert_unique x l <> [].
Proof.
  destruct l as [|y l]; simpl; [discriminate|].
  destruct (x <? y)%Z; [discriminate|]. destruct (x =? y)%Z; discriminate.
Qed.

(** The tables the pipeline hands to the reporter can be ranked, and their
    group keys ascend: the cleaner derives the categories from an int64
    column. *)
Lemma cleaned_table_reportable (df : DataFrame) :
  well_formed df = true -> YearOfStudy_dtype df = Int64 ->
  forallb int_rating (OverallRating df) = true ->
  nrows df <> 0%nat -> (Z.of_nat (nrows df) < 2 ^ 53)%Z ->
  reportable (clean_data df) = true /\ ascending_keys (clean_data df).
Proof.
  intros Hwf Hdt Hrat Hne Hsmall.
  unfold well_formed in Hwf.
  repeat (apply andb_true_iff in Hwf; destruct Hwf as [Hwf ?]).
  apply Nat.eqb_eq in Hwf, H. rename H into Hyr, Hwf into Hov.
  destruct (FrameFacts.clean_data_frame df) as [_ [Eov [_ Eyr]]].
  pose proof (FrameFacts.clean_data_dtype df) as Edt.
  rewrite Hdt in Edt. unfold astype_category in Edt.
  unfold reportable, ascending_keys. rewrite Eov, Eyr, Edt. simpl group_keys.
  split; [|apply unique_sorted].
  repeat (apply andb_true_iff; split).
  - apply Nat.eqb_eq. congruence.
  - exact Hrat.
  - apply Z.ltb_lt. rewrite Hov. exact Hsmall.
  - destruct (YearOfStudy df) as [|y l] eqn:E.
    + simpl in Hyr. congruence.
    + simpl unique. pose proof (insert_unique_nonempty y (unique l)) as Hn.
      destruct (insert_unique y (unique l)); [contradiction|reflexivity].
  - apply forallb_forall. intros k Hk. apply existsb_exists. exists k.
    split; [apply unique_incl, Hk|apply Z.eqb_refl].
Qed.

(** *** The script stops at the first uncaught exception *)

Lemma main_raises `{Capabilities} (r : Generator.Draws) (e : exn) :
  (forall w : World,
      frame w =
        perform_sentiment_analysis (clean_data (Generator.create_dummy_data r)) ->
      snd (visualize_data w) = inr e) ->
  snd (Main.main r) = inr e.
Proof.
  intros Hv. unfold Main.main, Main.clean_data_diagnostics.
  unfold bind at 1 2 3 4 5 6 7 8 9 10 11 12.
  unfold print, print_object, emit, modify. cbn [fst snd frame out].
  unfold bind at 1.
  match goal with
  | |- context [visualize_data ?w] =>
      pose proof (Hv w eq_refl) as Hw; destruct (visualize_data w) as [w' [u|e']]
  end.
  - discriminate.
  - simpl in Hw. injection Hw as ->. reflexivity.
Qed.

End ReportFacts.

(** ** Further facts about floats and the cleaner *)

Module MoreFacts.
Import SFOrder PyFloat PyFloatFacts Pandas PandasFacts Frame FrameFacts.
Open Scope float_scope.

(** There is one NaN. *)
Lemma nan_unique (x : float) : isnan x = true -> x = nan.
Proof.
  rewrite isnan_spec. intros H. apply Prim2SF_inj.
  destruct (Prim2SF x); try discriminate. reflexivity.
Qed.

Lemma fillna_nan (v : float) (col : column) : isnan v = true -> fillna v col = col.
Proof.
  intros Hv. unfold fillna. induction col as [|x col IH]; simpl; [reflexivity|].
  rewrite IH. destruct (isnan x) eqn:E; [|reflexivity].
  rewrite (nan_unique v Hv), (nan_unique x E). reflexivity.
Qed.

Lemma fill_median_idempotent (col : column) :
  fill_median (fill_median col) = fill_median col.
Proof.
  unfold fill_median at 2. destruct (isnull_any col) eqn:Hany; [|reflexivity].
  destruct (isnan (median col)) eqn:Hm.
  - rewrite (fillna_nan _ col Hm). reflexivity.
  - unfold fill_median. rewrite (fillna_no_missing _ col Hm), Hany. reflexivity.
Qed.

Lemma replace_idempotent (col : list string) :
  replace "" "No feedback" (replace "" "No feedback" col) =
  replace "" "No feedback" col.
Proof. apply CleanFacts.replace_id, CleanFacts.replace_no_empty. Qed.

Lemma astype_category_idempotent (values : list Z) (d : dtype) :
  astype_category values (astype_category values d) = astype_category values d.
Proof. destruct d; reflexivity. Qed.

Lemma forallb_filter_id {A : Type} (p : A -> bool) (l : list A) :
  forallb p l = true -> filter p l = l.
Proof.
  induction l as [|x l IH]; simpl; [reflexivity|].
  intros H. apply andb_true_iff in H. destruct H as [Hx Hl].
  rewrite Hx, (IH Hl). reflexivity.
Qed.

Lemma filter_none {A : Type} (p : A -> bool) (l : list A) :
  forallb (fun x => negb (p x)) l = true -> filter p l = [].
Proof.
  induction l as [|x l IH]; simpl; [reflexivity|].
  intros H. apply andb_true_iff in H. destruct H as [Hx Hl].
  apply negb_true_iff in Hx. rewrite Hx. apply IH, Hl.
Qed.

Lemma entirely_missing_dropna (col : column) :
  entirely_missing col = true -> dropna col = [].
Proof.
  unfold entirely_missing. destruct col as [|x col]; [discriminate|].
  intros H. unfold dropna.
  induction (x :: col) as [|y l IH]; [reflexivity|].
  simpl in *. apply andb_true_iff in H. destruct H as [Hy Hl].
  rewrite Hy. simpl. apply IH, Hl.
Qed.

Lemma median_no_number (col : column) : dropna col = [] -> median col = nan.
Proof. intros H. unfold median. rewrite H. reflexivity. Qed.

(** *** Negation reverses the order *)

Lemma SFcompare_opp (x y : spec_float) :
  SFcompare (SFopp x) (SFopp y) = SFcompare y x.
Proof.
  rewrite (SFcompare_antisym x y).
  destruct x as [[]|[]| |[] m e], y as [[]|[]| |[] m' e']; simpl; try reflexivity;
    destruct (e ?= e')%Z; simpl; try reflexivity;
    destruct (Pos.compare_cont Eq m m'); reflexivity.
Qed.

Lemma ltb_opp (x y : float) : (- x <? - y) = (y <? x).
Proof.
  rewrite !ltb_spec, !opp_spec. unfold SFltb. rewrite SFcompare_opp. reflexivity.
Qed.

Lemma above_cutoff_opp (p : float) : (0.1 <? - p) = (p <? -0.1).
Proof. exact (ltb_opp (-0.1) p). Qed.

Lemma below_cutoff_opp (p : float) : (- p <? -0.1) = (0.1 <? p).
Proof. exact (ltb_opp p 0.1). Qed.

End MoreFacts.

(** ** The generated table, cleaned and scored *)

Module PipelineFacts.
Import PyFloat PyFloatFacts Pandas PandasFacts Frame FrameFacts Generator
       GeneratorFacts Capability Effects Sentiment Scorer Report Examples.
Open Scope float_scope.

Lemma loc_assign_forallb {A : Type} (p : A -> bool) (labels : list nat) (v : A)
      (col : list A) :
  p v = true -> forallb p col = true -> forallb p (loc_assign labels v col) = true.
Proof.
  intros Hv Hcol. apply forallb_forall. intros x Hx. unfold loc_assign in Hx.
  apply in_map_iff in Hx. destruct Hx as [[i y] [<- Hy]]. simpl.
  destruct (mem i labels); [exact Hv|].
  apply in_combine_r in Hy. rewrite forallb_forall in Hcol. apply Hcol, Hy.
Qed.

(** What a valid outcome of the random calls consists of. *)
Lemma valid_draws_spec (r : Draws) :
  valid_draws r = true ->
  randint_ok 1 6 100 (draw_overall r) = true /\
  (forall c, randint_ok 1 6 100 (draw_rating r c) = true) /\
  randint_ok 1 5 100 (draw_year r) = true /\
  (forall c, sample_ok 0.1 100 (sample_rating r c) = true) /\
  sample_ok 0.05 100 (sample_improvements r) = true.
Proof.
  unfold valid_draws. intros Hv.
  do 8 (apply andb_true_iff in Hv; destruct Hv as [Hv ?]).
  repeat split; try assumption; intros []; assumption.
Qed.

Lemma generated_rating_length (r : Draws) (c : RatingColumn) :
  valid_draws r = true ->
  List.length (get_rating c (create_dummy_data r)) = 100%nat.
Proof.
  intros Hv. destruct (valid_draws_spec r Hv) as [_ [Hd _]].
  rewrite generated_rating, loc_assign_length, length_map.
  apply (randint_ok_spec _ _ _ _ (Hd c)).
Qed.

Lemma generated_nrows (r : Draws) : nrows (create_dummy_data r) = 100%nat.
Proof.
  unfold nrows. destruct (generated_columns r) as [-> _].
  unfold date_range. rewrite length_map, length_seq. reflexivity.
Qed.

Lemma generated_well_formed (r : Draws) :
  valid_draws r = true -> well_formed (create_dummy_data r) = true.
Proof.
  intros Hv. destruct (valid_draws_spec r Hv) as [Hov [_ [Hyr _]]].
  destruct (generated_columns r) as [_ [Eov [Elk [Eim [Eat Eyr]]]]].
  unfold well_formed. rewrite generated_nrows.
  pose proof (generated_rating_length r Speaker Hv) as L1.
  pose proof (generated_rating_length r Workshop Hv) as L2.
  pose proof (generated_rating_length r Food Hv) as L3.
  unfold get_rating in L1, L2, L3.
  rewrite L1, L2, L3, Eov, Eyr, Elk, Eim, Eat.
  rewrite (proj1 (randint_ok_spec _ _ _ _ Hov)), (proj1 (randint_ok_spec _ _ _ _ Hyr)).
  rewrite loc_assign_length, !list_mul_length. reflexivity.
Qed.

Lemma generated_rating_cells (r : Draws) (c : RatingColumn) :
  valid_draws r = true ->
  forallb rating_or_missing (get_rating c (create_dummy_data r)) = true.
Proof.
  intros Hv. destruct (valid_draws_spec r Hv) as [_ [Hd _]].
  rewrite generated_rating. apply loc_assign_forallb; [reflexivity|].
  apply forallb_forall. intros x Hx. apply in_map_iff in Hx.
  destruct Hx as [z [<- Hz]].
  destruct (randint_ok_spec _ _ _ _ (Hd c)) as [_ Hin].
  rewrite forallb_forall in Hin. unfold rating_or_missing.
  rewrite (of_int_rating z (Hin z Hz)). apply orb_true_r.
Qed.

Lemma generated_not_entirely_missing (r : Draws) (c : RatingColumn) :
  valid_draws r = true ->
  entirely_missing (get_rating c (create_dummy_data r)) = false.
Proof.
  intros Hv. destruct (valid_draws_spec r Hv) as [_ [Hd [_ [Hs _]]]].
  pose proof (generated_rating_length r c Hv) as Hlen.
  assert (Hmiss : isnull_sum (get_rating c (create_dummy_data r)) = 10%nat).
  { rewrite generated_rating. apply generated_rating_missing; [apply Hd|apply Hs]. }
  unfold entirely_missing.
  destruct (get_rating c (create_dummy_data r)) as [|x col] eqn:E; [reflexivity|].
  destruct (forallb isnan (x :: col)) eqn:F; [|reflexivity].
  unfold isnull_sum in Hmiss. rewrite (MoreFacts.forallb_filter_id _ _ F) in Hmiss.
  congruence.
Qed.

Lemma generated_schema (r : Draws) :
  valid_draws r = true -> base_schema (create_dummy_data r) = true.
Proof.
  intros Hv. destruct (valid_draws_spec r Hv) as [Hov [_ [Hyr _]]].
  destruct (generated_columns r) as [_ [Eov [_ [_ [_ Eyr]]]]].
  unfold base_schema.
  pose proof (generated_rating_cells r Speaker Hv) as C1.
  pose proof (generated_rating_cells r Workshop Hv) as C2.
  pose proof (generated_rating_cells r Food Hv) as C3.
  unfold get_rating in C1, C2, C3.
  rewrite (generated_well_formed r Hv), C1, C2, C3, Eov, Eyr.
  rewrite (in_range_int_rating _ (proj2 (randint_ok_spec _ _ _ _ Hov))).
  rewrite (in_range_year_label _ (proj2 (randint_ok_spec _ _ _ _ Hyr))).
  reflexivity.
Qed.

Lemma generated_dtype (r : Draws) : YearOfStudy_dtype (create_dummy_data r) = Int64.
Proof. reflexivity. Qed.

(** Replacing [old] by [new] moves every [old] cell to the [new] count. *)
Lemma replace_count (old new : string) (col : list string) :
  old <> new ->
  List.length (filter (String.eqb new) (replace old new col)) =
  (List.length (filter (String.eqb old) col) +
   List.length (filter (String.eqb new) col))%nat.
Proof.
  intros Hne. unfold replace. induction col as [|s col IH]; [reflexivity|].
  simpl. destruct (String.eqb_spec s old) as [->|Hs].
  - rewrite String.eqb_refl.
    destruct (String.eqb_spec old old) as [_|C]; [|contradiction].
    destruct (String.eqb_spec new old) as [C|_]; [symmetry in C; contradiction|].
    simpl. rewrite IH. reflexivity.
  - destruct (String.eqb_spec old s) as [C|_]; [symmetry in C; contradiction|].
    destruct (String.eqb new s); simpl; rewrite IH; lia.
Qed.

Lemma likes_length : List.length likes = 10%nat.
Proof. reflexivity. Qed.

Lemma cleaned_likes (r : Draws) :
  WhatDidYouLike (clean_data (create_dummy_data r)) = list_mul likes 10.
Proof.
  destruct (clean_data_text (create_dummy_data r)) as [-> _].
  destruct (generated_columns r) as [_ [_ [-> _]]].
  apply CleanFacts.replace_id. vm_compute. reflexivity.
Qed.

Lemma improvements_no_sentinel :
  forallb (fun s => negb (String.eqb "No feedback" s)) (list_mul improvements 10) = true.
Proof. vm_compute. reflexivity. Qed.

Lemma sample_size_improvements : sample_size 0.05 100 = 5%nat.
Proof. vm_compute. reflexivity. Qed.

(** The five emptied improvement cells, and only they, read "No feedback"
    after cleaning. *)
Lemma cleaned_sentinel_count (r : Draws) :
  valid_draws r = true ->
  List.length (filter (String.eqb "No feedback")
                 (Improvements (clean_data (create_dummy_data r)))) = 5%nat.
Proof.
  intros Hv.
  destruct (clean_data_text (create_dummy_data r)) as [_ Eim].
  rewrite Eim, replace_count by discriminate.
  destruct (generated_columns r) as [_ [_ [_ [Egen _]]]]. rewrite Egen.
  destruct (valid_draws_spec r Hv) as [_ [_ [_ [_ Him]]]].
  destruct (sample_ok_spec _ _ _ Him) as [Lim [Bim Nim]].
  rewrite (loc_assign_count (String.eqb "")).
  - rewrite (MoreFacts.filter_none (String.eqb "No feedback")).
    + rewrite Lim, sample_size_improvements. reflexivity.
    + apply loc_assign_forallb; [reflexivity|exact improvements_no_sentinel].
  - reflexivity.
  - exact improvements_not_empty.
  - exact Nim.
  - intros i Hi. rewrite list_mul_length. apply Bim in Hi. exact Hi.
Qed.

Lemma cleaned_generated_half (r : Draws) (c : RatingColumn) :
  valid_draws r = true ->
  forallb is_half_rating (get_rating c (clean_data (create_dummy_data r))) = true.
Proof.
  intros Hv. rewrite clean_data_rating.
  apply CleanFacts.fill_median_half_rating.
  - apply generated_rating_cells, Hv.
  - apply generated_not_entirely_missing, Hv.
Qed.

Lemma half_ratings_clean (df : DataFrame) :
  (forall c : RatingColumn, forallb is_half_rating (get_rating c df) = true) ->
  no_missing_ratings df = true.
Proof.
  intros Hc. unfold no_missing_ratings.
  pose proof (CleanFacts.half_ratings_no_missing _ (Hc Speaker)) as E1.
  pose proof (CleanFacts.half_ratings_no_missing _ (Hc Workshop)) as E2.
  pose proof (CleanFacts.half_ratings_no_missing _ (Hc Food)) as E3.
  unfold get_rating in E1, E2, E3. rewrite E1, E2, E3. reflexivity.
Qed.

Lemma cleaned_no_empty_text (df : DataFrame) : no_empty_text (clean_data df) = true.
Proof.
  destruct (clean_data_text df) as [Elk Eim].
  unfold no_empty_text. rewrite Elk, Eim, !CleanFacts.replace_no_empty.
  reflexivity.
Qed.

Lemma generated_int_ratings (r : Draws) :
  valid_draws r = true ->
  forallb int_rating (OverallRating (create_dummy_data r)) = true.
Proof.
  intros Hv. destruct (valid_draws_spec r Hv) as [Hov _].
  destruct (generated_columns r) as [_ [-> _]].
  apply in_range_int_rating, (randint_ok_spec _ _ _ _ Hov).
Qed.

Lemma cleaned_generated_reportable (r : Draws) :
  valid_draws r = true ->
  reportable (clean_data (create_dummy_data r)) = true /\
  ascending_keys (clean_data (create_dummy_data r)).
Proof.
  intros Hv. apply ReportFacts.cleaned_table_reportable.
  - apply generated_well_formed, Hv.
  - reflexivity.
  - apply generated_int_ratings, Hv.
  - rewrite generated_nrows. discriminate.
  - rewrite generated_nrows. reflexivity.
Qed.

Lemma map_list_mul {A B : Type} (f : A -> B) (l : list A) (n : nat) :
  map f (list_mul l n) = list_mul (map f l) n.
Proof.
  unfold list_mul. induction n as [|n IH]; simpl; [reflexivity|].
  rewrite map_app, IH. reflexivity.
Qed.

Lemma filter_list_mul {A : Type} (p : A -> bool) (l : list A) (n : nat) :
  List.length (filter p (list_mul l n)) = (n * List.length (filter p l))%nat.
Proof.
  unfold list_mul. induction n as [|n IH]; simpl; [reflexivity|].
  rewrite filter_app, length_app, IH. reflexivity.
Qed.

(** *** The corpus of a word cloud *)

Lemma concat_nonempty (sep s : string) (l : list string) :
  s <> ""%string -> String.concat sep (s :: l) <> ""%string.
Proof.
  intros Hs. destruct s as [|c s]; [contradiction|].
  destruct l; simpl; discriminate.
Qed.

Lemma select_where_some (label : string) (cats texts : list string) :
  List.length cats = List.length texts ->
  forallb (fun c => negb (String.eqb c label)) cats = false ->
  exists t rest, select_where label cats texts = t :: rest /\ In t texts.
Proof.
  unfold select_where. revert texts.
  induction cats as [|c cats IH]; intros [|t texts] Hl H; try discriminate.
  simpl in Hl. injection Hl as Hl. simpl in H. simpl.
  destruct (String.eqb c label) eqn:E; simpl in *.
  - exists t. eexists. split; [reflexivity|left; reflexivity].
  - destruct (IH texts Hl H) as [t' [rest [Hs Hin]]].
    exists t', rest. split; [exact Hs|right; exact Hin].
Qed.

Lemma corpus_empty_iff (label : string) (cats texts : list string) :
  List.length cats = List.length texts ->
  forallb (fun s => negb (String.eqb s "")) texts = true ->
  String.concat " " (select_where label cats texts) = ""%string <->
  forallb (fun c => negb (String.eqb c label)) cats = true.
Proof.
  intros Hl Ht. split.
  - intros Hc. destruct (forallb _ cats) eqn:F; [reflexivity|].
    destruct (select_where_some label cats texts Hl F) as [t [rest [Hs Hin]]].
    rewrite Hs in Hc. exfalso. revert Hc. apply concat_nonempty.
    rewrite forallb_forall in Ht. specialize (Ht t Hin).
    apply negb_true_iff in Ht. intros ->. discriminate.
  - intros Hn. rewrite (ReportFacts.select_where_none _ _ _ Hn). reflexivity.
Qed.

(** *** The script, stage by stage *)

Lemma saved_app (a b : list event) : saved (a ++ b) = saved a ++ saved b.
Proof.
  induction a as [|[t|o|f] a IH]; simpl; rewrite ?IH; reflexivity.
Qed.

Lemma main_eq `{Capabilities} (r : Draws) :
  Main.main r =
  bind visualize_data
    (fun _ => bind generate_insights (fun _ => print Main.farewell))
    (mkWorld (perform_sentiment_analysis (clean_data (create_dummy_data r)))
       (Main.main_prefix (create_dummy_data r))).
Proof.
  unfold Main.main, Main.clean_data_diagnostics.
  unfold bind at 1 2 3 4 5 6 7 8 9 10 11 12.
  unfold print at 1 2 3 4 5 6, print_object, emit, modify.
  cbn [fst snd frame out app].
  unfold Main.main_prefix, Main.farewell, print, emit. reflexivity.
Qed.

Lemma saved_report_head (df : ScoredFrame) : saved (report_head df) = [].
Proof. reflexivity. Qed.

Lemma saved_report_tail (year : label) (lowest : float) :
  saved (report_tail year lowest) = [].
Proof. reflexivity. Qed.

Lemma saved_main_prefix (df : DataFrame) : saved (Main.main_prefix df) = [].
Proof. reflexivity. Qed.

(** The script on a table with a year group, case by case on the two
    renderer calls and on [idxmin]. *)
Lemma main_cases `{Capabilities} (r : Draws) :
  groupby_mean (clean_data (create_dummy_data r)) <> [] ->
  Main.main r =
  match render_wordcloud positive_options
          (positive_feedback
             (perform_sentiment_analysis (clean_data (create_dummy_data r)))) with
  | inr e =>
      (mkWorld (perform_sentiment_analysis (clean_data (create_dummy_data r)))
         (Main.main_prefix (create_dummy_data r) ++ first_three), inr e)
  | inl _ =>
      match render_wordcloud negative_options
              (negative_feedback
                 (perform_sentiment_analysis (clean_data (create_dummy_data r)))) with
      | inr e =>
          (mkWorld (perform_sentiment_analysis (clean_data (create_dummy_data r)))
             (Main.main_prefix (create_dummy_data r) ++ first_three), inr e)
      | inl _ =>
          match idxmin (groupby_mean (clean_data (create_dummy_data r))) with
          | inr e =>
              (mkWorld (perform_sentiment_analysis (clean_data (create_dummy_data r)))
                 ((Main.main_prefix (create_dummy_data r) ++ first_three ++ fourth) ++
                  report_head
                    (perform_sentiment_analysis (clean_data (create_dummy_data r)))),
               inr e)
          | inl year =>
              (mkWorld (perform_sentiment_analysis (clean_data (create_dummy_data r)))
                 (((Main.main_prefix (create_dummy_data r) ++ first_three ++ fourth) ++
                   report_head
                     (perform_sentiment_analysis (clean_data (create_dummy_data r))) ++
                   report_tail year
                     (series_min (groupby_mean (clean_data (create_dummy_data r))))) ++
                  [Print Main.farewell]),
               inl tt)
          end
      end
  end.
Proof.
  intros Hne.
  rewrite main_eq. unfold bind at 1. rewrite ReportFacts.visualize_data_groups by exact Hne.
  cbn [frame out].
  destruct (render_wordcloud positive_options _) as [i|e]; [|reflexivity].
  destruct (render_wordcloud negative_options _) as [j|e]; [|reflexivity].
  unfold bind at 1. rewrite ReportFacts.generate_insights_eq. cbn [frame out base].
  change (base (perform_sentiment_analysis (clean_data (create_dummy_data r))))
    with (clean_data (create_dummy_data r)).
  destruct (idxmin (groupby_mean (clean_data (create_dummy_data r)))) as [year|e];
    reflexivity.
Qed.

End PipelineFacts.

(** * Part III: the claims *)

(** C1.  The category of a polarity is decided by the two cutoffs alone:
    above 0.1 it is Positive, below -0.1 it is Negative, and otherwise, the
    two cutoffs themselves (and NaN) included, it is Neutral.  The last four
    conjuncts are the specification's boundary cases. *)
Theorem get_sentiment_category_three_way :
  (forall p : float,
      ((0.1 <? p)%float = true ->
         Sentiment.get_sentiment_category p = "Positive"%string) /\
      ((p <? -0.1)%float = true ->
         Sentiment.get_sentiment_category p = "Negative"%string) /\
      ((0.1 <? p)%float = false -> (p <? -0.1)%float = false ->
         Sentiment.get_sentiment_category p = "Neutral"%string)) /\
  Sentiment.get_sentiment_category 0.1 = "Neutral"%string /\
  Sentiment.get_sentiment_category (-0.1) = "Neutral"%string /\
  Sentiment.get_sentiment_category 0.1000001 = "Positive"%string /\
  Sentiment.get_sentiment_category (-0.2) = "Negative"%string.
Proof.
  split; [|repeat split; reflexivity].
  intros p. unfold Sentiment.get_sentiment_category. repeat split.
  - intros ->. reflexivity.
  - intros Hlt.
    pose proof (PyFloatFacts.ltb_asym _ _ (PyFloatFacts.ltb_trans p _ 0.1 Hlt eq_refl)) as Hn.
    rewrite Hn, Hlt. reflexivity.
  - intros -> ->. reflexivity.
Qed.

Section CleanerClaims.
Import PyFloat Pandas Frame Examples.
Open Scope float_scope.

(** C2 (as stated, refuted).  A schema-conforming table whose SpeakerRating
    column has no number at all keeps its missing cell: the median of nothing
    is NaN, and filling with NaN fills nothing. *)
Lemma clean_data_keeps_entirely_missing_column :
  ~ (forall df : DataFrame,
        base_schema df = true ->
        no_missing_ratings (clean_data df) = true /\
        no_empty_text (clean_data df) = true).
Proof.
  intros H. destruct (H one_row_speaker_missing eq_refl) as [Hm _].
  vm_compute in Hm. discriminate.
Qed.

(** C2 (amended).  For every table matching the base schema in which none of
    the three secondary rating columns is entirely missing, the cleaned table
    has no missing value in SpeakerRating, WorkshopRating and FoodRating and
    no empty string in WhatDidYouLike and Improvements. *)
Theorem clean_data_no_missing_no_empty (df : DataFrame) :
  base_schema df = true ->
  entirely_missing (SpeakerRating df) = false ->
  entirely_missing (WorkshopRating df) = false ->
  entirely_missing (FoodRating df) = false ->
  no_missing_ratings (clean_data df) = true /\
  no_empty_text (clean_data df) = true.
Proof.
  intros Hs H1 H2 H3. unfold base_schema in Hs.
  repeat (apply andb_true_iff in Hs; destruct Hs as [Hs ?]).
  split.
  - unfold no_missing_ratings.
    pose proof (FrameFacts.clean_data_rating Speaker df) as E1.
    pose proof (FrameFacts.clean_data_rating Workshop df) as E2.
    pose proof (FrameFacts.clean_data_rating Food df) as E3.
    unfold get_rating in E1, E2, E3. rewrite E1, E2, E3.
    rewrite !CleanFacts.half_ratings_no_missing;
      [reflexivity| | |]; apply CleanFacts.fill_median_half_rating; assumption.
  - unfold no_empty_text.
    destruct (FrameFacts.clean_data_text df) as [-> ->].
    rewrite !CleanFacts.replace_no_empty. reflexivity.
Qed.

Lemma clean_data_no_missing_no_empty_witness :
  no_missing_ratings (clean_data four_rows) = true /\
  no_empty_text (clean_data four_rows) = true.
Proof.
  apply (clean_data_no_missing_no_empty four_rows); reflexivity.
Defined.



(** C4.  On a table that is already clean (no missing value in the three
    secondary rating columns, no empty string in the two text columns,
    YearOfStudy already categorical) the cleaner returns its input. *)
Theorem clean_data_idempotent (df : DataFrame) :
  no_missing_ratings df = true ->
  no_empty_text df = true ->
  (exists cats, YearOfStudy_dtype df = Category cats) ->
  clean_data df = df.
Proof.
  intros Hm Ht [cats Hc]. unfold no_missing_ratings in Hm. unfold no_empty_text in Ht.
  apply andb_true_iff in Hm. destruct Hm as [Hm Hfd].
  apply andb_true_iff in Hm. destruct Hm as [Hsp Hwk].
  apply andb_true_iff in Ht. destruct Ht as [Hl Hi].
  apply negb_true_iff in Hsp, Hwk, Hfd.
  rewrite FrameFacts.clean_data_eq. unfold fill_median.
  rewrite Hsp, Hwk, Hfd, Hc, (CleanFacts.replace_id _ Hl), (CleanFacts.replace_id _ Hi).
  simpl. rewrite <- Hc. destruct df; reflexivity.
Qed.

Lemma clean_data_idempotent_witness : clean_data clean_rows = clean_rows.
Proof.
  apply (clean_data_idempotent clean_rows);
    [reflexivity|reflexivity|eexists; reflexivity].
Defined.

(** C6 (as stated, refuted).  With an even number of non-missing values the
    median fill is a midpoint: speaker ratings 1, 2 and one missing cell are
    cleaned to 1, 2, 1.5, and 1.5 is not an integer. *)
Lemma clean_data_fill_not_integer :
  ~ (forall df : DataFrame,
        base_schema df = true ->
        integer_ratings (clean_data df) = true /\
        no_missing_ratings (clean_data df) = true).
Proof.
  intros H. destruct (H three_rows_even_speaker eq_refl) as [Hi _].
  vm_compute in Hi. discriminate.
Qed.

(** C6 (amended).  For every table matching the base schema in which none of
    the three secondary rating columns is entirely missing, the cleaned
    table's overall ratings are integers from 1 to 5, every secondary rating
    is one of 1, 1.5, 2, ..., 4.5, 5 (a rating or the midpoint of two), and
    none of them is missing. *)
Theorem clean_data_rating_range (df : DataFrame) :
  base_schema df = true ->
  entirely_missing (SpeakerRating df) = false ->
  entirely_missing (WorkshopRating df) = false ->
  entirely_missing (FoodRating df) = false ->
  forallb int_rating (OverallRating (clean_data df)) = true /\
  (forall c : RatingColumn,
      forallb is_half_rating (get_rating c (clean_data df)) = true) /\
  no_missing_ratings (clean_data df) = true.
Proof.
  intros Hs H1 H2 H3. unfold base_schema in Hs.
  repeat (apply andb_true_iff in Hs; destruct Hs as [Hs ?]).
  assert (Hc : forall c : RatingColumn,
             forallb is_half_rating (get_rating c (clean_data df)) = true).
  { intros c. rewrite FrameFacts.clean_data_rating.
    destruct c; apply CleanFacts.fill_median_half_rating; assumption. }
  split; [|split; [exact Hc|]].
  - destruct (FrameFacts.clean_data_frame df) as [_ [-> _]]. assumption.
  - unfold no_missing_ratings.
    pose proof (CleanFacts.half_ratings_no_missing _ (Hc Speaker)) as E1.
    pose proof (CleanFacts.half_ratings_no_missing _ (Hc Workshop)) as E2.
    pose proof (CleanFacts.half_ratings_no_missing _ (Hc Food)) as E3.
    unfold get_rating in E1, E2, E3. rewrite E1, E2, E3. reflexivity.
Qed.

Lemma clean_data_rating_range_witness :
  forallb int_rating (OverallRating (clean_data three_rows_even_speaker)) = true /\
  (forall c : RatingColumn,
      forallb is_half_rating
        (get_rating c (clean_data three_rows_even_speaker)) = true) /\
  no_missing_ratings (clean_data three_rows_even_speaker) = true.
Proof.
  apply (clean_data_rating_range three_rows_even_speaker); reflexivity.
Defined.

(** C10.  The cleaner keeps the number of rows and every cell it does not
    repair: non-missing cells of the three secondary rating columns,
    non-empty cells of the two text columns, and the whole Timestamp,
    OverallRating, AttendedEvents and YearOfStudy columns (the last one
    re-typed as categorical, its values unchanged). *)
Theorem clean_data_frame_effect (df : DataFrame) :
  nrows (clean_data df) = nrows df /\
  (forall c : RatingColumn,
      List.length (get_rating c (clean_data df)) = List.length (get_rating c df)) /\
  List.length (WhatDidYouLike (clean_data df)) = List.length (WhatDidYouLike df) /\
  List.length (Improvements (clean_data df)) = List.length (Improvements df) /\
  (forall (c : RatingColumn) (i : nat) (x : float),
      nth_error (get_rating c df) i = Some x -> isnan x = false ->
      nth_error (get_rating c (clean_data df)) i = Some x) /\
  (forall (i : nat) (s : string),
      nth_error (WhatDidYouLike df) i = Some s -> s <> ""%string ->
      nth_error (WhatDidYouLike (clean_data df)) i = Some s) /\
  (forall (i : nat) (s : string),
      nth_error (Improvements df) i = Some s -> s <> ""%string ->
      nth_error (Improvements (clean_data df)) i = Some s) /\
  Timestamp (clean_data df) = Timestamp df /\
  OverallRating (clean_data df) = OverallRating df /\
  AttendedEvents (clean_data df) = AttendedEvents df /\
  YearOfStudy (clean_data df) = YearOfStudy df.
Proof.
  destruct (FrameFacts.clean_data_frame df) as [Ets [Eov [Eat Eyr]]].
  destruct (FrameFacts.clean_data_text df) as [Elk Eim].
  repeat split; try assumption.
  - unfold nrows. rewrite Ets. reflexivity.
  - intros c. rewrite FrameFacts.clean_data_rating.
    apply CleanFacts.fill_median_length.
  - rewrite Elk. apply length_map.
  - rewrite Eim. apply length_map.
  - intros c i x Hi Hx. rewrite FrameFacts.clean_data_rating.
    apply CleanFacts.fill_median_keeps; assumption.
  - intros i s Hi Hs. rewrite Elk. apply CleanFacts.replace_keeps; assumption.
  - intros i s Hi Hs. rewrite Eim. apply CleanFacts.replace_keeps; assumption.
Qed.

End CleanerClaims.

Section GeneratorClaims.
Import PyFloat Pandas Frame Generator Examples.
Open Scope float_scope.



End GeneratorClaims.

Section ReportClaims.
Import PyFloat Pandas Frame Generator Capability Effects Sentiment Scorer Report Main Examples.
Open Scope float_scope.

(** C9.  After the scoring stage each of the two category columns has one
    cell per row, every cell is Positive, Neutral or Negative, and neither the
    visualizer nor the reporter changes the table they are given (whether they
    return or raise), so the invariant still holds after them. *)
Theorem sentiment_categories_invariant `{Capabilities} (df : DataFrame) :
  List.length (like_sentiment_category (perform_sentiment_analysis df)) =
    List.length (WhatDidYouLike df) /\
  List.length (improvements_sentiment_category (perform_sentiment_analysis df)) =
    List.length (Improvements df) /\
  forallb is_category (like_sentiment_category (perform_sentiment_analysis df)) = true /\
  forallb is_category
    (improvements_sentiment_category (perform_sentiment_analysis df)) = true /\
  (forall w : World, frame (fst (visualize_data w)) = frame w) /\
  (forall w : World, frame (fst (generate_insights w)) = frame w).
Proof.
  unfold perform_sentiment_analysis. cbn [like_sentiment_category
    improvements_sentiment_category].
  rewrite !length_map, !ReportFacts.map_category.
  repeat split.
  - apply ReportFacts.visualize_data_frame.
  - apply ReportFacts.generate_insights_frame.
Qed.

(** C5 (as stated, refuted).  With a renderer that refuses a text without a
    word, a run in which no "like" text is scored Positive builds the empty
    positive corpus and ends with the renderer's ValueError: the script does
    not guard the call. *)
Lemma main_crashes_on_empty_positive_corpus :
  ~ (forall (C : Capabilities) (r : Draws),
        valid_draws r = true ->
        no_positive (perform_sentiment_analysis (clean_data (create_dummy_data r))) = true ->
        positive_feedback
          (perform_sentiment_analysis (clean_data (create_dummy_data r))) = ""%string /\
        snd (main r) = inl tt).
Proof.
  intros H.
  assert (Hv : valid_draws overlapping_draws = true) by (vm_compute; reflexivity).
  assert (Hn : no_positive
                 (@perform_sentiment_analysis strict_capabilities
                    (clean_data (create_dummy_data overlapping_draws))) = true)
    by (vm_compute; reflexivity).
  destruct (H strict_capabilities overlapping_draws Hv Hn) as [_ Hrun].
  vm_compute in Hrun. discriminate.
Qed.

(** C5 (amended).  When no row has the category Positive for the "like" text,
    the positive corpus is the empty string.  On a table with a year-of-study
    group it goes to the renderer as it is: if the renderer raises on it,
    [visualize_data] raises the same exception after the first three figures,
    and the script ends with it; if the renderer returns for both corpora,
    the fourth figure is saved and [visualize_data] returns.  On a table
    without a year-of-study group [visualize_data] stops before that, with
    the IndexError of the bar chart after two figures, and the renderer is
    not called. *)
Theorem visualize_data_empty_positive_corpus `{Capabilities} (w : World) :
  no_positive (frame w) = true ->
  positive_feedback (frame w) = ""%string /\
  (groupby_mean (base (frame w)) <> [] ->
   (forall e : exn,
       render_wordcloud positive_options ""%string = inr e ->
       visualize_data w = (mkWorld (frame w) (out w ++ first_three), inr e)) /\
   (forall i j : image,
       render_wordcloud positive_options ""%string = inl i ->
       render_wordcloud negative_options (negative_feedback (frame w)) = inl j ->
       visualize_data w =
         (mkWorld (frame w) (out w ++ first_three ++ fourth), inl tt))) /\
  (groupby_mean (base (frame w)) = [] ->
   visualize_data w =
     (mkWorld (frame w) (out w ++ first_two),
      inr (IndexError "index 0 is out of bounds for axis 0 with size 0"))) /\
  (forall (r : Draws) (e : exn),
      valid_draws r = true ->
      frame w = perform_sentiment_analysis (clean_data (create_dummy_data r)) ->
      render_wordcloud positive_options ""%string = inr e ->
      snd (main r) = inr e).
Proof.
  intros Hn.
  assert (Hempty : forall df : ScoredFrame,
             no_positive df = true -> positive_feedback df = ""%string).
  { intros df Hdf. unfold positive_feedback.
    rewrite (ReportFacts.select_where_none _ _ _ Hdf). reflexivity. }
  split; [exact (Hempty _ Hn)|]. split; [|split].
  - intros Hg. split.
    + intros e He.
      rewrite (ReportFacts.visualize_data_groups w Hg), (Hempty _ Hn), He.
      reflexivity.
    + intros i j Hi Hj.
      rewrite (ReportFacts.visualize_data_groups w Hg), (Hempty _ Hn), Hi, Hj.
      reflexivity.
  - apply ReportFacts.visualize_data_no_group.
  - intros r e Hv Hr He. apply ReportFacts.main_raises. intros w' Hw'.
    assert (Hg : groupby_mean (base (frame w')) <> []).
    { rewrite Hw'.
      apply ReportFacts.reportable_means,
        (PipelineFacts.cleaned_generated_reportable r Hv). }
    rewrite (ReportFacts.visualize_data_groups w' Hg).
    assert (Hn' : no_positive (frame w') = true) by (rewrite Hw', <- Hr; exact Hn).
    rewrite (Hempty _ Hn'), He. reflexivity.
Qed.

Lemma visualize_data_empty_positive_corpus_witness :
  positive_feedback
    (@perform_sentiment_analysis strict_capabilities (clean_data four_rows)) =
  ""%string.
Proof.
  apply (@visualize_data_empty_positive_corpus strict_capabilities
           (mkWorld (@perform_sentiment_analysis strict_capabilities
                       (clean_data four_rows)) [])).
  vm_compute. reflexivity.
Defined.

(** C8 (as stated, refuted).  Not every scored table has a group to report.
    On the table without a row there is no year-of-study group at all, so no
    group is identified and no line names one.  And the first group with the
    smallest mean is not always the one with the smallest label: with year
    categories listed as 2, 1 and both means equal to 3, the report names
    year 2. *)
Lemma generate_insights_no_group_to_report :
  ~ (forall w : World,
        exists (y : Z) (m : float),
          In (y, m) (groupby_mean (base (frame w))) /\
          Forall (fun p => (m <=? snd p) = true) (groupby_mean (base (frame w))) /\
          In (Print (demographics_line (Key y) m))
             (out (fst (generate_insights w)))) /\
  ~ (forall (w : World) (y : Z) (m : float),
        rankable (base (frame w)) = true ->
        In (Print (demographics_line (Key y) m))
           (out (fst (generate_insights w))) ->
        Forall (fun p => snd p = m -> (y <= fst p)%Z)
               (groupby_mean (base (frame w)))).
Proof.
  split.
  - intros H. destruct (H (mkWorld no_rows [])) as [y [m [Hin _]]].
    exact Hin.
  - intros H.
    assert (Hline : In (Print (demographics_line (Key 2) 3))
                       (out (fst (generate_insights
                                    (mkWorld descending_categories []))))).
    { vm_compute. do 12 right. left. reflexivity. }
    pose proof (H (mkWorld descending_categories []) 2%Z 3 eq_refl Hline) as HF.
    assert (Hg : groupby_mean (base (frame (mkWorld descending_categories []))) =
                 [(2%Z, 3); (1%Z, 3)]) by (vm_compute; reflexivity).
    rewrite Hg in HF. inversion HF as [|? ? _ HF']; subst.
    inversion HF' as [|? ? H1 _]; subst.
    specialize (H1 eq_refl). simpl in H1. lia.
Qed.

(** C8 (amended).  On a scored table that matches the schema (one year per
    overall rating, ratings from 1 to 5) and has a row in at least one
    year-of-study group, the reporter names a group that has a row and whose
    mean overall rating is minimal among the groups that have one.  A group
    without a row has no mean (its entry is NaN, and only such entries are)
    and is passed over; every other group before the named one has a
    strictly larger mean and every other group after it a mean at least as
    large, so that among the groups with the minimal mean the named one is
    the first, which with ascending group labels is the one with the smallest
    label.  Group labels ascend whenever the year column is int64, and after
    the cleaner has made such a column categorical.  The report line gives
    the group and its mean with two decimals.  For group means 3.0, 4.5, 2.0
    and 4.0 of the years 1 to 4 the line names year 3 and 2.00; with no row
    for year 1 and means 4.0 for the years 2 and 3, it names year 2 and
    4.00. *)
Theorem generate_insights_lowest_year (w : World) :
  rankable (base (frame w)) = true ->
  (exists (pre : list (Z * float)) (y : Z) (m : float) (post : list (Z * float)),
      groupby_mean (base (frame w)) = pre ++ (y, m) :: post /\
      number m /\
      group_rows y (YearOfStudy (base (frame w))) (OverallRating (base (frame w))) <> [] /\
      Forall (fun p => isnan (snd p) = true \/ (m <? snd p) = true) pre /\
      Forall (fun p => isnan (snd p) = true \/ (m <=? snd p) = true) post /\
      (ascending_keys (base (frame w)) -> Forall (fun p => (y < fst p)%Z) post) /\
      generate_insights w =
        (mkWorld (frame w)
           (out w ++ report_head (frame w) ++ report_tail (Key y) m), inl tt) /\
      demographics_line (Key y) m =
        (nl ++ "4. Attendee Demographics: Year " ++ decimal y ++
         " students gave the lowest average ratings (" ++ format_fixed 2 m ++ ").")%string) /\
  Forall (fun p => isnan (snd p) = true <->
                   group_rows (fst p) (YearOfStudy (base (frame w)))
                     (OverallRating (base (frame w))) = [])
         (groupby_mean (base (frame w))) /\
  (forall df : DataFrame,
      YearOfStudy_dtype df = Int64 ->
      ascending_keys df /\ ascending_keys (clean_data df)) /\
  groupby_mean (base spec_year_groups) = [(1%Z, 3); (2%Z, 4.5); (3%Z, 2); (4%Z, 4)] /\
  In (Print (nl ++ "4. Attendee Demographics: Year 3 students gave the lowest average ratings (2.00)."))
     (out (fst (generate_insights (mkWorld spec_year_groups [])))) /\
  groupby_mean (base unobserved_year) = [(1%Z, nan); (2%Z, 4); (3%Z, 4)] /\
  In (Print (nl ++ "4. Attendee Demographics: Year 2 students gave the lowest average ratings (4.00)."))
     (out (fst (generate_insights (mkWorld unobserved_year [])))).
Proof.
  intros Hrank. destruct (ReportFacts.rankable_means _ Hrank) as [Hex Hnan].
  split; [|split; [exact Hnan|split; [exact ReportFacts.int64_keys_ascend|]]].
  - destruct (ReportFacts.idxmin_skipna _ Hex)
      as [pre [y [m [post [Hs [Hfin [Hidx [Hmin [H1 H2]]]]]]]]].
    pose proof (PyFloatFacts.ltb_isnan_l _ _ Hfin) as Hm.
    exists pre, y, m, post.
    split; [exact Hs|]. split; [exact Hm|]. split; [|split; [exact H1|]].
    { rewrite Forall_forall in Hnan.
      assert (Hin : In (y, m) (groupby_mean (base (frame w))))
        by (rewrite Hs; apply in_elt).
      specialize (Hnan _ Hin). simpl in Hnan. intros E.
      apply Hnan in E. rewrite Hm in E. discriminate. }
    split; [exact H2|]. split; [|split].
    + unfold ascending_keys. rewrite <- ReportFacts.groupby_mean_keys, Hs.
      rewrite map_app. simpl map. intros Hasc.
      apply ReportFacts.sorted_after in Hasc. rewrite Forall_map in Hasc.
      exact Hasc.
    + rewrite ReportFacts.generate_insights_eq, Hidx, Hmin. reflexivity.
    + reflexivity.
  - split; [vm_compute; reflexivity|].
    split; [vm_compute; do 12 right; left; reflexivity|].
    split; [vm_compute; reflexivity|].
    vm_compute. do 12 right. left. reflexivity.
Qed.

Lemma generate_insights_lowest_year_witness :
  groupby_mean (base unobserved_year) = [(1%Z, nan); (2%Z, 4); (3%Z, 4)].
Proof.
  apply (generate_insights_lowest_year (mkWorld unobserved_year [])).
  vm_compute. reflexivity.
Defined.

End ReportClaims.

(** * Part IV: further properties of the code *)

Section CleanerProperties.
Import PyFloat Pandas Frame Examples.
Open Scope float_scope.

(** X1.  Cleaning is idempotent on every table, clean or not: a second pass
    of the cleaner over its own output changes nothing. *)
Theorem clean_data_twice (df : DataFrame) :
  clean_data (clean_data df) = clean_data df.
Proof.
  rewrite (FrameFacts.clean_data_eq (clean_data df)).
  rewrite (FrameFacts.clean_data_eq df) at 1 2 3 4 5 6 7 8 9 10 11.
  cbn [Timestamp OverallRating SpeakerRating WorkshopRating FoodRating
       WhatDidYouLike Improvements AttendedEvents YearOfStudy YearOfStudy_dtype].
  rewrite !MoreFacts.fill_median_idempotent, !MoreFacts.replace_idempotent,
    MoreFacts.astype_category_idempotent.
  symmetry. apply FrameFacts.clean_data_eq.
Qed.

(** X2.  A rating column without a single number (every cell missing) comes
    out of the cleaner as it went in: there is no value to fill with. *)
Theorem clean_data_entirely_missing (df : DataFrame) (c : RatingColumn) :
  entirely_missing (get_rating c df) = true ->
  get_rating c (clean_data df) = get_rating c df /\
  forallb isnan (get_rating c (clean_data df)) = true.
Proof.
  intros H.
  assert (E : get_rating c (clean_data df) = get_rating c df).
  { rewrite FrameFacts.clean_data_rating. unfold fill_median.
    destruct (isnull_any (get_rating c df)); [|reflexivity].
    rewrite (MoreFacts.median_no_number _ (MoreFacts.entirely_missing_dropna _ H)).
    apply MoreFacts.fillna_nan. reflexivity. }
  split; [exact E|]. rewrite E. unfold entirely_missing in H.
  destruct (get_rating c df); [discriminate|exact H].
Qed.

Lemma clean_data_entirely_missing_witness :
  get_rating Speaker (clean_data one_row_speaker_missing) =
  get_rating Speaker one_row_speaker_missing.
Proof.
  apply (clean_data_entirely_missing one_row_speaker_missing Speaker).
  reflexivity.
Defined.

End CleanerProperties.

Section SentimentProperties.
Import PyFloat Sentiment Examples.
Open Scope float_scope.

(** X3.  The category is monotone in the polarity: when p <= q, a Positive p
    makes q Positive and a Negative q makes p Negative. *)
Theorem get_sentiment_category_monotone (p q : float) :
  (p <=? q) = true ->
  (get_sentiment_category p = "Positive"%string ->
   get_sentiment_category q = "Positive"%string) /\
  (get_sentiment_category q = "Negative"%string ->
   get_sentiment_category p = "Negative"%string).
Proof.
  intros Hpq. unfold get_sentiment_category. split.
  - destruct (0.1 <? p) eqn:Hp.
    + rewrite (PyFloatFacts.ltb_leb_trans _ _ _ Hp Hpq). reflexivity.
    + destruct (p <? -0.1); discriminate.
  - destruct (0.1 <? q) eqn:Hq; [discriminate|].
    destruct (q <? -0.1) eqn:Hq'; [|discriminate].
    intros _. pose proof (PyFloatFacts.leb_ltb_trans _ _ _ Hpq Hq') as Hp'.
    rewrite Hp'.
    rewrite (PyFloatFacts.ltb_asym _ _ (PyFloatFacts.ltb_trans p _ 0.1 Hp' eq_refl)).
    reflexivity.
Qed.

Lemma get_sentiment_category_monotone_witness :
  get_sentiment_category 0.8 = "Positive"%string.
Proof.
  apply (proj1 (get_sentiment_category_monotone 0.3 0.8 eq_refl)). reflexivity.
Defined.

(** X4.  The two cutoffs are symmetric: the category of -p is the mirror
    image of the category of p (Positive and Negative exchanged, Neutral
    kept), for every float p. *)
Theorem get_sentiment_category_opp (p : float) :
  get_sentiment_category (- p) = mirror (get_sentiment_category p).
Proof.
  unfold get_sentiment_category.
  rewrite MoreFacts.above_cutoff_opp, MoreFacts.below_cutoff_opp.
  destruct (p <? -0.1) eqn:Hn.
  - rewrite (PyFloatFacts.ltb_asym _ _ (PyFloatFacts.ltb_trans p _ 0.1 Hn eq_refl)).
    reflexivity.
  - destruct (0.1 <? p); reflexivity.
Qed.

End SentimentProperties.

Section PipelineProperties.
Import PyFloat Pandas Frame Generator Capability Sentiment Scorer Report Main Examples.
Open Scope float_scope.

(** X5.  Whatever the random calls return, the generated table matches the
    base schema (equal column lengths, overall ratings 1 to 5, secondary
    ratings 1 to 5 or missing, years 1 to 4, int64 years), and each secondary
    rating column keeps exactly 90 numbers, so none is entirely missing. *)
Theorem create_dummy_data_schema (r : Draws) :
  valid_draws r = true ->
  base_schema (create_dummy_data r) = true /\
  YearOfStudy_dtype (create_dummy_data r) = Int64 /\
  (forall c : RatingColumn,
      List.length (dropna (get_rating c (create_dummy_data r))) = 90%nat /\
      entirely_missing (get_rating c (create_dummy_data r)) = false).
Proof.
  intros Hv. split; [apply PipelineFacts.generated_schema, Hv|].
  split; [reflexivity|]. intros c.
  split; [|apply PipelineFacts.generated_not_entirely_missing, Hv].
  destruct (PipelineFacts.valid_draws_spec r Hv) as [_ [Hd [_ [Hs _]]]].
  pose proof (PipelineFacts.generated_rating_length r c Hv) as Hlen.
  pose proof (filter_length isnan (get_rating c (create_dummy_data r))) as Hf.
  assert (Hmiss : isnull_sum (get_rating c (create_dummy_data r)) = 10%nat).
  { rewrite GeneratorFacts.generated_rating.
    apply GeneratorFacts.generated_rating_missing; [apply Hd|apply Hs]. }
  unfold isnull_sum in Hmiss. unfold dropna. lia.
Qed.

Lemma create_dummy_data_schema_witness :
  base_schema (create_dummy_data overlapping_draws) = true.
Proof.
  apply (create_dummy_data_schema overlapping_draws). vm_compute. reflexivity.
Defined.

(** X6.  The cleaner always repairs the generated table: whatever the random
    calls return, the cleaned table has no missing rating and no empty text,
    every secondary rating is a rating or a midpoint of two, exactly the five
    emptied improvement cells read "No feedback", the "like" texts are the ten
    fixed sentences repeated, and the table can be ranked by the reporter,
    with ascending year labels. *)
Theorem clean_data_repairs_generated (r : Draws) :
  valid_draws r = true ->
  no_missing_ratings (clean_data (create_dummy_data r)) = true /\
  no_empty_text (clean_data (create_dummy_data r)) = true /\
  (forall c : RatingColumn,
      forallb is_half_rating (get_rating c (clean_data (create_dummy_data r))) = true) /\
  List.length (filter (String.eqb "No feedback")
                 (Improvements (clean_data (create_dummy_data r)))) = 5%nat /\
  WhatDidYouLike (clean_data (create_dummy_data r)) = list_mul likes 10 /\
  reportable (clean_data (create_dummy_data r)) = true /\
  ascending_keys (clean_data (create_dummy_data r)).
Proof.
  intros Hv.
  split.
  { apply PipelineFacts.half_ratings_clean. intros c.
    apply PipelineFacts.cleaned_generated_half, Hv. }
  split; [apply PipelineFacts.cleaned_no_empty_text|].
  split; [intros c; apply PipelineFacts.cleaned_generated_half, Hv|].
  split; [apply PipelineFacts.cleaned_sentinel_count, Hv|].
  split; [apply PipelineFacts.cleaned_likes|].
  apply PipelineFacts.cleaned_generated_reportable, Hv.
Qed.

Lemma clean_data_repairs_generated_witness :
  no_missing_ratings (clean_data (create_dummy_data overlapping_draws)) = true.
Proof.
  apply (clean_data_repairs_generated overlapping_draws). vm_compute. reflexivity.
Defined.

(** X7.  In every run the "like" categories repeat with period ten, whatever
    the scorer and the random calls: the column is the categories of the ten
    fixed sentences, ten times over.  The number of Positive rows is therefore
    a multiple of ten, and the percentage the report prints for them is one of
    0.0, 10.0, ..., 100.0. *)
Theorem like_categories_periodic `{Capabilities} (r : Draws) :
  like_sentiment_category
    (perform_sentiment_analysis (clean_data (create_dummy_data r))) =
  list_mul (map (fun t => get_sentiment_category (score_polarity t)) likes) 10 /\
  exists k : nat,
    (k <= 10)%nat /\
    List.length
      (filter (String.eqb "Positive")
         (like_sentiment_category
            (perform_sentiment_analysis (clean_data (create_dummy_data r))))) =
    (10 * k)%nat /\
    format_fixed 1
      (percentage "Positive"
         (like_sentiment_category
            (perform_sentiment_analysis (clean_data (create_dummy_data r))))) =
    (decimal (Z.of_nat (10 * k)) ++ ".0")%string.
Proof.
  assert (E : like_sentiment_category
                (perform_sentiment_analysis (clean_data (create_dummy_data r))) =
              list_mul (map (fun t => get_sentiment_category (score_polarity t))
                            likes) 10).
  { unfold perform_sentiment_analysis. cbn [like_sentiment_category].
    rewrite PipelineFacts.cleaned_likes, map_map.
    apply (PipelineFacts.map_list_mul
             (fun t => get_sentiment_category (score_polarity t))). }
  split; [exact E|]. rewrite E.
  set (cats := map (fun t => get_sentiment_category (score_polarity t)) likes).
  exists (List.length (filter (String.eqb "Positive") cats)).
  assert (Hk : (List.length (filter (String.eqb "Positive") cats) <= 10)%nat).
  { eapply Nat.le_trans; [apply filter_length_le|].
    unfold cats. rewrite length_map. reflexivity. }
  split; [exact Hk|]. split; [apply PipelineFacts.filter_list_mul|].
  unfold percentage.
  rewrite PipelineFacts.filter_list_mul, GeneratorFacts.list_mul_length.
  replace (List.length cats) with 10%nat by (unfold cats; rewrite length_map; reflexivity).
  revert Hk. generalize (List.length (filter (String.eqb "Positive") cats)).
  intros k Hk.
  do 11 (destruct k as [|k]; [vm_compute; reflexivity|]). lia.
Qed.

(** X8.  On a cleaned and scored table the positive corpus is the empty
    string exactly when no row is Positive, and the negative corpus exactly
    when no row is Negative: the cleaner has left no empty text, so one
    selected row is enough to make the corpus non-empty. *)
Theorem corpus_empty_exactly `{Capabilities} (df : DataFrame) :
  (positive_feedback (perform_sentiment_analysis (clean_data df)) = ""%string <->
   no_positive (perform_sentiment_analysis (clean_data df)) = true) /\
  (negative_feedback (perform_sentiment_analysis (clean_data df)) = ""%string <->
   forallb (fun c => negb (String.eqb c "Negative"))
     (improvements_sentiment_category
        (perform_sentiment_analysis (clean_data df))) = true).
Proof.
  destruct (FrameFacts.clean_data_text df) as [Elk Eim].
  unfold positive_feedback, negative_feedback, no_positive,
    perform_sentiment_analysis.
  cbn [like_sentiment_category improvements_sentiment_category base].
  split; apply PipelineFacts.corpus_empty_iff.
  - rewrite !length_map. reflexivity.
  - rewrite Elk. apply CleanFacts.replace_no_empty.
  - rewrite !length_map. reflexivity.
  - rewrite Eim. apply CleanFacts.replace_no_empty.
Qed.

End PipelineProperties.

Section ReportProperties.
Import PyFloat Pandas Frame Generator Capability Effects Sentiment Scorer Report Main Examples.
Open Scope float_scope.

(** X9.  Whatever the table and the renderer, the visualizer saves the chart
    of the overall ratings and the chart of the sentiments, in that order.  On
    a table without a year-of-study group it then stops with the IndexError of
    the bar chart: the year chart is not saved and no word cloud is rendered.
    Otherwise it saves the year chart before it renders a word cloud; it saves
    the word-cloud file exactly when it returns, which it does exactly when
    both renderer calls return; an exception of the first renderer call is the
    exception it raises. *)
Theorem visualize_data_saves `{Capabilities} (w : World) :
  saved (out (fst (visualize_data w))) =
    saved (out w) ++
    ["overall_rating_distribution.png"; "sentiment_analysis_distribution.png"]%string ++
    match groupby_mean (base (frame w)) with
    | [] => []
    | _ :: _ =>
        "rating_by_year.png"%string ::
        match snd (visualize_data w) with
        | inl _ => ["feedback_wordclouds.png"%string]
        | inr _ => []
        end
    end /\
  (groupby_mean (base (frame w)) = [] ->
   snd (visualize_data w) =
     inr (IndexError "index 0 is out of bounds for axis 0 with size 0")) /\
  (snd (visualize_data w) = inl tt <->
   groupby_mean (base (frame w)) <> [] /\
   (exists i, render_wordcloud positive_options (positive_feedback (frame w)) = inl i) /\
   (exists j, render_wordcloud negative_options (negative_feedback (frame w)) = inl j)) /\
  (groupby_mean (base (frame w)) <> [] ->
   forall e : exn,
     render_wordcloud positive_options (positive_feedback (frame w)) = inr e ->
     snd (visualize_data w) = inr e).
Proof.
  destruct (groupby_mean (base (frame w))) as [|g gs] eqn:Hg.
  - rewrite (ReportFacts.visualize_data_no_group w Hg). cbn [fst snd out].
    rewrite PipelineFacts.saved_app. split; [reflexivity|].
    split; [reflexivity|]. split.
    + split; [discriminate|]. intros [Hne _]. contradiction.
    + intros Hne. contradiction.
  - assert (Hne : groupby_mean (base (frame w)) <> [])
      by (rewrite Hg; discriminate).
    rewrite (ReportFacts.visualize_data_groups w Hne).
    destruct (render_wordcloud positive_options _) as [i|e];
      [destruct (render_wordcloud negative_options _) as [j|e]|];
      cbn [fst snd out]; rewrite !PipelineFacts.saved_app;
      (split; [reflexivity|]); (split; [discriminate|]); split.
    + split; [intros _; split; [discriminate|split; eexists; reflexivity]|reflexivity].
    + intros _ e. discriminate.
    + split; [discriminate|]. intros [_ [_ [j Hj]]]. discriminate.
    + intros _ e'. discriminate.
    + split; [discriminate|]. intros [_ [[i Hi] _]]. discriminate.
    + intros _ e' He'. injection He' as ->. reflexivity.
Qed.

(** X10.  On a table without any year-of-study group (a table without rows)
    the reporter prints its first three findings and then stops with the
    ValueError of [idxmin] on an empty Series: the year-of-study finding and
    the end of the report are never printed.  With no rows the average is
    printed as nan and the satisfaction is reported as low. *)
Theorem generate_insights_no_group (w : World) :
  group_keys (YearOfStudy (base (frame w))) (YearOfStudy_dtype (base (frame w))) = [] ->
  generate_insights w =
    (mkWorld (frame w) (out w ++ report_head (frame w)),
     inr (ValueError "attempt to get argmin of an empty sequence")) /\
  (OverallRating (base (frame w)) = [] ->
   nth_error (report_head (frame w)) 1 =
     Some (Print (nl ++ "1. Overall Satisfaction: The average rating for the event was nan out of 5.")) /\
   nth_error (report_head (frame w)) 2 =
     Some (Print "   - Insight: Overall satisfaction is low, and significant improvements are needed.")).
Proof.
  intros Hk. split.
  - rewrite ReportFacts.generate_insights_eq. unfold groupby_mean. rewrite Hk.
    reflexivity.
  - intros Hov. unfold report_head. cbn [nth_error]. rewrite Hov.
    split; reflexivity.
Qed.

Lemma generate_insights_no_group_witness :
  snd (generate_insights (mkWorld no_rows [])) =
  inr (ValueError "attempt to get argmin of an empty sequence").
Proof.
  rewrite (proj1 (generate_insights_no_group (mkWorld no_rows []) eq_refl)).
  reflexivity.
Defined.

(** X11.  The outcome of the whole script depends on the renderer alone:
    whatever the random calls return, the run ends with the exception of the
    first renderer call that raises, and with exit status 0 when both return
    (the reporter never raises on the table the script builds).  The three
    chart files are saved in every run, the word-cloud file exactly in the
    runs that succeed, and a successful run ends with the farewell line. *)
Theorem main_outcome `{Capabilities} (r : Draws) :
  valid_draws r = true ->
  snd (main r) =
    match render_wordcloud positive_options
            (positive_feedback
               (perform_sentiment_analysis (clean_data (create_dummy_data r)))) with
    | inr e => inr e
    | inl _ =>
        match render_wordcloud negative_options
                (negative_feedback
                   (perform_sentiment_analysis (clean_data (create_dummy_data r)))) with
        | inr e => inr e
        | inl _ => inl tt
        end
    end /\
  saved (out (fst (main r))) =
    ["overall_rating_distribution.png"; "sentiment_analysis_distribution.png";
     "rating_by_year.png"]%string ++
    match snd (main r) with
    | inl _ => ["feedback_wordclouds.png"%string]
    | inr _ => []
    end /\
  (snd (main r) = inl tt ->
   exists before : list event, out (fst (main r)) = before ++ [Print farewell]).
Proof.
  intros Hv.
  destruct (PipelineFacts.cleaned_generated_reportable r Hv) as [Hrep _].
  destruct (ReportFacts.reportable_means _ Hrep) as [Hne Hnum].
  assert (Hnum' : Forall number
                    (map snd (groupby_mean (clean_data (create_dummy_data r))))).
  { apply Forall_forall. intros x Hx. apply in_map_iff in Hx.
    destruct Hx as [p [<- Hp]]. rewrite forallb_forall in Hnum.
    apply negb_true_iff, Hnum, Hp. }
  destruct (ReportFacts.idxmin_spec _ Hne Hnum')
    as [pre [y [m [post [_ [Hidx _]]]]]].
  rewrite (PipelineFacts.main_cases r Hne), Hidx.
  destruct (render_wordcloud positive_options _) as [i|e];
    [destruct (render_wordcloud negative_options _) as [j|e]|];
    cbn [fst snd out]; (split; [reflexivity|]); split.
  - rewrite !PipelineFacts.saved_app, PipelineFacts.saved_main_prefix,
      PipelineFacts.saved_report_head, PipelineFacts.saved_report_tail.
    reflexivity.
  - intros _. eexists. reflexivity.
  - rewrite !PipelineFacts.saved_app, PipelineFacts.saved_main_prefix. reflexivity.
  - discriminate.
  - rewrite !PipelineFacts.saved_app, PipelineFacts.saved_main_prefix. reflexivity.
  - discriminate.
Qed.

Lemma main_outcome_witness :
  snd (@main strict_capabilities overlapping_draws) =
  inr (ValueError "We need at least 1 word to plot a word cloud, got 0.").
Proof.
  rewrite (proj1 (@main_outcome strict_capabilities overlapping_draws
                    ltac:(vm_compute; reflexivity))).
  vm_compute. reflexivity.
Defined.

(** X12.  The percentage the report prints for a category is 0.0 when no row
    has it (the lookup falls back to 0) and 100.0 when every row has it. *)
Theorem percentage_extremes (label : string) (cats : list string) :
  (forallb (fun c => negb (String.eqb label c)) cats = true ->
   format_fixed 1 (percentage label cats) = "0.0"%string) /\
  (cats <> [] -> (Z.of_nat (List.length cats) < 2 ^ 53)%Z ->
   forallb (String.eqb label) cats = true ->
   format_fixed 1 (percentage label cats) = "100.0"%string).
Proof.
  split.
  - intros H. unfold percentage. rewrite (MoreFacts.filter_none _ _ H). reflexivity.
  - intros Hne Hsmall H. unfold percentage.
    rewrite (MoreFacts.forallb_filter_id _ _ H).
    destruct (List.length cats) as [|n] eqn:E.
    + apply length_zero_iff_nil in E. contradiction.
    + rewrite MeanFacts.div_self by lia. reflexivity.
Qed.

Lemma percentage_extremes_witness :
  format_fixed 1 (percentage "Positive" ["Positive"; "Positive"; "Positive"]%string) =
  "100.0"%string.
Proof.
  apply (percentage_extremes "Positive" ["Positive"; "Positive"; "Positive"]%string);
    [discriminate|reflexivity|reflexivity].
Defined.

(** X13.  The cleaner and the scorer keep the table rectangular: from a table
    whose nine columns have equal lengths they produce a scored table in which
    all thirteen columns (the nine of the input and the four the scorer adds)
    have one cell per row, and as many rows as the input. *)
Theorem pipeline_keeps_columns_aligned `{Capabilities} (df : DataFrame) :
  well_formed df = true ->
  aligned (perform_sentiment_analysis (clean_data df)) = true /\
  nrows (base (perform_sentiment_analysis (clean_data df))) = nrows df.
Proof.
  intros Hwf.
  assert (Hrows : nrows (clean_data df) = nrows df).
  { unfold nrows. destruct (FrameFacts.clean_data_frame df) as [-> _]. reflexivity. }
  split; [|exact Hrows].
  unfold well_formed in Hwf.
  do 7 (apply andb_true_iff in Hwf; destruct Hwf as [Hwf ?]).
  apply Nat.eqb_eq in Hwf, H0, H1, H2, H3, H4, H5, H6.
  rename Hwf into Lov, H6 into Lsp, H5 into Lwk, H4 into Lfd, H3 into Llk,
         H2 into Lim, H1 into Lat, H0 into Lyr.
  destruct (FrameFacts.clean_data_frame df) as [Ets [Eov [Eat Eyr]]].
  destruct (FrameFacts.clean_data_text df) as [Elk Eim].
  pose proof (FrameFacts.clean_data_rating Speaker df) as Esp.
  pose proof (FrameFacts.clean_data_rating Workshop df) as Ewk.
  pose proof (FrameFacts.clean_data_rating Food df) as Efd.
  unfold get_rating in Esp, Ewk, Efd.
  unfold aligned, perform_sentiment_analysis, well_formed.
  cbn [base like_sentiment improvements_sentiment like_sentiment_category
       improvements_sentiment_category].
  rewrite !length_map, Hrows, Eov, Eat, Eyr, Elk, Eim, Esp, Ewk, Efd.
  unfold replace. rewrite !length_map, !CleanFacts.fill_median_length.
  rewrite Lov, Lsp, Lwk, Lfd, Llk, Lim, Lat, Lyr, !Nat.eqb_refl. reflexivity.
Qed.

Lemma pipeline_keeps_columns_aligned_witness :
  aligned (@perform_sentiment_analysis strict_capabilities (clean_data four_rows)) = true.
Proof.
  apply (@pipeline_keeps_columns_aligned strict_capabilities four_rows).
  reflexivity.
Defined.

End ReportProperties.
